(** * Reservation pricing and booking submission (BookRoom page)

    A shallow embedding of the booking page of the hotel reservation
    application: the pricing calculator [calculateTotal], the selection
    toggle [handleServiceToggle], the zod schema [bookingSchema] and the
    submission flow [handleSubmit], together with the part of the remote
    table store the flow writes to.

    Conventions of the model.
    - A JavaScript [number] is an exact rational or [NaN].  Prices come out
      of JSON and are therefore finite; the only source of [NaN] on this
      page is an unparseable date string or [parseInt] of an empty field.
      Rounding and overflow of IEEE doubles are outside the model.
    - [Date.parse] belongs to the host; the development is parametric in it.
      [ISO.parse] is the date-only ISO form that a date input produces and is
      used for the concrete runs.
    - Effects ([toast], [navigate], the two inserts) are run in a small monad
      over a [World] that holds the remote tables and a log of what the page
      did.  An exception does not undo earlier writes.

    The second half of the development covers the pages around the booking
    form: the list of rooms, the payment page, the sign-in and sign-up
    page, the profile page and the navigation bar, together with the
    triggers and the row-level policies of the schema that decide what
    their requests do.  Their handlers run in the same kind of monad over
    a [PageWorld]; callbacks are taken to run one after the other. *)

From Stdlib Require Import ZArith QArith Qround List String Ascii Bool.
From Stdlib Require Import Lia Lqa Permutation.
From Stdlib Require Import Sorted DecimalString.
From Stdlib Require Import SpecFloat.
Import ListNotations.

Local Open Scope string_scope.

(** ** JavaScript values used by the page *)

Module JS.

Inductive number : Type :=
| Num (q : Q)
| NaN.

Definition sub (a b : number) : number :=
  match a, b with
  | Num x, Num y => Num (x - y)
  | _, _ => NaN
  end.

Definition add (a b : number) : number :=
  match a, b with
  | Num x, Num y => Num (x + y)
  | _, _ => NaN
  end.

Definition mul (a b : number) : number :=
  match a, b with
  | Num x, Num y => Num (x * y)
  | _, _ => NaN
  end.

(** Division by zero gives an infinity or [NaN] in JavaScript; the page
    only ever divides by the positive constant of milliseconds per day. *)
Definition div (a b : number) : number :=
  match a, b with
  | Num x, Num y => if Qeq_bool y 0 then NaN else Num (x / y)
  | _, _ => NaN
  end.

Definition Math_ceil (a : number) : number :=
  match a with
  | Num x => Num (inject_Z (Qceiling x))
  | NaN => NaN
  end.

(** [a <= b] on numbers: false as soon as one side is [NaN]. *)
Definition leb (a b : number) : bool :=
  match a, b with
  | Num x, Num y => Qle_bool x y
  | _, _ => false
  end.


(** [a >= 0]. *)
Definition nonneg (a : number) : Prop :=
  match a with
  | Num x => 0 <= x
  | NaN => False
  end.

(** A [Date] object is its time value: milliseconds since the epoch, or
    none for an invalid date. *)
Record Date : Type := mkDate { time_value : option Z }.

Definition getTime (d : Date) : number :=
  match time_value d with
  | Some t => Num (inject_Z t)
  | None => NaN
  end.

(** Relational comparison of two dates goes through their time values. *)
Definition Date_leb (a b : Date) : bool := leb (getTime a) (getTime b).

(** Truthiness of a string: only the empty string is falsy. *)
Definition truthy (s : string) : bool :=
  match s with
  | EmptyString => false
  | String _ _ => true
  end.

(** [a || b] on strings. *)
Definition or_else (a b : string) : string := if truthy a then a else b.

End JS.

Import JS.

(** ** The date-only ISO format, [YYYY-MM-DD], read as UTC midnight *)

Module ISO.

Definition digit (c : ascii) : option Z :=
  let n := Z.of_nat (nat_of_ascii c) in
  if (48 <=? n)%Z && (n <=? 57)%Z then Some (n - 48)%Z else None.

Fixpoint digits (acc : Z) (l : list ascii) : option Z :=
  match l with
  | [] => Some acc
  | c :: l' =>
      match digit c with
      | Some d => digits (10 * acc + d)%Z l'
      | None => None
      end
  end.

Definition is_leap (y : Z) : bool :=
  ((y mod 4 =? 0) && negb (y mod 100 =? 0) || (y mod 400 =? 0))%Z.

Definition days_in_month (y m : Z) : Z :=
  if (m =? 2)%Z then (if is_leap y then 29 else 28)%Z
  else if ((m =? 4) || (m =? 6) || (m =? 9) || (m =? 11))%Z then 30%Z
  else 31%Z.

(** Days between 1970-01-01 and the given civil date (proleptic
    Gregorian calendar). *)
Definition days_from_civil (y m d : Z) : Z :=
  let y' := (if m <=? 2 then y - 1 else y)%Z in
  let era := (y' / 400)%Z in
  let yoe := (y' - era * 400)%Z in
  let mp := ((m + 9) mod 12)%Z in
  let doy := ((153 * mp + 2) / 5 + d - 1)%Z in
  let doe := (yoe * 365 + yoe / 4 - yoe / 100 + doy)%Z in
  (era * 146097 + doe - 719468)%Z.

Definition ms_per_day : Z := (1000 * 60 * 60 * 24)%Z.

Definition parse (s : string) : option Z :=
  match list_ascii_of_string s with
  | [y1; y2; y3; y4; "-"%char; m1; m2; "-"%char; d1; d2] =>
      match digits 0 [y1; y2; y3; y4], digits 0 [m1; m2], digits 0 [d1; d2] with
      | Some y, Some m, Some d =>
          if ((1 <=? m) && (m <=? 12) && (1 <=? d) && (d <=? days_in_month y m))%Z
          then Some (days_from_civil y m d * ms_per_day)%Z
          else None
      | _, _, _ => None
      end
  | _ => None
  end.

End ISO.

(** ** Data of the page *)

Record Room : Type := mkRoom {
  room_id_of : string;
  room_name : string;
  room_type : string;
  price_per_night : Q;
  room_description : string;
  capacity : Z
}.

Record AdditionalService : Type := mkService {
  id : string;
  name : string;
  description : string;
  price : Q;
  icon : string
}.

Record User : Type := mkUser { user_id_of : string }.

Record FormData : Type := mkFormData {
  checkIn : string;
  checkOut : string;
  guests : number;
  specialRequests : string
}.

(** The React state of the component: one field per [useState]. *)
Record State : Type := mkState {
  room : option Room;
  services : list AdditionalService;
  selectedServices : list string;
  user : option User;
  formData : FormData
}.

Definition with_selectedServices (st : State) (sel : list string) : State :=
  mkState (room st) (services st) sel (user st) (formData st).

(** ** The pricing calculator and the selection toggle *)

Section Pricing.

(** The host's [Date.parse]: the time value of a date string, if any. *)
Variable Date_parse : string -> option Z.

Definition new_Date (s : string) : Date := mkDate (Date_parse s).

Definition ms_per_day : number := Num (1000 * 60 * 60 * 24).

(** [Math.ceil((checkOut.getTime() - checkIn.getTime()) / (1000*60*60*24))] *)
Definition nights (checkIn checkOut : Date) : number :=
  Math_ceil (div (sub (getTime checkOut) (getTime checkIn)) ms_per_day).

(** [services.find(s => s.id === serviceId)] *)
Definition find_service (services : list AdditionalService) (serviceId : string)
  : option AdditionalService :=
  find (fun s => String.eqb (id s) serviceId) services.

(** The body of the [forEach] callback, acting on the running total. *)
Definition add_service (services : list AdditionalService)
    (total : number) (serviceId : string) : number :=
  match find_service services serviceId with
  | Some service => add total (Num (price service))
  | None => total
  end.

Definition calculateTotal (st : State) : number :=
  match room st with
  | None => Num 0
  | Some room =>
      if negb (truthy (checkIn (formData st)))
         || negb (truthy (checkOut (formData st)))
      then Num 0
      else
        let checkIn := new_Date (checkIn (formData st)) in
        let checkOut := new_Date (checkOut (formData st)) in
        let nights := nights checkIn checkOut in
        let total := mul nights (Num (price_per_night room)) in
        fold_left (add_service (services st)) (selectedServices st) total
  end.

End Pricing.

(** [prev.includes(serviceId)] *)
Definition includes (prev : list string) (serviceId : string) : bool :=
  existsb (fun x => String.eqb x serviceId) prev.

(** The updater passed to [setSelectedServices]. *)
Definition handleServiceToggle (serviceId : string) (prev : list string)
  : list string :=
  if includes prev serviceId
  then filter (fun x => negb (String.eqb x serviceId)) prev
  else prev ++ [serviceId].

(** ** The calculator in double precision *)

(** The numbers of the page are IEEE 754 binary64 values.  This module
    runs the calculator on them, with the operations of the standard
    library's specification of the format ([SpecFloat]): every operation
    rounds to the nearest value, ties to even. *)
Module Double.

Local Open Scope Z_scope.

Definition prec : Z := 53.
Definition emax : Z := 1024.

Definition number : Type := spec_float.

Definition NaN : number := S754_nan.

(** The literal [0]. *)
Definition zero : number := S754_zero false.

(** The double nearest to an integer (the integer itself below 2^53). *)
Definition of_Z (z : Z) : number := binary_normalize prec emax z 0 false.

Definition add : number -> number -> number := SFadd prec emax.
Definition sub : number -> number -> number := SFsub prec emax.
Definition mul : number -> number -> number := SFmul prec emax.
Definition div : number -> number -> number := SFdiv prec emax.

(** [a <= b] *)
Definition leb : number -> number -> bool := SFleb.

(** A [DECIMAL] column reaches the page as a JSON number: the double
    nearest to the decimal.  The quotient of two integers below 2^53 is
    rounded once, so this is that double for every value of a
    [DECIMAL(10,2)] column. *)
Definition of_decimal (q : Q) : number :=
  div (of_Z (Qnum q)) (of_Z (Zpos (Qden q))).

(** [Math.ceil]: the least integer that is not below the argument; a
    result of zero keeps the sign of the argument. *)
Definition Math_ceil (x : number) : number :=
  match x with
  | S754_finite s m e =>
      if 0 <=? e then x
      else
        let unit := 2 ^ (- e) in
        let z := if s then - (Zpos m / unit) else (Zpos m + unit - 1) / unit in
        if z =? 0 then S754_zero s else of_Z z
  | _ => x
  end.

(** The rational a finite double stands for. *)
Definition value (x : number) : option Q :=
  match x with
  | S754_zero _ => Some 0%Q
  | S754_finite s m e =>
      let v := if 0 <=? e then inject_Z (Zpos m * 2 ^ e)
               else (Zpos m # Z.to_pos (2 ^ (- e)))%Q in
      Some (if s then (- v)%Q else v)
  | _ => None
  end.

Definition getTime (d : Date) : number :=
  match time_value d with
  | Some t => of_Z t
  | None => NaN
  end.

(** [1000 * 60 * 60 * 24] *)
Definition ms_per_day : number :=
  mul (mul (mul (of_Z 1000) (of_Z 60)) (of_Z 60)) (of_Z 24).

(** [Math.ceil((checkOut.getTime() - checkIn.getTime()) / (1000*60*60*24))] *)
Definition nights (checkIn checkOut : Date) : number :=
  Math_ceil (div (sub (getTime checkOut) (getTime checkIn)) ms_per_day).

(** The body of the [forEach] callback, acting on the running total. *)
Definition add_service (services : list AdditionalService)
    (total : number) (serviceId : string) : number :=
  match find_service services serviceId with
  | Some service => add total (of_decimal (price service))
  | None => total
  end.

Section Pricing.

Variable Date_parse : string -> option Z.

Definition calculateTotal (st : State) : number :=
  match room st with
  | None => zero
  | Some room =>
      if negb (truthy (checkIn (formData st)))
         || negb (truthy (checkOut (formData st)))
      then zero
      else
        let checkIn := new_Date Date_parse (checkIn (formData st)) in
        let checkOut := new_Date Date_parse (checkOut (formData st)) in
        let nights := nights checkIn checkOut in
        let total := mul nights (of_decimal (price_per_night room)) in
        fold_left (add_service (services st)) (selectedServices st) total
  end.

End Pricing.

(** *** Vocabulary of the rounding lemmas *)

(** The binary64 value of the integer [v], [0 < v < 2^53]: the mantissa
    shifted to 53 bits. *)
Definition canonical (s : bool) (v : positive) : number :=
  S754_finite s (Z.to_pos (Zpos v * 2 ^ (53 - Zpos (digits2_pos v))))
    (Zpos (digits2_pos v) - 53).

(** The sticky bit of a location. *)
Definition sticky (l : location) : bool :=
  match l with loc_Exact => false | _ => true end.

(** The mantissa [binary_round_aux] rounds a mantissa of 53 ([n = 0]) or
    54 ([n = 1]) bits to. *)
Definition rounded (q : Z) (l : location) (n : Z) : Z :=
  if n =? 0 then round_nearest_even q l
  else round_nearest_even (q / 2)
         (loc_of_shr_record (Build_shr_record (q / 2) (Z.odd q) (sticky l))).

(** A rounded mantissa that reached 2^53 moves to the next exponent. *)
Definition settled (m e : Z) : Z * Z :=
  if m =? 2 ^ 53 then (2 ^ 52, e + 1) else (m, e).

(** What [binary_round_aux] returns once the mantissa is rounded. *)
Definition packed (s : bool) (m e : Z) : number :=
  let '(m', e') := settled m e in
  if e' <=? 971 then S754_finite s (Z.to_pos m') e' else S754_infinity s.

(** Milliseconds per day. *)
Definition day : Z := 86400000.

(** The ceiling of [d / 86400000] as [Math.ceil] returns it: a negative
    quotient above -1 gives [-0]. *)
Definition whole_nights (d : Z) : number :=
  if d <? 0
  then (if (- d) / day =? 0 then S754_zero true else of_Z (- ((- d) / day)))
  else of_Z ((d + day - 1) / day).

(** An order-preserving integer for the values met by the calculator. *)
Definition rank (x : number) : Z :=
  match x with
  | S754_zero _ => 0
  | S754_finite false m e => Zpos m * 2 ^ (e + 1100)
  | S754_finite true m e => - (Zpos m * 2 ^ (e + 1100))
  | S754_infinity false => 2 ^ 2300
  | S754_infinity true => - 2 ^ 2300
  | S754_nan => 0
  end.

(** Zero, a positive normal number, or [+Infinity]: never [NaN], never
    negative. *)
Definition good (x : number) : Prop :=
  match x with
  | S754_zero _ => True
  | S754_infinity s => s = false
  | S754_finite s m e => s = false /\ 2 ^ 52 <= Zpos m < 2 ^ 53 /\ -1000 <= e <= 971
  | S754_nan => False
  end.

(** Zero or a positive normal number of moderate size: what a price, a
    rate or a small integer is as a double. *)
Definition amount (x : number) : Prop :=
  match x with
  | S754_zero _ => True
  | S754_finite s m e => s = false /\ 2 ^ 52 <= Zpos m < 2 ^ 53 /\ -200 <= e <= 200
  | _ => False
  end.

End Double.

(** ** The zod schema of the form *)

Module Zod.

Inductive ZodIssueCode : Type := too_small | invalid_type.

Record ZodIssue : Type := mkIssue {
  code : ZodIssueCode;
  path : list string;
  message : string
}.

(** [z.string().min(1, msg)] at key [key]: the issues it raises. *)
Definition string_min1 (key msg : string) (data : string) : list ZodIssue :=
  if (String.length data <? 1)%nat then [mkIssue too_small [key] msg] else [].

(** [z.number().min(1, msg)] at key [key]: [NaN] is not a number for zod,
    and a number has to be at least 1. *)
Definition number_min1 (key msg : string) (data : number) : list ZodIssue :=
  match data with
  | NaN => [mkIssue invalid_type [key] "Expected number, received nan"]
  | Num q => if Qle_bool 1 q then [] else [mkIssue too_small [key] msg]
  end.

(** A [ZodError] is thrown with at least one issue. *)
Inductive ZodError : Type :=
| mkZodError (first : ZodIssue) (rest : list ZodIssue).

Definition errors (e : ZodError) : list ZodIssue :=
  match e with mkZodError first rest => first :: rest end.

Definition first_issue (e : ZodError) : ZodIssue :=
  match e with mkZodError first _ => first end.

Record BookingInput : Type := mkInput {
  in_checkIn : string;
  in_checkOut : string;
  in_guests : number
}.

(** The issues of [bookingSchema], key after key in the order of the
    object's shape. *)
Definition bookingSchema_issues (data : BookingInput) : list ZodIssue :=
  string_min1 "checkIn" "Selecciona fecha de entrada" (in_checkIn data)
  ++ string_min1 "checkOut" "Selecciona fecha de salida" (in_checkOut data)
  ++ number_min1 "guests" "Debe haber al menos 1 huésped" (in_guests data).

(** [bookingSchema.parse(data)]: the data, or the error thrown. *)
Definition bookingSchema_parse (data : BookingInput) : ZodError + BookingInput :=
  match bookingSchema_issues data with
  | [] => inr data
  | first :: rest => inl (mkZodError first rest)
  end.

End Zod.

(** ** The remote table store *)

Module Supabase.

Inductive booking_status : Type :=
| pendiente | confirmada | cancelada | completada.

(** The object handed to [from('bookings').insert]. *)
Record bookings_Insert : Type := mkBookingInsert {
  user_id : string;
  room_id : string;
  check_in : string;
  check_out : string;
  guests : number;
  total_amount : number;
  special_requests : string;
  status : booking_status
}.

(** A stored booking: the inserted columns and the key the store chose. *)
Record bookings_Row : Type := mkBookingRow {
  id : string;
  columns : bookings_Insert
}.

(** A service link, as inserted and as stored (the store's own key and
    timestamp of a link are never read by the page). *)
Record booking_services_Row : Type := mkLink {
  booking_id : string;
  service_id : string;
  quantity : Z
}.

Record additional_services_Row : Type := mkServiceRow {
  service : AdditionalService;
  active : bool
}.

Record Database : Type := mkDatabase {
  bookings : list bookings_Row;
  booking_services : list booking_services_Row;
  additional_services : list additional_services_Row
}.

(** What the page cannot decide: whether the store takes an insert
    (policies, constraints, the network), and the key of a new booking.
    A refused insert carries the message of the error. *)
Record Server : Type := mkServer {
  on_insert_bookings : Database -> bookings_Insert -> string + string;
  on_insert_booking_services :
    Database -> list booking_services_Row -> option string
}.

Definition add_booking (d : Database) (r : bookings_Row) : Database :=
  mkDatabase (bookings d ++ [r]) (booking_services d) (additional_services d).

Definition add_links (d : Database) (l : list booking_services_Row) : Database :=
  mkDatabase (bookings d) (booking_services d ++ l) (additional_services d).

(** [from('additional_services').select('*').eq('active', true)] *)
Definition select_active_services (d : Database) : list AdditionalService :=
  map service (filter active (additional_services d)).

End Supabase.

(** ** Effects of the page *)

Inductive Event : Type :=
| Toast_error (message : string)
| Toast_success (message : string)
| Navigate (to : string)
| Called_calculateTotal (result : number)
| Insert_bookings (payload : Supabase.bookings_Insert)
| Insert_booking_services (payload : list Supabase.booking_services_Row).

Record World : Type := mkWorld {
  db : Supabase.Database;
  log : list Event
}.

Inductive Exn : Type :=
| Thrown_ZodError (e : Zod.ZodError)
| Thrown_PostgrestError (message : string).

(** A computation reads and changes the world and either returns or
    throws; the world it leaves behind is kept in both cases. *)
Definition M (A : Type) : Type := World -> (Exn + A) * World.

Definition ret {A} (a : A) : M A := fun w => (inr a, w).

Definition bind {A B} (c : M A) (k : A -> M B) : M B :=
  fun w =>
    match c w with
    | (inr a, w') => k a w'
    | (inl e, w') => (inl e, w')
    end.

Definition throw {A} (e : Exn) : M A := fun w => (inl e, w).

Definition try_catch {A} (body : M A) (handler : Exn -> M A) : M A :=
  fun w =>
    match body w with
    | (inr a, w') => (inr a, w')
    | (inl e, w') => handler e w'
    end.

Definition emit (e : Event) : M unit :=
  fun w => (inr tt, mkWorld (db w) (log w ++ [e])).

Declare Scope page_scope.
Delimit Scope page_scope with page.
Notation "x <- c ;; k" := (bind c (fun x => k))
  (at level 100, c at next level, right associativity) : page_scope.
Notation "c ;; k" := (bind c (fun _ => k))
  (at level 100, right associativity) : page_scope.
Local Open Scope page_scope.

Definition toast_error (message : string) : M unit := emit (Toast_error message).
Definition toast_success (message : string) : M unit := emit (Toast_success message).
Definition navigate (to : string) : M unit := emit (Navigate to).

Section Submission.

Variable Date_parse : string -> option Z.
Variable server : Supabase.Server.

(** [bookingSchema.parse(...)], throwing the [ZodError]. *)
Definition parse_or_throw (data : Zod.BookingInput) : M Zod.BookingInput :=
  match Zod.bookingSchema_parse data with
  | inr validatedData => ret validatedData
  | inl e => throw (Thrown_ZodError e)
  end.

(** [calculateTotal()], leaving a mark in the log that it was called. *)
Definition call_calculateTotal (st : State) : M number :=
  let total := calculateTotal Date_parse st in
  emit (Called_calculateTotal total) ;; ret total.

(** [from('bookings').insert(payload).select().single()], followed by
    [if (bookingError) throw bookingError]. *)
Definition insert_booking (payload : Supabase.bookings_Insert)
  : M Supabase.bookings_Row :=
  fun w =>
    let w1 := mkWorld (db w) (log w ++ [Insert_bookings payload]) in
    match Supabase.on_insert_bookings server (db w) payload with
    | inr new_id =>
        let booking := Supabase.mkBookingRow new_id payload in
        (inr booking, mkWorld (Supabase.add_booking (db w) booking) (log w1))
    | inl message => (inl (Thrown_PostgrestError message), w1)
    end.

(** [from('booking_services').insert(serviceRecords)], followed by
    [if (servicesError) throw servicesError].  The rows go in with one
    statement: all of them or none. *)
Definition insert_booking_services
    (serviceRecords : list Supabase.booking_services_Row) : M unit :=
  fun w =>
    let w1 := mkWorld (db w) (log w ++ [Insert_booking_services serviceRecords]) in
    match Supabase.on_insert_booking_services server (db w) serviceRecords with
    | None => (inr tt, mkWorld (Supabase.add_links (db w) serviceRecords) (log w1))
    | Some message => (inl (Thrown_PostgrestError message), w1)
    end.

(** [selectedServices.map(serviceId => ({ booking_id, service_id, quantity: 1 }))] *)
Definition serviceRecords (booking_id : string) (selectedServices : list string)
  : list Supabase.booking_services_Row :=
  map (fun serviceId => Supabase.mkLink booking_id serviceId 1) selectedServices.

(** The [catch] clause of [handleSubmit]. *)
Definition on_error (error : Exn) : M unit :=
  match error with
  | Thrown_ZodError e => toast_error (Zod.message (Zod.first_issue e))
  | Thrown_PostgrestError message =>
      toast_error (or_else message "Error al crear la reserva")
  end.

Definition handleSubmit (st : State) : M unit :=
  match user st, room st with
  | Some user, Some room =>
      try_catch
        (validatedData <- parse_or_throw
           (Zod.mkInput (checkIn (formData st)) (checkOut (formData st))
                        (guests (formData st))) ;;
         let checkIn := new_Date Date_parse (Zod.in_checkIn validatedData) in
         let checkOut := new_Date Date_parse (Zod.in_checkOut validatedData) in
         if Date_leb checkOut checkIn
         then toast_error
                "La fecha de salida debe ser posterior a la fecha de entrada"
         else
           total <- call_calculateTotal st ;;
           booking <- insert_booking
             (Supabase.mkBookingInsert
                (user_id_of user) (room_id_of room)
                (Zod.in_checkIn validatedData) (Zod.in_checkOut validatedData)
                (Zod.in_guests validatedData) total
                (specialRequests (formData st)) Supabase.pendiente) ;;
           (if (0 <? List.length (selectedServices st))%nat
            then insert_booking_services
                   (serviceRecords (Supabase.id booking) (selectedServices st))
            else ret tt) ;;
           toast_success "Reserva creada exitosamente" ;;
           navigate ("/payment/" ++ Supabase.id booking))
        on_error
  | _, _ => toast_error "Error en la sesión"
  end.

End Submission.

(** ** Vocabulary of the statements *)

(** [n] is the ceiling of the stay [checkOut_ms - checkIn_ms] counted in
    days of 86400000 milliseconds. *)
Definition is_ceiling_of_days (n checkIn_ms checkOut_ms : Z) : Prop :=
  ((n - 1) * 86400000 < checkOut_ms - checkIn_ms <= n * 86400000)%Z.

(** The services that the loop of [calculateTotal] finds, in the order of
    the selection. *)
Definition found_services (services : list AdditionalService)
    (selected : list string) : list AdditionalService :=
  flat_map (fun serviceId =>
              match find_service services serviceId with
              | Some service => [service]
              | None => []
              end) selected.

Definition sum_prices (l : list AdditionalService) : Q :=
  fold_right (fun s acc => price s + acc) 0 l.


(** The selection after a sequence of clicks, starting from the empty one. *)
Definition toggles (clicks : list string) : list string :=
  fold_left (fun prev serviceId => handleServiceToggle serviceId prev) clicks [].

(** The form as handed to [bookingSchema.parse]. *)
Definition draft (st : State) : Zod.BookingInput :=
  Zod.mkInput (checkIn (formData st)) (checkOut (formData st))
              (guests (formData st)).

Definition issue_guests : Zod.ZodIssue :=
  Zod.mkIssue Zod.too_small ["guests"] "Debe haber al menos 1 huésped".


(** The booking that [handleSubmit] sends for a given total. *)
Definition booking_payload (st : State) (u : User) (r : Room) (total : number)
  : Supabase.bookings_Insert :=
  Supabase.mkBookingInsert
    (user_id_of u) (room_id_of r)
    (checkIn (formData st)) (checkOut (formData st)) (guests (formData st))
    total (specialRequests (formData st)) Supabase.pendiente.

(** What is left of [handleSubmit] once the schema and the order of the
    dates have been checked. *)
Definition after_validation (Date_parse : string -> option Z)
    (server : Supabase.Server) (st : State) (u : User) (r : Room) : M unit :=
  (total <- call_calculateTotal Date_parse st ;;
   booking <- insert_booking server (booking_payload st u r total) ;;
   (if (0 <? List.length (selectedServices st))%nat
    then insert_booking_services server
           (serviceRecords (Supabase.id booking) (selectedServices st))
    else ret tt) ;;
   toast_success "Reserva creada exitosamente" ;;
   navigate ("/payment/" ++ Supabase.id booking))%page.

(** The price of a linked service according to the table of services. *)
Definition catalogue_price (d : Supabase.Database) (serviceId : string) : Q :=
  match find (fun r => String.eqb (id (Supabase.service r)) serviceId)
             (Supabase.additional_services d) with
  | Some r => price (Supabase.service r)
  | None => 0
  end.

(** The prices of the services linked to a booking. *)
Definition linked_prices (d : Supabase.Database) (bookingId : string) : Q :=
  fold_right
    (fun l acc =>
       if String.eqb (Supabase.booking_id l) bookingId
       then inject_Z (Supabase.quantity l) * catalogue_price d (Supabase.service_id l) + acc
       else acc)
    0 (Supabase.booking_services d).



(** A time value that a [Date] can hold: at most 8.64e15 milliseconds
    from the epoch. *)
Definition valid_time (t : Z) : Prop := (Z.abs t <= 8640000000000000)%Z.

(** The double [Math.ceil] returns for the whole number [n] of nights of
    a stay of [d] milliseconds: [-0] when a negative quotient is rounded
    up to zero. *)
Definition ceiling_as_double (n d : Z) : Double.number :=
  if ((n =? 0) && (d <? 0))%Z then S754_zero true else Double.of_Z n.

(** A non-negative decimal with numerator and denominator below 2^53, as
    is every non-negative value of a [DECIMAL(10,2)] column. *)
Definition decimal_amount (q : Q) : Prop :=
  (0 <= Qnum q < 2 ^ 53)%Z /\ (Zpos (Qden q) < 2 ^ 53)%Z.

(** [q] is the whole number [k], whatever its denominator. *)
Definition whole_amount (q : Q) (k : Z) : Prop :=
  Qnum q = (k * Zpos (Qden q))%Z.

(** The sum of the whole prices [k s] of the services of a list. *)
Definition sum_whole (k : AdditionalService -> Z) (l : list AdditionalService) : Z :=
  fold_right (fun s acc => (k s + acc)%Z) 0%Z l.

(** The running total after adding the prices of [chosen], one after the
    other, in double precision. *)
Definition add_prices (chosen : list AdditionalService) (start : Double.number)
  : Double.number :=
  fold_left (fun total s => Double.add total (Double.of_decimal (price s)))
            chosen start.

(** The checks of the submission, in the order in which the
    specification lists them. *)
Inductive Check : Type :=
| Dates_present
| Checkout_after_checkin
| Guests_at_least_1.

Definition listed_checks : list Check :=
  [Dates_present; Checkout_after_checkin; Guests_at_least_1].

(** Whether a form offends a check. *)
Definition offends (Date_parse : string -> option Z) (st : State) (c : Check)
  : bool :=
  match c with
  | Dates_present =>
      negb (truthy (checkIn (formData st))) || negb (truthy (checkOut (formData st)))
  | Checkout_after_checkin =>
      Date_leb (new_Date Date_parse (checkOut (formData st)))
               (new_Date Date_parse (checkIn (formData st)))
  | Guests_at_least_1 => negb (leb (Num 1) (guests (formData st)))
  end.

(** The first offended check in the listed order. *)
Definition first_listed_offence (Date_parse : string -> option Z) (st : State)
  : option Check :=
  find (offends Date_parse st) listed_checks.

(** ** Concrete runs *)

Module Examples.

Definition suite : Room := mkRoom "r1" "Suite Ejecutiva" "suite" 100 "" 3.

Definition spa : AdditionalService := mkService "s1" "Spa y Masajes" "" 50 "".
Definition tour : AdditionalService := mkService "s2" "Tour Guiado" "" 120 "".

Definition client : User := mkUser "u1".

Definition page (ci co : string) (g : number) (sel : list string) : State :=
  mkState (Some suite) [spa; tour] sel (Some client) (mkFormData ci co g "").

(** Two nights with the spa. *)
Definition two_nights : State := page "2025-01-01" "2025-01-03" (Num 2) ["s1"].

(** Check-out two days before check-in. *)
Definition early_checkout : State := page "2025-01-03" "2025-01-01" (Num 2) [].




(** A selected service that the page does not know. *)
Definition stale_selection : State :=
  page "2025-01-01" "2025-01-02" (Num 2) ["s9"].

Definition dinner : AdditionalService :=
  mkService "s9" "Cena Romántica" "" 200 "".

Definition empty_db : Supabase.Database := Supabase.mkDatabase [] [] [].

(** The dinner has been withdrawn from sale. *)
Definition db_with_dinner : Supabase.Database :=
  Supabase.mkDatabase [] []
    [Supabase.mkServiceRow spa true; Supabase.mkServiceRow tour true;
     Supabase.mkServiceRow dinner false].

Definition start (d : Supabase.Database) : World := mkWorld d [].

Definition accepting : Supabase.Server :=
  Supabase.mkServer (fun _ _ => inr "b1") (fun _ _ => None).

Definition refusing_bookings : Supabase.Server :=
  Supabase.mkServer (fun _ _ => inl "new row violates row-level security policy")
                    (fun _ _ => None).

Definition refusing_links : Supabase.Server :=
  Supabase.mkServer (fun _ _ => inr "b1")
                    (fun _ _ => Some "insert or update violates foreign key constraint").

(** A room whose rate has cents. *)
Definition cabin : Room := mkRoom "r2" "Cabaña" "doble" (3510 # 100) "" 2.

Definition loft : Room := mkRoom "r3" "Loft" "doble" (9999 # 100) "" 2.

Definition stay (r : Room) (ci co : string) (sel : list string) : State :=
  mkState (Some r) [spa; tour] sel (Some client) (mkFormData ci co (Num 2) "").

(** Three nights without services. *)
Definition cabin_three_nights : State := stay cabin "2025-01-01" "2025-01-04" [].
Definition loft_three_nights : State := stay loft "2025-01-01" "2025-01-04" [].

(** No guests and a check-out before the check-in. *)
Definition no_guests_early_checkout : State :=
  page "2025-01-03" "2025-01-01" (Num 0) [].

End Examples.

(** ** The booking form as the user drives it *)

Definition with_formData (st : State) (fd : FormData) : State :=
  mkState (room st) (services st) (selectedServices st) (user st) fd.



(** ** The list of rooms (Rooms page) *)

Module RoomsPage.

Record Room : Type := mkRoom {
  id : string;
  name : string;
  type : string;
  price_per_night : Q;
  description : string;
  capacity : Z;
  status : string;
  amenities : list string;
  image_url : option string
}.

(** [filterType === "all" ? rooms : rooms.filter(room => room.type === filterType)] *)
Definition filteredRooms (filterType : string) (rooms : list Room) : list Room :=
  if String.eqb filterType "all" then rooms
  else filter (fun room => String.eqb (type room) filterType) rooms.

(** The order in which [fetchRooms] asks for the rooms:
    [order('price_per_night', { ascending: true })]. *)
Definition cheaper (r1 r2 : Room) : Prop := price_per_night r1 <= price_per_night r2.

(** The values of the type filter, besides ["all"]. *)
Definition room_types : list string := ["simple"; "doble"; "suite"; "presidencial"].

End RoomsPage.

(** ** Text as JavaScript sees it *)

Module Text.

(** A string of the model is the UTF-8 encoding of a JavaScript string.
    [units c] is what the byte [c] adds to the [length] of the JavaScript
    string, which counts UTF-16 code units: one for an ASCII byte and for
    the first byte of a two- or three-byte sequence, two for the first
    byte of a four-byte sequence (a surrogate pair), nothing for a
    continuation byte. *)
Definition units (c : ascii) : nat :=
  let n := nat_of_ascii c in
  if (n <? 128)%nat then 1%nat
  else if (n <? 192)%nat then 0%nat
  else if (n <? 240)%nat then 1%nat
  else 2%nat.

Fixpoint length (s : string) : nat :=
  match s with
  | EmptyString => 0%nat
  | String c s' => (units c + length s')%nat
  end.

Definition is_digit (c : ascii) : bool :=
  match ISO.digit c with
  | Some _ => true
  | None => false
  end.

(** [/^\d{n}$/.test(s)] *)
Definition digits_exactly (n : nat) (s : string) : bool :=
  (String.length s =? n)%nat && forallb is_digit (list_ascii_of_string s).

(** [hay.includes(needle)] *)
Fixpoint includes (needle hay : string) : bool :=
  String.prefix needle hay
  || match hay with
     | EmptyString => false
     | String _ rest => includes needle rest
     end.

End Text.

(** ** The zod schemas of the sign-in and sign-up forms *)

Module ZodForms.

Inductive ZodIssueCode : Type := too_small | invalid_string.

Record ZodIssue : Type := mkIssue {
  code : ZodIssueCode;
  path : list string;
  message : string
}.

Inductive ZodError : Type :=
| mkZodError (first : ZodIssue) (rest : list ZodIssue).

Definition errors (e : ZodError) : list ZodIssue :=
  match e with mkZodError first rest => first :: rest end.

Definition first_issue (e : ZodError) : ZodIssue :=
  match e with mkZodError first _ => first end.

(** [z.string().min(n, msg)] at key [key] *)
Definition string_min (n : nat) (key msg data : string) : list ZodIssue :=
  if (Text.length data <? n)%nat then [mkIssue too_small [key] msg] else [].

(** [z.string().regex(/^\d{n}$/, msg)] at key [key] *)
Definition string_digits (n : nat) (key msg data : string) : list ZodIssue :=
  if Text.digits_exactly n data then [] else [mkIssue invalid_string [key] msg].

(** [z.string().email(msg)] at key [key], for the test [is_email] that zod
    applies. *)
Definition string_email (is_email : string -> bool) (key msg data : string)
  : list ZodIssue :=
  if is_email data then [] else [mkIssue invalid_string [key] msg].

End ZodForms.

(** ** The rest of the store: payments, profiles and roles *)

Module Roles.

Inductive app_role : Type := client | receptionist | admin.

Definition app_role_eqb (a b : app_role) : bool :=
  match a, b with
  | client, client | receptionist, receptionist | admin, admin => true
  | _, _ => false
  end.

Record Row : Type := mkRow {
  user_id : string;
  role : app_role
}.

End Roles.

Module Profiles.

(** A nullable text column is absent ([None]) or holds a string. *)
Record Row : Type := mkRow {
  id : string;
  full_name : string;
  email : string;
  phone : option string;
  address : option string;
  dni : option string
}.

End Profiles.

Module Payments.

Inductive payment_status : Type :=
| pendiente | completado | fallido | reembolsado.

(** The object handed to [from('payments').insert]. *)
Record Insert : Type := mkInsert {
  booking_id : string;
  user_id : string;
  amount : number;
  payment_method : string;
  status : payment_status;
  transaction_id : string
}.

Record Row : Type := mkRow {
  id : string;
  columns : Insert
}.

End Payments.

Module Site.

Record Tables : Type := mkTables {
  booking_tables : Supabase.Database;
  payments : list Payments.Row;
  profiles : list Profiles.Row;
  user_roles : list Roles.Row
}.

(** [public.has_role(_user_id, _role)]:
    [SELECT EXISTS (SELECT 1 FROM user_roles WHERE user_id = _user_id AND role = _role)] *)
Definition has_role (t : Tables) (_user_id : string) (_role : Roles.app_role) : bool :=
  existsb (fun r => String.eqb (Roles.user_id r) _user_id
                    && Roles.app_role_eqb (Roles.role r) _role)
          (user_roles t).

(** The [USING] clause shared by the policies for receptionists:
    [has_role(auth.uid(), 'receptionist') OR has_role(auth.uid(), 'admin')]. *)
Definition is_staff (t : Tables) (uid : string) : bool :=
  has_role t uid Roles.receptionist || has_role t uid Roles.admin.

(** Row-level security of [bookings].  For [SELECT] there are two
    policies, "Users can view their own bookings" and "Receptionists can
    view all bookings"; for [UPDATE] there is one, "Receptionists can
    update all bookings".  A row that no policy admits is left out of the
    statement without an error. *)
Definition may_select_booking (t : Tables) (uid : string)
    (b : Supabase.bookings_Row) : bool :=
  String.eqb (Supabase.user_id (Supabase.columns b)) uid || is_staff t uid.

Definition may_update_booking (t : Tables) (uid : string)
    (b : Supabase.bookings_Row) : bool :=
  is_staff t uid.

Definition with_status (s : Supabase.booking_status) (b : Supabase.bookings_Row)
  : Supabase.bookings_Row :=
  let c := Supabase.columns b in
  Supabase.mkBookingRow (Supabase.id b)
    (Supabase.mkBookingInsert
       (Supabase.user_id c) (Supabase.room_id c)
       (Supabase.check_in c) (Supabase.check_out c) (Supabase.guests c)
       (Supabase.total_amount c) (Supabase.special_requests c) s).

Definition with_bookings (t : Tables) (l : list Supabase.bookings_Row) : Tables :=
  mkTables
    (Supabase.mkDatabase l
       (Supabase.booking_services (booking_tables t))
       (Supabase.additional_services (booking_tables t)))
    (payments t) (profiles t) (user_roles t).

(** [UPDATE bookings SET status = s WHERE id = bookingId], run for the
    session of [uid]. *)
Definition update_booking_status (uid bookingId : string)
    (s : Supabase.booking_status) (t : Tables) : Tables :=
  with_bookings t
    (map (fun b =>
            if String.eqb (Supabase.id b) bookingId && may_update_booking t uid b
            then with_status s b else b)
         (Supabase.bookings (booking_tables t))).

(** [SELECT * FROM bookings WHERE id = bookingId], run for the session of
    [uid] (nobody when signed out), as [.single()] reads it: exactly one
    row, or an error. *)
Definition select_single_booking (t : Tables) (session : option string)
    (bookingId : string) : option Supabase.bookings_Row :=
  match session with
  | None => None
  | Some uid =>
      match filter (fun b => String.eqb (Supabase.id b) bookingId
                             && may_select_booking t uid b)
                   (Supabase.bookings (booking_tables t)) with
      | [b] => Some b
      | _ => None
      end
  end.

Definition add_payment (t : Tables) (p : Payments.Row) : Tables :=
  mkTables (booking_tables t) (payments t ++ [p]) (profiles t) (user_roles t).

(** A new row of [auth.users], as far as the triggers read it. *)
Record auth_user : Type := mkAuthUser {
  new_id : string;
  new_email : string;
  raw_user_meta_data : list (string * string)
}.

(** [raw_user_meta_data->>key]: the text under the key, if there is one. *)
Definition meta_text (new : auth_user) (key : string) : option string :=
  match find (fun kv => String.eqb (fst kv) key) (raw_user_meta_data new) with
  | Some kv => Some (snd kv)
  | None => None
  end.

Definition COALESCE (x : option string) (default : string) : string :=
  match x with
  | Some v => v
  | None => default
  end.

(** [public.handle_new_user_role()], fired by [on_profile_created] after
    an insert into [profiles]. *)
Definition handle_new_user_role (new : Profiles.Row) (t : Tables) : Tables :=
  mkTables (booking_tables t) (payments t) (profiles t)
    (user_roles t ++ [Roles.mkRow (Profiles.id new) Roles.client]).

(** [INSERT INTO public.profiles], with its trigger. *)
Definition insert_profile (new : Profiles.Row) (t : Tables) : Tables :=
  handle_new_user_role new
    (mkTables (booking_tables t) (payments t) (profiles t ++ [new]) (user_roles t)).

(** [public.handle_new_user()], fired by [on_auth_user_created] after an
    insert into [auth.users]. *)
Definition handle_new_user (new : auth_user) (t : Tables) : Tables :=
  insert_profile
    (Profiles.mkRow (new_id new)
       (COALESCE (meta_text new "full_name") "")
       (new_email new)
       (Some (COALESCE (meta_text new "phone") ""))
       (Some (COALESCE (meta_text new "address") ""))
       (Some (COALESCE (meta_text new "dni") "")))
    t.

(** Row-level security of [profiles] for [UPDATE]: "Users can update
    their own profile", [auth.uid() = id]. *)
Definition may_update_profile (uid : string) (p : Profiles.Row) : bool :=
  String.eqb uid (Profiles.id p).

(** [UPDATE profiles SET full_name, phone, address, dni WHERE id = target],
    run for the session of [uid]. *)
Definition update_profile (uid target : string)
    (full_name : string) (phone address dni : option string)
    (t : Tables) : Tables :=
  mkTables (booking_tables t) (payments t)
    (map (fun p =>
            if String.eqb (Profiles.id p) target && may_update_profile uid p
            then Profiles.mkRow (Profiles.id p) full_name (Profiles.email p)
                                phone address dni
            else p)
         (profiles t))
    (user_roles t).

(** The rows that [checkUserRole] of the navigation bar asks for:
    [from('user_roles').select('role').eq('user_id', userId)
     .in('role', ['receptionist', 'admin'])], for the session of that same
    user (who may see their own roles). *)
Definition staff_roles (t : Tables) (userId : string) : list Roles.Row :=
  filter (fun r => String.eqb (Roles.user_id r) userId
                   && (Roles.app_role_eqb (Roles.role r) Roles.receptionist
                       || Roles.app_role_eqb (Roles.role r) Roles.admin))
         (user_roles t).

End Site.

(** ** Effects of the other pages *)

(** The request of [auth.signUp]. *)
Record SignUpRequest : Type := mkSignUpRequest {
  request_email : string;
  request_password : string;
  data_full_name : string;
  data_dni : string;
  data_phone : string;
  data_address : string;
  emailRedirectTo : string
}.

Inductive Effect : Type :=
| Shown (e : Event)
| Console_error (message : string)
| Insert_payments (payload : Payments.Insert)
| Update_bookings (bookingId : string) (status : Supabase.booking_status)
| Invoke_function (function_name : string) (paymentId : string)
| Update_profiles (id full_name : string) (phone address dni : option string)
| Auth_signUp (request : SignUpRequest)
| Auth_signInWithPassword (email password : string).

(** The world of a page: the tables, what the page did, and the part of
    its React state that its handlers write. *)
Record PageWorld (S : Type) : Type := mkPageWorld {
  tables : Site.Tables;
  effects : list Effect;
  ui : S
}.

Arguments mkPageWorld {S} _ _ _.
Arguments tables {S} _.
Arguments effects {S} _.
Arguments ui {S} _.

(** An error object of the client library, as far as the pages look at
    it: its message. *)
Record ApiError : Type := mkApiError { error_message : string }.

(** A computation of a page over the world [W] that returns or throws an
    [E]; the world it leaves behind is kept in both cases. *)
Definition Flow (W E A : Type) : Type := W -> (E + A) * W.

Definition pure {W E A} (a : A) : Flow W E A := fun w => (inr a, w).

Definition and_then {W E A B} (c : Flow W E A) (k : A -> Flow W E B)
  : Flow W E B :=
  fun w =>
    match c w with
    | (inr a, w') => k a w'
    | (inl e, w') => (inl e, w')
    end.

Definition raise {W E A} (e : E) : Flow W E A := fun w => (inl e, w).

Definition catching {W E A} (body : Flow W E A) (handler : E -> Flow W E A)
  : Flow W E A :=
  fun w =>
    match body w with
    | (inr a, w') => (inr a, w')
    | (inl e, w') => handler e w'
    end.

(** [try { body } finally { cleanup }] *)
Definition finally {W E A} (body : Flow W E A) (cleanup : Flow W E unit)
  : Flow W E A :=
  fun w =>
    match body w with
    | (result, w') =>
        match cleanup w' with
        | (inr _, w'') => (result, w'')
        | (inl e, w'') => (inl e, w'')
        end
    end.

Definition perform {S E} (e : Effect) : Flow (PageWorld S) E unit :=
  fun w => (inr tt, mkPageWorld (tables w) (effects w ++ [e]) (ui w)).

Definition toast_error' {S E} (message : string) : Flow (PageWorld S) E unit :=
  perform (Shown (Toast_error message)).

Definition toast_success' {S E} (message : string) : Flow (PageWorld S) E unit :=
  perform (Shown (Toast_success message)).

Definition navigate' {S E} (to : string) : Flow (PageWorld S) E unit :=
  perform (Shown (Navigate to)).

Definition get_ui {S E} : Flow (PageWorld S) E S :=
  fun w => (inr (ui w), w).

Definition set_ui {S E} (s : S) : Flow (PageWorld S) E unit :=
  fun w => (inr tt, mkPageWorld (tables w) (effects w) s).

Declare Scope flow_scope.
Delimit Scope flow_scope with flow.
Notation "x <- c ;; k" := (and_then c (fun x => k))
  (at level 100, c at next level, right associativity) : flow_scope.
Notation "c ;; k" := (and_then c (fun _ => k))
  (at level 100, right associativity) : flow_scope.

(** ** The payment page *)

Module PaymentPage.

(** The React state of the component. *)
Record State : Type := mkState {
  booking : option Supabase.bookings_Row;
  loading : bool;
  processing : bool;
  selectedMethod : string;
  user : option User
}.

Definition initial : State := mkState None true false "yape" None.

Definition World : Type := PageWorld State.

(** What the page cannot decide: the replies of the store and of the
    receipt function, the key of a new payment, and the clock. *)
Record Backend : Type := mkBackend {
  on_select_bookings : Site.Tables -> string -> option string;
  on_insert_payments : Site.Tables -> Payments.Insert -> string + string;
  on_update_bookings : Site.Tables -> string -> option string;
  on_invoke_generate_receipt : Site.Tables -> string -> option string;
  Date_now : Z
}.

Definition setBooking (b : option Supabase.bookings_Row) : Flow World ApiError unit :=
  fun w =>
    let s := ui w in
    (inr tt,
     mkPageWorld (tables w) (effects w)
       (mkState b (loading s) (processing s) (selectedMethod s) (user s))).

Definition setLoading (b : bool) : Flow World ApiError unit :=
  fun w =>
    let s := ui w in
    (inr tt,
     mkPageWorld (tables w) (effects w)
       (mkState (booking s) b (processing s) (selectedMethod s) (user s))).

Definition setProcessing (b : bool) : Flow World ApiError unit :=
  fun w =>
    let s := ui w in
    (inr tt,
     mkPageWorld (tables w) (effects w)
       (mkState (booking s) (loading s) b (selectedMethod s) (user s))).

Definition setUser (u : User) : Flow World ApiError unit :=
  fun w =>
    let s := ui w in
    (inr tt,
     mkPageWorld (tables w) (effects w)
       (mkState (booking s) (loading s) (processing s) (selectedMethod s) (Some u))).

(** The radio group: [onValueChange={setSelectedMethod}]. *)
Definition setSelectedMethod (m : string) : Flow World ApiError unit :=
  fun w =>
    let s := ui w in
    (inr tt,
     mkPageWorld (tables w) (effects w)
       (mkState (booking s) (loading s) (processing s) m (user s))).

Section Handlers.

Variable backend : Backend.

(** The session of the client: the signed-in user, if any.  It is what
    [auth.getSession()] returns and what [auth.uid()] is in the policies. *)
Variable session : option User.

Local Open Scope flow_scope.

Definition checkAuth : Flow World ApiError unit :=
  match session with
  | None => toast_error' "Sesión expirada" ;; navigate' "/auth"
  | Some session_user => setUser session_user
  end.

(** [from('bookings').select(...).eq('id', bookingId).single()], followed
    by [if (error) throw error]. *)
Definition select_booking (bookingId : string)
  : Flow World ApiError Supabase.bookings_Row :=
  fun w =>
    match on_select_bookings backend (tables w) bookingId with
    | Some message => (inl (mkApiError message), w)
    | None =>
        match Site.select_single_booking (tables w)
                (option_map user_id_of session) bookingId with
        | Some data => (inr data, w)
        | None =>
            (inl (mkApiError "JSON object requested, multiple (or no) rows returned"), w)
        end
    end.

Definition fetchBooking (bookingId : string) : Flow World ApiError unit :=
  finally
    (catching
       (data <- select_booking bookingId ;;
        setBooking (Some data))
       (fun error =>
          toast_error' "Error al cargar la reserva" ;;
          navigate' "/bookings"))
    (setLoading false).

(** [from('payments').insert([payload]).select().single()], followed by
    [if (paymentError) throw paymentError]. *)
Definition insert_payment (payload : Payments.Insert)
  : Flow World ApiError Payments.Row :=
  fun w =>
    let w1 := mkPageWorld (tables w) (effects w ++ [Insert_payments payload]) (ui w) in
    match on_insert_payments backend (tables w) payload with
    | inr new_id =>
        let payment := Payments.mkRow new_id payload in
        (inr payment,
         mkPageWorld (Site.add_payment (tables w) payment) (effects w1) (ui w))
    | inl message => (inl (mkApiError message), w1)
    end.

(** [from('bookings').update({ status: 'confirmada' }).eq('id', id)],
    followed by [if (updateError) throw updateError].  The statement runs
    for the session of the client. *)
Definition confirm_booking (bookingId : string) : Flow World ApiError unit :=
  fun w =>
    let w1 :=
      mkPageWorld (tables w)
        (effects w ++ [Update_bookings bookingId Supabase.confirmada]) (ui w) in
    match on_update_bookings backend (tables w) bookingId with
    | Some message => (inl (mkApiError message), w1)
    | None =>
        match session with
        | Some session_user =>
            (inr tt,
             mkPageWorld
               (Site.update_booking_status (user_id_of session_user) bookingId
                  Supabase.confirmada (tables w))
               (effects w1) (ui w))
        | None => (inr tt, w1)
        end
    end.

(** [functions.invoke('generate-receipt', { body: { paymentId } })],
    followed by [if (functionError) console.error(...)]. *)
Definition generate_receipt (paymentId : string) : Flow World ApiError unit :=
  fun w =>
    let w1 :=
      mkPageWorld (tables w)
        (effects w ++ [Invoke_function "generate-receipt" paymentId]) (ui w) in
    match on_invoke_generate_receipt backend (tables w) paymentId with
    | None => (inr tt, w1)
    | Some message =>
        (inr tt,
         mkPageWorld (tables w1) (effects w1 ++ [Console_error message]) (ui w1))
    end.

(** [`TXN-${Date.now()}`] *)
Definition transaction_id : string :=
  "TXN-" ++ NilZero.string_of_int (Z.to_int (Date_now backend)).

(** The handler of the payment button.  The simulated delay of two
    seconds at its start changes nothing in the state and is left out. *)
Definition handlePayment : Flow World ApiError unit :=
  st <- get_ui ;;
  match user st, booking st with
  | Some user, Some booking =>
      setProcessing true ;;
      finally
        (catching
           (payment <- insert_payment
              (Payments.mkInsert
                 (Supabase.id booking) (user_id_of user)
                 (Supabase.total_amount (Supabase.columns booking))
                 (selectedMethod st) Payments.completado transaction_id) ;;
            confirm_booking (Supabase.id booking) ;;
            generate_receipt (Payments.id payment) ;;
            toast_success' "¡Pago procesado exitosamente!" ;;
            navigate' "/bookings")
           (fun error =>
              toast_error' (or_else (error_message error)
                                    "Error al procesar el pago")))
        (setProcessing false)
  | _, _ => pure tt
  end.

(** The effect run when the page is mounted for the route
    [/payment/:bookingId]: [checkAuth(); if (bookingId) fetchBooking();]
    (the two requests do not touch the same state). *)
Definition mount (bookingId : string) : Flow World ApiError unit :=
  checkAuth ;;
  if truthy bookingId then fetchBooking bookingId else pure tt.

End Handlers.

End PaymentPage.

(** The payment that [handlePayment] sends for a booking. *)
Definition payment_payload (backend : PaymentPage.Backend)
    (st : PaymentPage.State) (u : User)
    (b : Supabase.bookings_Row) : Payments.Insert :=
  Payments.mkInsert (Supabase.id b) (user_id_of u)
    (Supabase.total_amount (Supabase.columns b))
    (PaymentPage.selectedMethod st) Payments.completado
    (PaymentPage.transaction_id backend).

(** The state of the payment page once [processing] is back to false. *)
Definition idle (st : PaymentPage.State) : PaymentPage.State :=
  PaymentPage.mkState (PaymentPage.booking st) (PaymentPage.loading st) false
    (PaymentPage.selectedMethod st) (PaymentPage.user st).

(** The state of the payment page once it has loaded for the user [u]. *)
Definition loaded (st : PaymentPage.State) (u : User)
    (b : option Supabase.bookings_Row) : PaymentPage.State :=
  PaymentPage.mkState b false (PaymentPage.processing st)
    (PaymentPage.selectedMethod st) (Some u).

(** ** Concrete runs of the payment page *)

Module PaymentExamples.

Definition stored : Supabase.bookings_Row :=
  Supabase.mkBookingRow "b1"
    (booking_payload Examples.two_nights Examples.client Examples.suite (Num 250)).

(** A booking of somebody else. *)
Definition foreign : Supabase.bookings_Row :=
  Supabase.mkBookingRow "b2"
    (Supabase.mkBookingInsert "u2" "r1" "2025-02-01" "2025-02-02" (Num 1)
       (Num 100) "" Supabase.pendiente).

Definition site (roles : list Roles.Row) : Site.Tables :=
  Site.mkTables (Supabase.mkDatabase [stored; foreign] [] []) [] [] roles.

Definition for_client : Site.Tables :=
  site [Roles.mkRow "u1" Roles.client].

Definition for_receptionist : Site.Tables :=
  site [Roles.mkRow "u1" Roles.client; Roles.mkRow "u1" Roles.receptionist].

Definition accepting : PaymentPage.Backend :=
  PaymentPage.mkBackend (fun _ _ => None) (fun _ _ => inr "p1")
    (fun _ _ => None) (fun _ _ => None) 1735689600000.

Definition refusing_payments : PaymentPage.Backend :=
  PaymentPage.mkBackend (fun _ _ => None)
    (fun _ _ => inl "invalid input value for enum payment_method")
    (fun _ _ => None) (fun _ _ => None) 1735689600000.

Definition failing_update : PaymentPage.Backend :=
  PaymentPage.mkBackend (fun _ _ => None) (fun _ _ => inr "p1")
    (fun _ _ => Some "Failed to fetch") (fun _ _ => None) 1735689600000.

Definition failing_receipt : PaymentPage.Backend :=
  PaymentPage.mkBackend (fun _ _ => None) (fun _ _ => inr "p1")
    (fun _ _ => None) (fun _ _ => Some "Function not found") 1735689600000.

(** The page, loaded for the stored booking. *)
Definition ready (t : Site.Tables) : PaymentPage.World :=
  mkPageWorld t []
    (PaymentPage.mkState (Some stored) false false "yape" (Some Examples.client)).

Definition fresh (t : Site.Tables) : PaymentPage.World :=
  mkPageWorld t [] PaymentPage.initial.

End PaymentExamples.

(** ** The sign-in and sign-up page *)

Module SignUp.

Record Data : Type := mkData {
  fullName : string;
  email : string;
  dni : string;
  phone : string;
  address : string;
  password : string
}.

End SignUp.

Module SignIn.

Record Data : Type := mkData {
  email : string;
  password : string
}.

End SignIn.

Module AuthPage.

Inductive Thrown : Type :=
| Thrown_ZodError (e : ZodForms.ZodError)
| Thrown_AuthError (e : ApiError).

(** The reply of [auth.signUp]: an error, or the user of the reply (if
    any) and the row that the service added to [auth.users] for it (if
    any).  The service is not part of the repository: the key, the email
    and the metadata of the row are what it chose to store. *)
Inductive SignUpReply : Type :=
| SignUp_error (message : string)
| SignUp_data (data_user : option string) (created : option Site.auth_user).

Record Backend : Type := mkBackend {
  on_signUp : Site.Tables -> SignUpRequest -> SignUpReply;
  on_signInWithPassword : Site.Tables -> string -> string -> string + option string;
  window_location_origin : string
}.

(** [loading] is the state that the handlers write. *)
Definition World : Type := PageWorld bool.

Definition loading (w : World) : bool := ui w.

Section Handlers.

(** The test behind [z.string().email()]. *)
Variable is_email : string -> bool.

Variable backend : Backend.

Definition signUpSchema_issues (data : SignUp.Data) : list ZodForms.ZodIssue :=
  ZodForms.string_min 3 "fullName" "El nombre debe tener al menos 3 caracteres"
    (SignUp.fullName data)
  ++ ZodForms.string_email is_email "email" "Email inválido" (SignUp.email data)
  ++ ZodForms.string_digits 8 "dni" "El DNI debe tener 8 dígitos" (SignUp.dni data)
  ++ ZodForms.string_digits 9 "phone" "El teléfono debe tener 9 dígitos"
       (SignUp.phone data)
  ++ ZodForms.string_min 5 "address" "La dirección debe tener al menos 5 caracteres"
       (SignUp.address data)
  ++ ZodForms.string_min 6 "password"
       "La contraseña debe tener al menos 6 caracteres" (SignUp.password data).

Definition signInSchema_issues (data : SignIn.Data) : list ZodForms.ZodIssue :=
  ZodForms.string_email is_email "email" "Email inválido" (SignIn.email data)
  ++ ZodForms.string_min 1 "password" "Ingrese su contraseña" (SignIn.password data).

Local Open Scope flow_scope.

(** [schema.parse(data)], throwing the [ZodError]. *)
Definition parse {D} (issues : D -> list ZodForms.ZodIssue) (data : D)
  : Flow World Thrown D :=
  match issues data with
  | [] => pure data
  | first :: rest => raise (Thrown_ZodError (ZodForms.mkZodError first rest))
  end.

Definition setLoading (b : bool) : Flow World Thrown unit := set_ui b.

Definition signUp_request (validatedData : SignUp.Data) : SignUpRequest :=
  mkSignUpRequest
    (SignUp.email validatedData) (SignUp.password validatedData)
    (SignUp.fullName validatedData) (SignUp.dni validatedData)
    (SignUp.phone validatedData) (SignUp.address validatedData)
    (window_location_origin backend ++ "/").

(** [options.data] of a request, as the metadata of a user. *)
Definition request_data (request : SignUpRequest) : list (string * string) :=
  [("full_name", data_full_name request); ("dni", data_dni request);
   ("phone", data_phone request); ("address", data_address request)].

(** [auth.signUp(request)], followed by [if (error) throw error]; a row
    added to [auth.users] fires the trigger [on_auth_user_created]. *)
Definition signUp (request : SignUpRequest) : Flow World Thrown (option string) :=
  fun w =>
    let w1 := mkPageWorld (tables w) (effects w ++ [Auth_signUp request]) (ui w) in
    match on_signUp backend (tables w) request with
    | SignUp_error message => (inl (Thrown_AuthError (mkApiError message)), w1)
    | SignUp_data (Some id) (Some new) =>
        (inr (Some id),
         mkPageWorld (Site.handle_new_user new (tables w)) (effects w1) (ui w))
    | SignUp_data data_user _ => (inr data_user, w1)
    end.

(** [auth.signInWithPassword({ email, password })], followed by
    [if (error) throw error]. *)
Definition signInWithPassword (email password : string)
  : Flow World Thrown (option string) :=
  fun w =>
    let w1 :=
      mkPageWorld (tables w) (effects w ++ [Auth_signInWithPassword email password])
                  (ui w) in
    match on_signInWithPassword backend (tables w) email password with
    | inl message => (inl (Thrown_AuthError (mkApiError message)), w1)
    | inr data_user => (inr data_user, w1)
    end.

Definition handleSignUp (signUpData : SignUp.Data) : Flow World Thrown unit :=
  setLoading true ;;
  finally
    (catching
       (validatedData <- parse signUpSchema_issues signUpData ;;
        data_user <- signUp (signUp_request validatedData) ;;
        match data_user with
        | Some _ =>
            toast_success' "¡Registro exitoso! Bienvenido a Hotel Paraíso" ;;
            navigate' "/"
        | None => pure tt
        end)
       (fun error =>
          match error with
          | Thrown_ZodError e =>
              toast_error' (ZodForms.message (ZodForms.first_issue e))
          | Thrown_AuthError e =>
              if Text.includes "already registered" (error_message e)
              then toast_error'
                     "Este email ya está registrado. Intenta iniciar sesión."
              else toast_error' (or_else (error_message e) "Error al registrarse")
          end))
    (setLoading false).

Definition handleSignIn (signInData : SignIn.Data) : Flow World Thrown unit :=
  setLoading true ;;
  finally
    (catching
       (validatedData <- parse signInSchema_issues signInData ;;
        data_user <- signInWithPassword (SignIn.email validatedData)
                                        (SignIn.password validatedData) ;;
        match data_user with
        | Some _ => toast_success' "¡Bienvenido de vuelta!" ;; navigate' "/"
        | None => pure tt
        end)
       (fun error =>
          match error with
          | Thrown_ZodError e =>
              toast_error' (ZodForms.message (ZodForms.first_issue e))
          | Thrown_AuthError e =>
              if Text.includes "Invalid login" (error_message e)
              then toast_error' "Email o contraseña incorrectos"
              else toast_error' (or_else (error_message e) "Error al iniciar sesión")
          end))
    (setLoading false).

End Handlers.

End AuthPage.

(** ** The navigation bar *)

Module Navbar.

Record State : Type := mkState {
  user : option User;
  isReceptionist : bool
}.

Definition initial : State := mkState None false.

(** The two callbacks of the effect: the one of the first [getSession()]
    and the listener of [onAuthStateChange]. *)
Inductive Notice : Type := Initial_session | Auth_state_change.

(** What a callback is called with: the session, the tables at that
    moment, and whether the query for the roles comes back with an
    error.  A callback, with its query, is taken to finish before the
    next one starts. *)
Record AuthEvent : Type := mkAuthEvent {
  notice : Notice;
  session : option User;
  tables_then : Site.Tables;
  query_fails : bool
}.

(** [checkUserRole(userId)]:
    [if (!error && data && data.length > 0) setIsReceptionist(true)] *)
Definition checkUserRole (t : Site.Tables) (error : bool) (userId : string)
    (s : State) : State :=
  if negb error && (0 <? List.length (Site.staff_roles t userId))%nat
  then mkState (user s) true
  else s.

(** Both callbacks do [setUser(session?.user ?? null)] and, with a user,
    [checkUserRole(session.user.id)]; without one, only the listener does
    [setIsReceptionist(false)]. *)
Definition callback (e : AuthEvent) (s : State) : State :=
  let s1 := mkState (session e) (isReceptionist s) in
  match session e with
  | Some u => checkUserRole (tables_then e) (query_fails e) (user_id_of u) s1
  | None =>
      match notice e with
      | Auth_state_change => mkState (user s1) false
      | Initial_session => s1
      end
  end.

Definition after (events : list AuthEvent) : State :=
  fold_left (fun s e => callback e s) events initial.

(** The link to the dashboard is rendered for a user with the flag. *)
Definition shows_dashboard (s : State) : bool :=
  match user s with
  | Some _ => isReceptionist s
  | None => false
  end.

(** The callback finds a role of receptionist or administrator. *)
Definition finds_staff (e : AuthEvent) : bool :=
  match session e with
  | Some u => negb (query_fails e) && Site.is_staff (tables_then e) (user_id_of u)
  | None => false
  end.

(** The listener is told that nobody is signed in. *)
Definition signs_out (e : AuthEvent) : bool :=
  match notice e, session e with
  | Auth_state_change, None => true
  | _, _ => false
  end.

End Navbar.

(** ** The profile page *)

Module ProfilePage.

Record State : Type := mkState {
  profile : option Profiles.Row;
  loading : bool;
  saving : bool;
  user : option User
}.

Definition World : Type := PageWorld State.

Record Backend : Type := mkBackend {
  on_update_profiles : Site.Tables -> string -> option string
}.

Definition setSaving (b : bool) : Flow World ApiError unit :=
  fun w =>
    let s := ui w in
    (inr tt,
     mkPageWorld (tables w) (effects w)
       (mkState (profile s) (loading s) b (user s))).

Section Handlers.

Variable backend : Backend.

(** The session of the client, whose user is [auth.uid()]. *)
Variable session : option User.

Local Open Scope flow_scope.

(** [from('profiles').update({...}).eq('id', id)], followed by
    [if (error) throw error]. *)
Definition update_profile (id full_name : string) (phone address dni : option string)
  : Flow World ApiError unit :=
  fun w =>
    let w1 :=
      mkPageWorld (tables w)
        (effects w ++ [Update_profiles id full_name phone address dni]) (ui w) in
    match on_update_profiles backend (tables w) id with
    | Some message => (inl (mkApiError message), w1)
    | None =>
        match session with
        | Some session_user =>
            (inr tt,
             mkPageWorld
               (Site.update_profile (user_id_of session_user) id
                  full_name phone address dni (tables w))
               (effects w1) (ui w))
        | None => (inr tt, w1)
        end
    end.

Definition handleSave : Flow World ApiError unit :=
  st <- get_ui ;;
  match profile st, user st with
  | Some profile, Some user =>
      setSaving true ;;
      finally
        (catching
           (update_profile (user_id_of user)
              (Profiles.full_name profile) (Profiles.phone profile)
              (Profiles.address profile) (Profiles.dni profile) ;;
            toast_success' "Perfil actualizado exitosamente")
           (fun error =>
              toast_error' (or_else (error_message error)
                                    "Error al actualizar el perfil")))
        (setSaving false)
  | _, _ => pure tt
  end.

End Handlers.

End ProfilePage.

(** ** Loading the services of the booking page *)



(** ** Concrete runs of the other pages *)

Module AuthExamples.

(** A crude stand-in for the email test of zod, for the concrete runs. *)
Definition has_at (s : string) : bool := Text.includes "@" s.

Definition form : SignUp.Data :=
  SignUp.mkData "Ana Rojas" "ana@example.com" "12345678" "987654321"
                "Av. Larco 123" "secreto".

Definition short_dni : SignUp.Data :=
  SignUp.mkData "Ana Rojas" "ana@example.com" "1234567" "987654321"
                "Av. Larco 123" "secreto".

Definition creating : AuthPage.Backend :=
  AuthPage.mkBackend
    (fun _ request =>
       AuthPage.SignUp_data (Some "u7")
         (Some (Site.mkAuthUser "u7" "ana@example.com"
                  (AuthPage.request_data request))))
                     (fun _ _ _ => inr (Some "u7")) "https://hotel.example".

Definition taken : AuthPage.Backend :=
  AuthPage.mkBackend (fun _ _ => AuthPage.SignUp_error "User already registered")
                     (fun _ _ _ => inl "Invalid login credentials")
                     "https://hotel.example".

Definition empty_site : Site.Tables :=
  Site.mkTables Examples.empty_db [] [] [].

Definition idle : AuthPage.World := mkPageWorld empty_site [] false.

End AuthExamples.

Module ProfileExamples.

Definition ana : Profiles.Row :=
  Profiles.mkRow "u1" "Ana Rojas" "ana@example.com" (Some "987654321") None None.

Definition luis : Profiles.Row :=
  Profiles.mkRow "u2" "Luis Paz" "luis@example.com" None None None.

Definition edited : Profiles.Row :=
  Profiles.mkRow "u1" "Ana R." "otra@example.com" (Some "911111111")
                 (Some "Jr. Puno 5") (Some "12345678").

Definition site : Site.Tables :=
  Site.mkTables Examples.empty_db [] [ana; luis] [].

Definition page : ProfilePage.World :=
  mkPageWorld site []
    (ProfilePage.mkState (Some edited) false false (Some Examples.client)).

Definition accepting : ProfilePage.Backend :=
  ProfilePage.mkBackend (fun _ _ => None).

End ProfileExamples.

(** * Properties *)

(** ** Binary64 arithmetic on the values of the page *)

(** Facts about the operations of [SpecFloat] on the numbers the
    calculator meets: integers below 2^53 are exact, a quotient by a day
    is rounded to the nearest double and its ceiling is the exact one, and
    adding a non-negative number never lowers a non-negative total. *)
Module DoubleFacts.

Import Double.
Local Open Scope Z_scope.

Lemma iter_pos_iter {A} (f : A -> A) (n : positive) (x : A) :
  iter_pos f n x = Pos.iter f x n.
Proof.
  revert x. induction n as [n IH | n IH |]; intros x; simpl.
  - rewrite !IH. now rewrite <- !Pos.iter_swap.
  - now rewrite !IH.
  - reflexivity.
Qed.

Lemma Zpos_iter_xO (m d : positive) :
  Zpos (Pos.iter xO m d) = Zpos m * 2 ^ Zpos d.
Proof.
  induction d as [| d IH] using Pos.peano_ind.
  - simpl. lia.
  - rewrite Pos.iter_succ, Pos2Z.inj_succ, Z.pow_succ_r by lia.
    rewrite Pos2Z.inj_xO, IH. lia.
Qed.

Lemma digits2_pos_bounds (m : positive) :
  2 ^ (Zpos (digits2_pos m) - 1) <= Zpos m < 2 ^ Zpos (digits2_pos m).
Proof.
  induction m as [m IH | m IH |]; simpl digits2_pos.
  - rewrite Pos2Z.inj_succ. replace (Z.succ (Zpos (digits2_pos m)) - 1) with (Z.succ (Zpos (digits2_pos m) - 1)) by lia.
    rewrite !Z.pow_succ_r by lia. lia.
  - rewrite Pos2Z.inj_succ. replace (Z.succ (Zpos (digits2_pos m)) - 1) with (Z.succ (Zpos (digits2_pos m) - 1)) by lia.
    rewrite !Z.pow_succ_r by lia. lia.
  - simpl. lia.
Qed.

Lemma digits2_pos_unique (m : positive) (g : Z) :
  2 ^ (g - 1) <= Zpos m < 2 ^ g -> Zpos (digits2_pos m) = g.
Proof.
  intros [Hlo Hhi]. pose proof (digits2_pos_bounds m) as [Blo Bhi].
  assert (0 < g) by (destruct g; simpl in *; lia).
  destruct (Z.lt_trichotomy (Zpos (digits2_pos m)) g) as [Hlt | [E | Hgt]]; [| exact E |].
  - assert (2 ^ Zpos (digits2_pos m) <= 2 ^ (g - 1)) by (apply Z.pow_le_mono_r; lia). lia.
  - assert (2 ^ g <= 2 ^ (Zpos (digits2_pos m) - 1)) by (apply Z.pow_le_mono_r; lia). lia.
Qed.

Lemma shr_1_even (p : positive) :
  shr_1 (Build_shr_record (Zpos (xO p)) false false) = Build_shr_record (Zpos p) false false.
Proof. reflexivity. Qed.

Lemma shr_exact (n : positive) : forall M : positive,
  (2 ^ Zpos n | Zpos M) ->
  iter_pos shr_1 n (Build_shr_record (Zpos M) false false)
  = Build_shr_record (Zpos M / 2 ^ Zpos n) false false.
Proof.
  induction n as [| n IH] using Pos.peano_ind; intros M [c Hc].
  - change (2 ^ 1) with 2 in *. cbn [iter_pos].
    destruct M as [M | M |]; try (exfalso; lia).
    rewrite shr_1_even. f_equal.
    change (Zpos M~0) with (2 * Zpos M). rewrite Z.mul_comm, Z.div_mul by lia. reflexivity.
  - rewrite iter_pos_iter, Pos.iter_succ, <- iter_pos_iter.
    rewrite Pos2Z.inj_succ, Z.pow_succ_r in Hc |- * by lia.
    rewrite IH by (exists (c * 2); lia).
    assert (E : Zpos M / 2 ^ Zpos n = 2 * c).
    { rewrite Hc. replace (c * (2 * 2 ^ Zpos n)) with (2 * c * 2 ^ Zpos n) by lia.
      apply Z.div_mul. apply Z.pow_nonzero; lia. }
    assert (0 < c). { assert (0 < 2 ^ Zpos n) by (apply Z.pow_pos_nonneg; lia). nia. }
    rewrite E. destruct c as [| c | c]; try lia.
    change (2 * Zpos c) with (Zpos c~0). rewrite shr_1_even. f_equal.
    rewrite Hc. symmetry. apply Z.div_mul.
    assert (0 < 2 ^ Zpos n) by (apply Z.pow_pos_nonneg; lia). lia.
Qed.

Lemma pow2_pos (n : Z) : 0 <= n -> 0 < 2 ^ n.
Proof. intros. apply Z.pow_pos_nonneg; lia. Qed.

Lemma Zdigits2_shift (v : positive) (k : Z) (M : positive) :
  0 <= k -> Zpos M = Zpos v * 2 ^ k ->
  Zpos (digits2_pos M) = Zpos (digits2_pos v) + k.
Proof.
  intros Hk E. apply digits2_pos_unique.
  pose proof (digits2_pos_bounds v) as [Blo Bhi].
  pose proof (pow2_pos k Hk).
  rewrite E.
  replace (Zpos (digits2_pos v) + k - 1) with ((Zpos (digits2_pos v) - 1) + k) by lia.
  rewrite !Z.pow_add_r by lia. nia.
Qed.

Lemma fexp_normal (x : Z) : -1021 <= x -> fexp prec emax x = x - 53.
Proof. unfold fexp, emin, prec, emax. lia. Qed.

Lemma binary_round_aux_canonical (s : bool) (M v : positive) (e : Z) :
  Zpos v < 2 ^ 53 -> -900 <= e <= 0 -> Zpos M = Zpos v * 2 ^ (- e) ->
  53 <= Zpos (digits2_pos M) ->
  binary_round_aux prec emax s (Zpos M) e loc_Exact = canonical s v.
Proof.
  intros Hv He EM Hdg.
  pose proof (Zdigits2_shift v (- e) M ltac:(lia) EM) as Edg.
  pose proof (digits2_pos_bounds v) as [Blo Bhi].
  assert (Hgv : Zpos (digits2_pos v) <= 53).
  { destruct (Z_le_gt_dec (Zpos (digits2_pos v)) 53) as [H | H]; [exact H | exfalso].
    assert (2 ^ 53 <= 2 ^ (Zpos (digits2_pos v) - 1)) by (apply Z.pow_le_mono_r; lia). lia. }
  set (g := Zpos (digits2_pos v)) in *.
  set (n := g - e - 53).
  assert (Hn : 0 <= n <= - e) by (unfold n; lia).
  assert (Hdiv : Zpos M / 2 ^ n = Zpos v * 2 ^ (53 - g)).
  { rewrite EM. replace (- e) with ((53 - g) + n) by (unfold n; lia).
    rewrite Z.pow_add_r by lia. rewrite Z.mul_assoc.
    apply Z.div_mul. pose proof (pow2_pos n). lia. }
  assert (Hpos : 0 < Zpos v * 2 ^ (53 - g)) by (pose proof (pow2_pos (53 - g)); nia).
  unfold binary_round_aux, shr_fexp.
  cbn [Zdigits2]. rewrite Edg.
  rewrite fexp_normal by lia.
  replace (g + - e + e - 53 - e) with n by (unfold n; lia).
  assert (Eshr : shr (shr_record_of_loc (Zpos M) loc_Exact) e n
                 = (Build_shr_record (Zpos v * 2 ^ (53 - g)) false false, e + n)).
  { unfold shr. cbn [shr_record_of_loc].
    destruct n as [| p | p] eqn:En; try lia.
    - rewrite Z.add_0_r. f_equal. f_equal. rewrite <- Hdiv. now rewrite Z.div_1_r.
    - rewrite shr_exact.
      + now rewrite Hdiv.
      + exists (Zpos v * 2 ^ (53 - g)). rewrite <- Hdiv.
        rewrite EM. replace (- e) with ((53 - g) + Zpos p) by lia.
        rewrite Z.pow_add_r by lia. rewrite Z.mul_assoc.
        rewrite Z.div_mul by (pose proof (pow2_pos (Zpos p)); lia). reflexivity. }
  rewrite Eshr. cbn [shr_m loc_of_shr_record round_nearest_even].
  remember (Zpos v * 2 ^ (53 - g)) as m' eqn:Em'.
  destruct m' as [| m' | m']; try lia.
  assert (Edg' : Zpos (digits2_pos m') = 53).
  { rewrite (Zdigits2_shift v (53 - g) m') by (lia || exact Em'). fold g. lia. }
  cbn [Zdigits2]. rewrite Edg'.
  rewrite fexp_normal by lia.
  replace (53 + (e + n) - 53 - (e + n)) with 0 by lia.
  unfold shr. cbn [shr_record_of_loc shr_m].
  replace (e + n <=? emax - prec) with true
    by (symmetry; apply Z.leb_le; unfold emax, prec, n; lia).
  unfold canonical. fold g. rewrite <- Em'. cbn [Z.to_pos].
  f_equal. unfold n. lia.
Qed.

Lemma binary_round_canonical (s : bool) (M v : positive) (e : Z) :
  Zpos v < 2 ^ 53 -> -800 <= e <= 0 -> Zpos M = Zpos v * 2 ^ (- e) ->
  binary_round prec emax s M e = canonical s v.
Proof.
  intros Hv He EM.
  pose proof (Zdigits2_shift v (- e) M ltac:(lia) EM) as Edg.
  pose proof (digits2_pos_bounds v) as [Blo Bhi].
  assert (Hgv : Zpos (digits2_pos v) <= 53).
  { destruct (Z_le_gt_dec (Zpos (digits2_pos v)) 53) as [H | H]; [exact H | exfalso].
    assert (2 ^ 53 <= 2 ^ (Zpos (digits2_pos v) - 1)) by (apply Z.pow_le_mono_r; lia). lia. }
  unfold binary_round. rewrite Edg, fexp_normal by lia.
  set (g := Zpos (digits2_pos v)) in *.
  unfold shl_align.
  destruct (g + - e + e - 53 - e) as [| d | d] eqn:Ed.
  - apply binary_round_aux_canonical; try assumption; lia.
  - apply binary_round_aux_canonical; try assumption; lia.
  - apply binary_round_aux_canonical; try assumption; try lia.
    + rewrite Zpos_iter_xO, EM.
      replace (- (g + - e + e - 53)) with (- e + Zpos d) by lia.
      rewrite Z.pow_add_r by lia. lia.
    + rewrite (Zdigits2_shift v (53 - g) (Pos.iter xO M d)); [fold g; lia | lia |].
      rewrite Zpos_iter_xO, EM.
      replace (53 - g) with (- e + Zpos d) by lia.
      rewrite Z.pow_add_r by lia. lia.
Qed.

Lemma of_Z_pos (v : positive) :
  Zpos v < 2 ^ 53 -> of_Z (Zpos v) = canonical false v.
Proof.
  intros Hv. unfold of_Z, binary_normalize.
  apply binary_round_canonical; [exact Hv | lia | simpl; lia].
Qed.

Lemma of_Z_neg (v : positive) :
  Zpos v < 2 ^ 53 -> of_Z (Zneg v) = canonical true v.
Proof.
  intros Hv. unfold of_Z, binary_normalize.
  apply binary_round_canonical; [exact Hv | lia | simpl; lia].
Qed.

(** Normalising an integer multiple of a power of two. *)
Lemma binary_normalize_exact (z : Z) (e : Z) :
  Z.abs z < 2 ^ 53 -> -800 <= e <= 0 ->
  binary_normalize prec emax (z * 2 ^ (- e)) e false = of_Z z.
Proof.
  intros Hz He. pose proof (pow2_pos (- e) ltac:(lia)) as Hp.
  destruct z as [| v | v].
  - reflexivity.
  - rewrite of_Z_pos by exact Hz.
    remember (Zpos v * 2 ^ (- e)) as M eqn:EM.
    destruct M as [| M | M]; try lia.
    unfold binary_normalize. now apply binary_round_canonical.
  - rewrite of_Z_neg by exact Hz.
    remember (Zneg v * 2 ^ (- e)) as M eqn:EM.
    destruct M as [| M | M]; try lia.
    unfold binary_normalize. apply binary_round_canonical; [exact Hz | lia | lia].
Qed.

Lemma shl_align_value (m : positive) (e e' : Z) :
  e' <= e ->
  Zpos (fst (shl_align m e e')) = Zpos m * 2 ^ (e - e')
  /\ snd (shl_align m e e') = e'.
Proof.
  intros H. unfold shl_align.
  destruct (e' - e) as [| d | d] eqn:Ed; try lia.
  - assert (e' = e) by lia. subst e'. rewrite Z.sub_diag. simpl. split; lia.
  - cbn [fst snd]. rewrite Zpos_iter_xO. split; [| reflexivity].
    f_equal. f_equal. lia.
Qed.

Lemma digits_le_53 (v : positive) :
  Zpos v < 2 ^ 53 -> 1 <= Zpos (digits2_pos v) <= 53.
Proof.
  intros Hv. pose proof (digits2_pos_bounds v) as [Blo Bhi]. split; [lia |].
  destruct (Z_le_gt_dec (Zpos (digits2_pos v)) 53) as [H | H]; [exact H | exfalso].
  assert (2 ^ 53 <= 2 ^ (Zpos (digits2_pos v) - 1)) by (apply Z.pow_le_mono_r; lia). lia.
Qed.

Lemma canonical_mantissa_value (v : positive) :
  Zpos v < 2 ^ 53 ->
  Zpos (Z.to_pos (Zpos v * 2 ^ (53 - Zpos (digits2_pos v))))
  = Zpos v * 2 ^ (53 - Zpos (digits2_pos v)).
Proof.
  intros Hv. pose proof (digits_le_53 v Hv).
  pose proof (pow2_pos (53 - Zpos (digits2_pos v)) ltac:(lia)).
  rewrite Z2Pos.id; nia.
Qed.

(** The signed integer a finite value stands for, scaled to exponent [ez]. *)
Lemma aligned_value (s : bool) (v : positive) (ez : Z) :
  Zpos v < 2 ^ 53 -> -60 <= ez <= Zpos (digits2_pos v) - 53 ->
  cond_Zopp s
    (Zpos (fst (shl_align (Z.to_pos (Zpos v * 2 ^ (53 - Zpos (digits2_pos v))))
                  (Zpos (digits2_pos v) - 53) ez)))
  = (if s then Zneg v else Zpos v) * 2 ^ (- ez).
Proof.
  intros Hv Hez. pose proof (digits_le_53 v Hv) as Hg.
  destruct (shl_align_value (Z.to_pos (Zpos v * 2 ^ (53 - Zpos (digits2_pos v))))
              (Zpos (digits2_pos v) - 53) ez ltac:(lia)) as [E _].
  rewrite E, canonical_mantissa_value by exact Hv.
  rewrite <- Z.mul_assoc, <- Z.pow_add_r by lia.
  replace (53 - Zpos (digits2_pos v) + (Zpos (digits2_pos v) - 53 - ez)) with (- ez) by lia.
  destruct s; cbn [cond_Zopp]; [| reflexivity].
  change (Zneg v) with (- Zpos v). lia.
Qed.

Lemma of_Z_cases (z : Z) :
  Z.abs z < 2 ^ 53 ->
  (z = 0 /\ of_Z z = S754_zero false)
  \/ exists (s : bool) (v : positive), Zpos v < 2 ^ 53 /\ z = (if s then Zneg v else Zpos v)
                 /\ of_Z z = canonical s v.
Proof.
  intros Hz. destruct z as [| v | v].
  - left. split; reflexivity.
  - right. exists false, v. repeat split; [exact Hz | now apply of_Z_pos].
  - right. exists true, v. repeat split; [exact Hz | now apply of_Z_neg].
Qed.

Lemma sub_of_Z (a b : Z) :
  Z.abs a < 2 ^ 53 -> Z.abs b < 2 ^ 53 -> Z.abs (a - b) < 2 ^ 53 ->
  sub (of_Z a) (of_Z b) = of_Z (a - b).
Proof.
  intros Ha Hb Hab.
  destruct (of_Z_cases a Ha) as [[-> ->] | [sa [va [Hva [-> ->]]]]];
  destruct (of_Z_cases b Hb) as [[-> ->] | [sb [vb [Hvb [-> ->]]]]].
  - reflexivity.
  - unfold sub, canonical; cbn [SFsub].
    destruct sb; cbn [negb Z.sub Z.add Z.opp].
    + rewrite of_Z_pos by exact Hvb. reflexivity.
    + rewrite of_Z_neg by exact Hvb. reflexivity.
  - rewrite Z.sub_0_r. unfold sub, canonical; cbn [SFsub].
    destruct sa; [rewrite of_Z_neg | rewrite of_Z_pos]; auto.
  - unfold sub, canonical; cbn [SFsub].
    pose proof (digits_le_53 va Hva). pose proof (digits_le_53 vb Hvb).
    set (ez := Z.min (Zpos (digits2_pos va) - 53) (Zpos (digits2_pos vb) - 53)).
    rewrite (aligned_value sa va ez) by (unfold ez; lia).
    rewrite (aligned_value sb vb ez) by (unfold ez; lia).
    rewrite <- Z.mul_sub_distr_r.
    apply binary_normalize_exact; [exact Hab | unfold ez; lia].
Qed.

Lemma add_of_Z (a b : Z) :
  Z.abs a < 2 ^ 53 -> Z.abs b < 2 ^ 53 -> Z.abs (a + b) < 2 ^ 53 ->
  add (of_Z a) (of_Z b) = of_Z (a + b).
Proof.
  intros Ha Hb Hab.
  destruct (of_Z_cases a Ha) as [[-> ->] | [sa [va [Hva [-> ->]]]]];
  destruct (of_Z_cases b Hb) as [[-> ->] | [sb [vb [Hvb [-> ->]]]]].
  - reflexivity.
  - rewrite Z.add_0_l. unfold add, canonical; cbn [SFadd].
    destruct sb; [rewrite of_Z_neg | rewrite of_Z_pos]; auto.
  - rewrite Z.add_0_r. unfold add, canonical; cbn [SFadd].
    destruct sa; [rewrite of_Z_neg | rewrite of_Z_pos]; auto.
  - unfold add, canonical; cbn [SFadd].
    pose proof (digits_le_53 va Hva). pose proof (digits_le_53 vb Hvb).
    set (ez := Z.min (Zpos (digits2_pos va) - 53) (Zpos (digits2_pos vb) - 53)).
    rewrite (aligned_value sa va ez) by (unfold ez; lia).
    rewrite (aligned_value sb vb ez) by (unfold ez; lia).
    rewrite <- Z.mul_add_distr_r.
    apply binary_normalize_exact; [exact Hab | unfold ez; lia].
Qed.

Lemma digits_mul_lower (a b : positive) :
  Zpos (digits2_pos a) + Zpos (digits2_pos b) - 1 <= Zpos (digits2_pos (a * b)).
Proof.
  pose proof (digits2_pos_bounds a) as [La Ha].
  pose proof (digits2_pos_bounds b) as [Lb Hb].
  pose proof (digits2_pos_bounds (a * b)) as [Lab Hab].
  set (ga := Zpos (digits2_pos a)) in *. set (gb := Zpos (digits2_pos b)) in *.
  set (gab := Zpos (digits2_pos (a * b))) in *.
  assert (0 < ga) by (unfold ga; lia). assert (0 < gb) by (unfold gb; lia).
  destruct (Z_le_gt_dec (ga + gb - 1) gab) as [H1 | H1]; [exact H1 | exfalso].
  assert (2 ^ gab <= 2 ^ (ga + gb - 2)) by (apply Z.pow_le_mono_r; lia).
  replace (ga + gb - 2) with ((ga - 1) + (gb - 1)) in * by lia.
  rewrite Z.pow_add_r in * by lia.
  rewrite Pos2Z.inj_mul in *.
  pose proof (pow2_pos (ga - 1)). pose proof (pow2_pos (gb - 1)). nia.
Qed.

Lemma digits_mul_upper (a b : positive) :
  Zpos (digits2_pos (a * b)) <= Zpos (digits2_pos a) + Zpos (digits2_pos b).
Proof.
  pose proof (digits2_pos_bounds a) as [La Ha].
  pose proof (digits2_pos_bounds b) as [Lb Hb].
  pose proof (digits2_pos_bounds (a * b)) as [Lab Hab].
  set (ga := Zpos (digits2_pos a)) in *. set (gb := Zpos (digits2_pos b)) in *.
  set (gab := Zpos (digits2_pos (a * b))) in *.
  assert (0 < ga) by (unfold ga; lia). assert (0 < gb) by (unfold gb; lia).
  destruct (Z_le_gt_dec gab (ga + gb)) as [H1 | H1]; [exact H1 | exfalso].
  assert (2 ^ (ga + gb) <= 2 ^ (gab - 1)) by (apply Z.pow_le_mono_r; lia).
  rewrite Z.pow_add_r in * by lia.
  rewrite Pos2Z.inj_mul in *.
  pose proof (pow2_pos ga). pose proof (pow2_pos gb). nia.
Qed.

Lemma mul_canonical (sa sb : bool) (va vb : positive) :
  Zpos (va * vb) < 2 ^ 53 ->
  mul (canonical sa va) (canonical sb vb) = canonical (xorb sa sb) (va * vb).
Proof.
  intros Hv.
  assert (Hva : Zpos va < 2 ^ 53) by (rewrite Pos2Z.inj_mul in Hv; nia).
  assert (Hvb : Zpos vb < 2 ^ 53) by (rewrite Pos2Z.inj_mul in Hv; nia).
  pose proof (digits_le_53 va Hva). pose proof (digits_le_53 vb Hvb).
  pose proof (digits_le_53 _ Hv). pose proof (digits_mul_lower va vb).
  unfold mul, canonical; cbn [SFmul].
  assert (EM : Zpos (Z.to_pos (Zpos va * 2 ^ (53 - Zpos (digits2_pos va)))
                     * Z.to_pos (Zpos vb * 2 ^ (53 - Zpos (digits2_pos vb))))
               = Zpos (va * vb)
                 * 2 ^ (- (Zpos (digits2_pos va) - 53 + (Zpos (digits2_pos vb) - 53)))).
  { rewrite Pos2Z.inj_mul, !canonical_mantissa_value by assumption.
    replace (- (Zpos (digits2_pos va) - 53 + (Zpos (digits2_pos vb) - 53)))
      with ((53 - Zpos (digits2_pos va)) + (53 - Zpos (digits2_pos vb))) by lia.
    rewrite Z.pow_add_r by lia. rewrite Pos2Z.inj_mul. ring. }
  apply binary_round_aux_canonical; [exact Hv | lia | exact EM |].
  rewrite (Zdigits2_shift (va * vb)
             (- (Zpos (digits2_pos va) - 53 + (Zpos (digits2_pos vb) - 53))) _
             ltac:(lia) EM). lia.
Qed.

Lemma mul_of_Z (a b : Z) :
  Z.abs (a * b) < 2 ^ 53 -> a <> 0 -> b <> 0 ->
  mul (of_Z a) (of_Z b) = of_Z (a * b).
Proof.
  intros Hab Ha Hb.
  assert (Z.abs a < 2 ^ 53 /\ Z.abs b < 2 ^ 53) as [Ha' Hb'].
  { rewrite Z.abs_mul in Hab.
    assert (1 <= Z.abs a) by lia. assert (1 <= Z.abs b) by lia. split; nia. }
  destruct (of_Z_cases a Ha') as [[-> _] | [sa [va [Hva [-> ->]]]]]; [congruence |].
  destruct (of_Z_cases b Hb') as [[-> _] | [sb [vb [Hvb [-> ->]]]]]; [congruence |].
  rewrite mul_canonical by (destruct sa, sb; simpl in Hab; exact Hab).
  destruct sa, sb; cbn [xorb Z.mul];
    [rewrite of_Z_pos | rewrite of_Z_neg | rewrite of_Z_neg | rewrite of_Z_pos];
    auto.
Qed.

Lemma mul_of_Z_nonneg (a b : Z) :
  a * b < 2 ^ 53 -> 0 <= a -> 0 <= b -> Z.abs a < 2 ^ 53 -> Z.abs b < 2 ^ 53 ->
  mul (of_Z a) (of_Z b) = of_Z (a * b).
Proof.
  intros Hab Ha Hb Ha' Hb'.
  destruct (Z.eq_dec a 0) as [-> | Na].
  - destruct (of_Z_cases b Hb') as [[-> ->] | [sb [vb [Hvb [-> ->]]]]]; [reflexivity |].
    destruct sb; [lia | reflexivity].
  - destruct (Z.eq_dec b 0) as [-> | Nb].
    + rewrite Z.mul_0_r.
      destruct (of_Z_cases a Ha') as [[-> ->] | [sa [va [Hva [-> ->]]]]]; [reflexivity |].
      destruct sa; [lia | reflexivity].
    + apply mul_of_Z; [nia | assumption | assumption].
Qed.

Lemma div_canonical (s : bool) (k c : positive) :
  Zpos (k * c) < 2 ^ 53 ->
  div (canonical s (k * c)) (canonical false c) = canonical s k.
Proof.
  intros Hv.
  assert (Hk : Zpos k < 2 ^ 53) by (rewrite Pos2Z.inj_mul in Hv; nia).
  assert (Hc : Zpos c < 2 ^ 53) by (rewrite Pos2Z.inj_mul in Hv; nia).
  pose proof (digits_le_53 k Hk). pose proof (digits_le_53 c Hc).
  pose proof (digits_le_53 _ Hv). pose proof (digits_mul_lower k c).
  pose proof (digits_mul_upper k c).
  unfold div, canonical; cbn [SFdiv].
  set (g1 := Zpos (digits2_pos (k * c))) in *.
  set (gc := Zpos (digits2_pos c)) in *.
  set (gk := Zpos (digits2_pos k)) in *.
  unfold SFdiv_core_binary.
  assert (D1 : Zdigits2 (Zpos (Z.to_pos (Zpos (k * c) * 2 ^ (53 - g1)))) = 53).
  { cbn [Zdigits2].
    rewrite (Zdigits2_shift (k * c) (53 - g1)); [fold g1; lia | lia |].
    now apply canonical_mantissa_value. }
  assert (D2 : Zdigits2 (Zpos (Z.to_pos (Zpos c * 2 ^ (53 - gc)))) = 53).
  { cbn [Zdigits2].
    rewrite (Zdigits2_shift c (53 - gc)); [fold gc; lia | lia |].
    now apply canonical_mantissa_value. }
  rewrite D1, D2.
  replace (53 + (g1 - 53) - (53 + (gc - 53))) with (g1 - gc) by lia.
  rewrite fexp_normal by lia.
  replace (Z.min (g1 - gc - 53) (g1 - 53 - (gc - 53))) with (g1 - gc - 53) by lia.
  replace (g1 - 53 - (gc - 53) - (g1 - gc - 53)) with 53 by lia.
  cbv beta iota zeta.
  rewrite Z.shiftl_mul_pow2 by lia.
  rewrite !canonical_mantissa_value by assumption. fold g1 gc.
  pose proof (pow2_pos (53 - gc) ltac:(lia)) as Pc.
  assert (Eq : Zpos (k * c) * 2 ^ (53 - g1) * 2 ^ 53
               = (Zpos k * 2 ^ (53 + gc - g1)) * (Zpos c * 2 ^ (53 - gc))).
  { replace (53 + gc - g1) with ((53 - g1) + gc) by lia.
    replace (2 ^ 53) with (2 ^ gc * 2 ^ (53 - gc))
      by (rewrite <- Z.pow_add_r by lia; f_equal; lia).
    rewrite Z.pow_add_r by lia. rewrite Pos2Z.inj_mul. ring. }
  rewrite Eq.
  pose proof (Z.div_eucl_eq (Zpos k * 2 ^ (53 + gc - g1) * (Zpos c * 2 ^ (53 - gc)))
                (Zpos c * 2 ^ (53 - gc)) ltac:(nia)) as Hde.
  pose proof (Z.mod_mul (Zpos k * 2 ^ (53 + gc - g1)) (Zpos c * 2 ^ (53 - gc)) ltac:(nia)) as Hmod.
  pose proof (Z.div_mul (Zpos k * 2 ^ (53 + gc - g1)) (Zpos c * 2 ^ (53 - gc)) ltac:(nia)) as Hdiv.
  unfold Z.modulo, Z.div in Hmod, Hdiv.
  destruct (Z.div_eucl _ _) as [q r]. cbn [fst snd] in Hmod, Hdiv. subst q r.
  assert (Eloc : new_location (Zpos c * 2 ^ (53 - gc)) 0 = loc_Exact).
  { unfold new_location, new_location_even, new_location_odd.
    destruct (Z.even _); reflexivity. }
  rewrite Eloc.
  pose proof (pow2_pos (53 + gc - g1) ltac:(lia)) as Pq.
  remember (Zpos k * 2 ^ (53 + gc - g1)) as M eqn:EM.
  destruct M as [| M | M]; try lia.
  cbn [xorb]. rewrite xorb_false_r.
  apply binary_round_aux_canonical; [exact Hk | lia | |].
  - rewrite EM. f_equal. f_equal. lia.
  - rewrite (Zdigits2_shift k (53 + gc - g1) M); [fold gk; lia | lia | exact EM].
Qed.

Lemma div_of_Z (k c : Z) :
  0 < c < 2 ^ 53 -> Z.abs (k * c) < 2 ^ 53 ->
  div (of_Z (k * c)) (of_Z c) = of_Z k.
Proof.
  intros Hc Hkc.
  destruct c as [| c | c]; try lia.
  rewrite (of_Z_pos c) by lia.
  destruct k as [| k | k].
  - reflexivity.
  - change (Zpos k * Zpos c) with (Zpos (k * c)) in *.
    rewrite of_Z_pos by exact Hkc. rewrite div_canonical by exact Hkc.
    symmetry. apply of_Z_pos. rewrite Pos2Z.inj_mul in Hkc. simpl in Hkc. nia.
  - change (Zneg k * Zpos c) with (Zneg (k * c)) in *.
    rewrite of_Z_neg by exact Hkc. rewrite div_canonical by exact Hkc.
    symmetry. apply of_Z_neg. simpl in Hkc. rewrite Pos2Z.inj_mul in Hkc. nia.
Qed.

Lemma Math_ceil_of_Z (k : Z) :
  Z.abs k < 2 ^ 53 -> Math_ceil (of_Z k) = of_Z k.
Proof.
  intros Hk.
  destruct (of_Z_cases k Hk) as [[-> ->] | [s [v [Hv [-> E]]]]]; [reflexivity |].
  rewrite E. unfold canonical, Math_ceil.
  pose proof (digits_le_53 v Hv) as Hg.
  destruct (0 <=? Zpos (digits2_pos v) - 53) eqn:Ee; [reflexivity |].
  apply Z.leb_gt in Ee.
  rewrite canonical_mantissa_value by exact Hv.
  replace (- (Zpos (digits2_pos v) - 53)) with (53 - Zpos (digits2_pos v)) by lia.
  pose proof (pow2_pos (53 - Zpos (digits2_pos v)) ltac:(lia)) as Hp.
  set (u := 2 ^ (53 - Zpos (digits2_pos v))) in *.
  cbv zeta.
  assert (E1 : Zpos v * u / u = Zpos v) by (apply Z.div_mul; lia).
  assert (E2 : (Zpos v * u + u - 1) / u = Zpos v).
  { symmetry. apply (Z.div_unique _ _ _ (u - 1)); lia. }
  rewrite E1, E2.
  destruct s.
  - change (- Zpos v) with (Zneg v). cbn [Z.eqb]. rewrite E. reflexivity.
  - cbn [Z.eqb]. rewrite E. reflexivity.
Qed.

Lemma shr_1_spec (m : Z) (r s : bool) :
  0 <= m ->
  shr_1 (Build_shr_record m r s) = Build_shr_record (m / 2) (Z.odd m) (r || s).
Proof.
  intros Hm. destruct m as [| p | p]; try lia.
  - reflexivity.
  - destruct p as [p | p |]; unfold shr_1.
    + assert (E : Zpos p~1 / 2 = Zpos p)
        by (symmetry; apply (Z.div_unique _ _ _ 1); lia).
      rewrite E. reflexivity.
    + assert (E : Zpos p~0 / 2 = Zpos p)
        by (symmetry; apply (Z.div_unique _ _ _ 0); lia).
      rewrite E. reflexivity.
    + reflexivity.
Qed.

Lemma loc_of_record_of (m : Z) (l : location) :
  loc_of_shr_record (shr_record_of_loc m l) = l
  /\ shr_m (shr_record_of_loc m l) = m.
Proof. destruct l as [| []]; split; reflexivity. Qed.

Lemma shr_1_of_loc (m : Z) (l : location) :
  0 <= m ->
  shr_1 (shr_record_of_loc m l) = Build_shr_record (m / 2) (Z.odd m) (sticky l).
Proof.
  intros Hm. destruct l as [| []]; cbn [shr_record_of_loc]; rewrite shr_1_spec by exact Hm; reflexivity.
Qed.

Lemma round_nearest_even_bounds (m : Z) (l : location) :
  m <= round_nearest_even m l <= m + 1.
Proof.
  unfold round_nearest_even. destruct l as [| []]; try lia.
  destruct (Z.even m); lia.
Qed.

Lemma Zdigits2_unique (m g : Z) :
  0 < m -> 2 ^ (g - 1) <= m < 2 ^ g -> Zdigits2 m = g.
Proof.
  intros Hm H. destruct m as [| p | p]; try lia.
  cbn [Zdigits2]. now apply digits2_pos_unique.
Qed.

Lemma second_shift_carry (s : bool) (e : Z) :
  -900 <= e <= 901 ->
  (let '(mrs'', e'') :=
     shr (shr_record_of_loc (2 ^ 53) loc_Exact) e
       (fexp prec emax (Zdigits2 (2 ^ 53) + e) - e) in
   match shr_m mrs'' with
   | 0 => S754_zero s
   | Z.pos m =>
       if e'' <=? emax - prec then S754_finite s m e'' else S754_infinity s
   | Z.neg _ => S754_nan
   end) = S754_finite s (Z.to_pos (2 ^ 52)) (e + 1).
Proof.
  intros He.
  change (Zdigits2 (2 ^ 53)) with 54.
  rewrite fexp_normal by lia.
  replace (54 + e - 53 - e) with 1 by lia.
  cbn [shr iter_pos shr_record_of_loc]. rewrite shr_1_spec by lia.
  change (2 ^ 53 / 2) with (Zpos (Z.to_pos (2 ^ 52))). cbn [shr_m].
  replace (e + 1 <=? emax - prec) with true
    by (symmetry; apply Z.leb_le; unfold emax, prec; lia).
  reflexivity.
Qed.

Lemma binary_round_aux_54 (s : bool) (q e : Z) (l : location) :
  2 ^ 52 <= q < 2 ^ 54 -> -900 <= e <= 900 ->
  let n := if q <? 2 ^ 53 then 0 else 1 in
  let '(m, e') := settled (rounded q l n) (e + n) in
  binary_round_aux prec emax s q e l = S754_finite s (Z.to_pos m) e'.
Proof.
  intros Hq He. cbv zeta.
  unfold binary_round_aux, shr_fexp.
  destruct (q <? 2 ^ 53) eqn:Eq; [apply Z.ltb_lt in Eq | apply Z.ltb_ge in Eq].
  - rewrite (Zdigits2_unique q 53) by lia.
    rewrite fexp_normal by lia.
    replace (53 + e - 53 - e) with 0 by lia. cbn [shr].
    destruct (loc_of_record_of q l) as [-> ->].
    unfold rounded. cbn [Z.eqb].
    pose proof (round_nearest_even_bounds q l) as Hr.
    set (m1 := round_nearest_even q l) in *.
    unfold settled. rewrite Z.add_0_r.
    destruct (m1 =? 2 ^ 53) eqn:Em; [apply Z.eqb_eq in Em | apply Z.eqb_neq in Em].
    + rewrite Em. apply second_shift_carry. lia.
    + rewrite (Zdigits2_unique m1 53) by lia.
      rewrite fexp_normal by lia.
      replace (53 + e - 53 - e) with 0 by lia. cbn [shr shr_record_of_loc shr_m].
      destruct m1 as [| m1 | m1]; try lia.
      replace (e <=? emax - prec) with true by (symmetry; apply Z.leb_le; unfold emax, prec; lia).
      reflexivity.
  - rewrite (Zdigits2_unique q 54) by lia.
    rewrite fexp_normal by lia.
    replace (54 + e - 53 - e) with 1 by lia. cbn [shr iter_pos].
    rewrite shr_1_of_loc by lia.
    unfold rounded. cbn [Z.eqb shr_m].
    pose proof (round_nearest_even_bounds (q / 2)
                  (loc_of_shr_record (Build_shr_record (q / 2) (Z.odd q) (sticky l)))) as Hr.
    set (m1 := round_nearest_even (q / 2) _) in *.
    assert (2 ^ 52 <= q / 2 < 2 ^ 53).
    { split; [apply Z.div_le_lower_bound | apply Z.div_lt_upper_bound]; lia. }
    unfold settled.
    destruct (m1 =? 2 ^ 53) eqn:Em; [apply Z.eqb_eq in Em | apply Z.eqb_neq in Em].
    + rewrite Em. apply second_shift_carry. lia.
    + rewrite (Zdigits2_unique m1 53) by lia.
      rewrite fexp_normal by lia.
      replace (53 + (e + 1) - 53 - (e + 1)) with 0 by lia. cbn [shr shr_record_of_loc shr_m].
      destruct m1 as [| m1 | m1]; try lia.
      replace (e + 1 <=? emax - prec) with true by (symmetry; apply Z.leb_le; unfold emax, prec; lia).
      reflexivity.
Qed.

Lemma rounded_nearest (N P q r : Z) :
  0 < P -> Z.even P = true -> N = P * q + r -> 0 <= r < P -> 0 <= q ->
  forall n, (n = 0 \/ n = 1) ->
  let m := rounded q (new_location P r) n in
  - (P * 2 ^ n) <= 2 * (m * P * 2 ^ n - N) <= P * 2 ^ n.
Proof.
  intros HP Hev EN Hr Hq n Hn. cbv zeta.
  unfold new_location. rewrite Hev. unfold new_location_even.
  destruct Hn as [-> | ->]; unfold rounded; cbn [Z.eqb]; change (2 ^ 0) with 1; change (2 ^ 1) with 2.
  - destruct (r =? 0) eqn:Er; [apply Z.eqb_eq in Er | apply Z.eqb_neq in Er].
    + cbn [round_nearest_even]. nia.
    + destruct (Z.compare_spec (2 * r) P) as [Hc | Hc | Hc]; cbn [round_nearest_even];
        try destruct (Z.even q); nia.
  - pose proof (Z.div_mod q 2 ltac:(lia)) as Hdm.
    rewrite Zmod_odd in Hdm.
    destruct (Z.odd q) eqn:Eodd;
      destruct (r =? 0) eqn:Er; [apply Z.eqb_eq in Er | apply Z.eqb_neq in Er
                                 | apply Z.eqb_eq in Er | apply Z.eqb_neq in Er];
      cbn [sticky loc_of_shr_record round_nearest_even].
    + destruct (Z.even (q / 2)); nia.
    + destruct (2 * r ?= P); cbn [sticky loc_of_shr_record round_nearest_even]; nia.
    + nia.
    + destruct (2 * r ?= P); cbn [sticky loc_of_shr_record round_nearest_even]; nia.
Qed.

Lemma of_Z_day : of_Z day = S754_finite false 5798205849600000 (-26).
Proof. reflexivity. Qed.

Lemma div_by_day (s : bool) (v : positive) :
  Zpos v < 2 ^ 53 ->
  exists m E,
    div (canonical s v) (of_Z day) = S754_finite s (Z.to_pos m) (- E)
    /\ 2 ^ 52 <= m < 2 ^ 53
    /\ - day <= 2 * (m * day - Zpos v * 2 ^ E) <= day
    /\ 0 <= E <= 200.
Proof.
  intros Hv. pose proof (digits_le_53 v Hv) as Hg.
  pose proof (digits2_pos_bounds v) as [Blo Bhi].
  rewrite of_Z_day. unfold div, canonical; cbn [SFdiv].
  set (g := Zpos (digits2_pos v)) in *.
  unfold SFdiv_core_binary.
  assert (D1 : Zdigits2 (Zpos (Z.to_pos (Zpos v * 2 ^ (53 - g)))) = 53).
  { cbn [Zdigits2].
    rewrite (Zdigits2_shift v (53 - g)); [fold g; lia | lia |].
    now apply canonical_mantissa_value. }
  rewrite D1. change (Zdigits2 5798205849600000) with 53.
  replace (53 + (g - 53) - (53 + -26)) with (g - 27) by lia.
  rewrite fexp_normal by lia.
  replace (Z.min (g - 27 - 53) (g - 53 - -26)) with (g - 80) by lia.
  replace (g - 53 - -26 - (g - 80)) with 53 by lia.
  cbv beta iota zeta.
  rewrite Z.shiftl_mul_pow2 by lia.
  rewrite canonical_mantissa_value by assumption. fold g.
  set (N := Zpos v * 2 ^ (53 - g) * 2 ^ 53).
  set (P := 5798205849600000).
  pose proof (Z.div_eucl_eq N P ltac:(unfold P; lia)) as Hde.
  pose proof (Z.mod_pos_bound N P ltac:(unfold P; lia)) as Hmod.
  unfold Z.modulo in Hmod.
  destruct (Z.div_eucl N P) as [q r]. 
  assert (HN : 2 ^ 105 <= N < 2 ^ 106).
  { unfold N. pose proof (pow2_pos (53 - g) ltac:(lia)).
    assert (E1 : 2 ^ (g - 1) * 2 ^ (53 - g) = 2 ^ 52)
      by (rewrite <- Z.pow_add_r by lia; f_equal; lia).
    assert (E2 : 2 ^ g * 2 ^ (53 - g) = 2 ^ 53)
      by (rewrite <- Z.pow_add_r by lia; f_equal; lia).
    split.
    - change (2 ^ 105) with (2 ^ 52 * 2 ^ 53). rewrite <- E1. nia.
    - change (2 ^ 106) with (2 ^ 53 * 2 ^ 53). rewrite <- E2. nia. }
  assert (Hq : 2 ^ 52 <= q < 2 ^ 54) by (unfold P in *; lia).
  rewrite xorb_false_r.
  pose proof (binary_round_aux_54 s q (g - 80) (new_location P r) Hq ltac:(lia)) as Hround.
  cbv zeta in Hround.
  set (n := if q <? 2 ^ 53 then 0 else 1) in *.
  assert (Hn : n = 0 \/ n = 1) by (unfold n; destruct (q <? 2 ^ 53); auto).
  pose proof (rounded_nearest N P q r ltac:(unfold P; lia) eq_refl Hde Hmod ltac:(lia) n Hn) as Hnear.
  cbv zeta in Hnear.
  assert (Hqn : 2 ^ 52 <= rounded q (new_location P r) n <= 2 ^ 53).
  { unfold rounded, n.
    destruct (q <? 2 ^ 53) eqn:Eq; [apply Z.ltb_lt in Eq | apply Z.ltb_ge in Eq]; cbn [Z.eqb].
    - pose proof (round_nearest_even_bounds q (new_location P r)). lia.
    - pose proof (round_nearest_even_bounds (q / 2)
                    (loc_of_shr_record (Build_shr_record (q / 2) (Z.odd q) (sticky (new_location P r))))).
      assert (2 ^ 52 <= q / 2 < 2 ^ 53)
        by (split; [apply Z.div_le_lower_bound | apply Z.div_lt_upper_bound]; lia).
      lia. }
  set (m1 := rounded q (new_location P r) n) in *.
  assert (EN : N = Zpos v * 2 ^ (80 - g - n) * 2 ^ (26 + n)).
  { unfold N. rewrite <- !Z.mul_assoc, <- !Z.pow_add_r by lia. do 2 f_equal. lia. }
  assert (EP : P * 2 ^ n = day * 2 ^ (26 + n)).
  { rewrite Z.pow_add_r by lia. unfold P, day. lia. }
  assert (Hrel : - day <= 2 * (m1 * day - Zpos v * 2 ^ (80 - g - n)) <= day).
  { pose proof (pow2_pos (26 + n) ltac:(lia)) as Hp.
    assert (E3 : m1 * P * 2 ^ n = m1 * day * 2 ^ (26 + n))
      by (rewrite <- (Z.mul_assoc m1 P), EP; ring).
    rewrite E3, EP, EN in Hnear. nia. }
  unfold settled in Hround.
  destruct (m1 =? 2 ^ 53) eqn:Em; [apply Z.eqb_eq in Em | apply Z.eqb_neq in Em].
  - exists (2 ^ 52), (80 - g - n - 1). rewrite Hround.
    split; [f_equal; lia |]. split; [lia |]. split; [| lia].
    replace (80 - g - n) with (Z.succ (80 - g - n - 1)) in Hrel by lia.
    rewrite Z.pow_succ_r in Hrel by lia. rewrite Em in Hrel.
    change (2 ^ 53) with (2 * 2 ^ 52) in Hrel. lia.
  - exists m1, (80 - g - n). rewrite Hround.
    split; [f_equal; lia |]. split; [lia |]. split; [exact Hrel | lia].
Qed.

Lemma Math_ceil_quotient (s : bool) (v : positive) (m E : Z) :
  Zpos v < 2 ^ 53 -> 2 ^ 52 <= m < 2 ^ 53 -> 0 <= E ->
  - day <= 2 * (m * day - Zpos v * 2 ^ E) <= day ->
  Math_ceil (S754_finite s (Z.to_pos m) (- E))
  = if s then (if Zpos v / day =? 0 then S754_zero true else of_Z (- (Zpos v / day)))
    else of_Z ((Zpos v + day - 1) / day).
Proof.
  intros Hv Hm HE Hrel.
  assert (HE26 : 26 <= E).
  { destruct (Z_le_gt_dec 26 E) as [H | H]; [exact H | exfalso].
    assert (2 ^ E <= 2 ^ 25) by (apply Z.pow_le_mono_r; lia).
    pose proof (pow2_pos E HE). unfold day in *. nia. }
  assert (HU : 2 ^ 26 <= 2 ^ E) by (apply Z.pow_le_mono_r; lia).
  unfold Math_ceil.
  replace (0 <=? - E) with false by (symmetry; apply Z.leb_gt; lia).
  rewrite Z.opp_involutive, Z2Pos.id by lia. cbv zeta.
  set (U := 2 ^ E) in *.
  destruct s.
  - pose proof (Z.div_mod (Zpos v) day ltac:(unfold day; lia)) as Hdm.
    pose proof (Z.mod_pos_bound (Zpos v) day ltac:(unfold day; lia)) as Hmb.
    set (f := Zpos v / day) in *.
    assert (Hf : 0 <= f) by (apply Z.div_pos; unfold day; lia).
    assert (Hf2 : f < 2 ^ 53).
    { apply Z.div_lt_upper_bound; unfold day; lia. }
    assert (Ediv : m / U = f).
    { symmetry. apply (Z.div_unique_pos _ _ _ (m - f * U)); [| lia].
      assert (f * U * day <= Zpos v * U) by nia.
      assert (Zpos v * U <= (f * day + day - 1) * U) by nia.
      unfold day in *. nia. }
    rewrite Ediv.
    destruct (f =? 0) eqn:Ef; [apply Z.eqb_eq in Ef | apply Z.eqb_neq in Ef].
    + rewrite Ef. reflexivity.
    + replace (- f =? 0) with false by (symmetry; apply Z.eqb_neq; lia).
      reflexivity.
  - pose proof (Z.div_mod (Zpos v + day - 1) day ltac:(unfold day; lia)) as Hdm.
    pose proof (Z.mod_pos_bound (Zpos v + day - 1) day ltac:(unfold day; lia)) as Hmb.
    set (c := (Zpos v + day - 1) / day) in *.
    assert (Hc : 1 <= c).
    { apply Z.div_le_lower_bound; unfold day; lia. }
    assert (Ediv : (m + U - 1) / U = c).
    { symmetry. apply (Z.div_unique_pos _ _ _ (m + U - 1 - c * U)); [| lia].
      assert (Zpos v * U <= c * day * U) by nia.
      assert (((c - 1) * day + 1) * U <= Zpos v * U) by nia.
      unfold day in *. nia. }
    rewrite Ediv.
    replace (c =? 0) with false by (symmetry; apply Z.eqb_neq; lia).
    reflexivity.
Qed.

Lemma nights_of_difference (d : Z) :
  Z.abs d < 2 ^ 53 ->
  Math_ceil (div (of_Z d) (of_Z day)) = whole_nights d.
Proof.
  intros Hd. unfold whole_nights.
  destruct d as [| v | v].
  - reflexivity.
  - rewrite of_Z_pos by exact Hd.
    destruct (div_by_day false v Hd) as [m [E [Ediv [Hm [Hrel HE]]]]].
    rewrite Ediv. rewrite (Math_ceil_quotient false v m E) by (assumption || lia).
    reflexivity.
  - rewrite of_Z_neg by exact Hd.
    destruct (div_by_day true v Hd) as [m [E [Ediv [Hm [Hrel HE]]]]].
    rewrite Ediv. rewrite (Math_ceil_quotient true v m E) by (assumption || lia).
    reflexivity.
Qed.

Lemma shr_m_iter (n : positive) : forall (m : Z) (r s : bool),
  0 <= m ->
  shr_m (iter_pos shr_1 n (Build_shr_record m r s)) = m / 2 ^ Zpos n.
Proof.
  induction n as [| n IH] using Pos.peano_ind; intros m r s Hm.
  - cbn [iter_pos]. rewrite shr_1_spec by exact Hm. reflexivity.
  - rewrite iter_pos_iter, Pos.iter_succ, <- iter_pos_iter.
    specialize (IH m r s Hm).
    destruct (iter_pos shr_1 n (Build_shr_record m r s)) as [m' r' s'].
    cbn [shr_m] in IH. subst m'.
    assert (0 <= m / 2 ^ Zpos n) by (apply Z.div_pos; [lia | apply pow2_pos; lia]).
    rewrite shr_1_spec by assumption. cbn [shr_m].
    rewrite Pos2Z.inj_succ, Z.pow_succ_r by lia.
    rewrite Z.div_div; [| apply Z.pow_nonzero; lia | lia].
    f_equal. lia.
Qed.

Lemma second_shift (s : bool) (m1 e : Z) :
  2 ^ 52 <= m1 <= 2 ^ 53 -> -1000 <= e ->
  (let '(mrs'', e'') :=
     shr (shr_record_of_loc m1 loc_Exact) e
       (fexp prec emax (Zdigits2 m1 + e) - e) in
   match shr_m mrs'' with
   | 0 => S754_zero s
   | Z.pos m =>
       if e'' <=? emax - prec then S754_finite s m e'' else S754_infinity s
   | Z.neg _ => S754_nan
   end) = packed s m1 e.
Proof.
  intros Hm He. unfold packed, settled.
  destruct (m1 =? 2 ^ 53) eqn:Em; [apply Z.eqb_eq in Em | apply Z.eqb_neq in Em].
  - subst m1. change (Zdigits2 (2 ^ 53)) with 54.
    rewrite fexp_normal by lia.
    replace (54 + e - 53 - e) with 1 by lia.
    cbn [shr iter_pos shr_record_of_loc]. rewrite shr_1_spec by lia.
    change (2 ^ 53 / 2) with (Zpos (Z.to_pos (2 ^ 52))). cbn [shr_m].
    reflexivity.
  - rewrite (Zdigits2_unique m1 53) by lia.
    rewrite fexp_normal by lia.
    replace (53 + e - 53 - e) with 0 by lia. cbn [shr shr_record_of_loc shr_m].
    destruct m1 as [| m1 | m1]; try lia. reflexivity.
Qed.

Lemma binary_round_aux_general (s : bool) (M e : Z) (l : location) :
  2 ^ 52 <= M -> -1000 <= e ->
  let n := Zdigits2 M - 53 in
  0 <= n
  /\ exists m1,
       M / 2 ^ n <= m1 <= M / 2 ^ n + 1
       /\ 2 ^ 52 <= M / 2 ^ n < 2 ^ 53
       /\ binary_round_aux prec emax s M e l = packed s m1 (e + n).
Proof.
  intros HM He. cbv zeta.
  destruct M as [| M | M]; try lia.
  pose proof (digits2_pos_bounds M) as [Blo Bhi].
  cbn [Zdigits2]. set (g := Zpos (digits2_pos M)) in *.
  assert (Hg : 53 <= g).
  { destruct (Z_le_gt_dec 53 g) as [H | H]; [exact H | exfalso].
    assert (2 ^ g <= 2 ^ 52) by (apply Z.pow_le_mono_r; lia). lia. }
  split; [lia |].
  assert (Hdiv : 2 ^ 52 <= Zpos M / 2 ^ (g - 53) < 2 ^ 53).
  { pose proof (pow2_pos (g - 53) ltac:(lia)).
    assert (E1 : 2 ^ (g - 1) = 2 ^ 52 * 2 ^ (g - 53))
      by (rewrite <- Z.pow_add_r by lia; f_equal; lia).
    assert (E2 : 2 ^ g = 2 ^ 53 * 2 ^ (g - 53))
      by (rewrite <- Z.pow_add_r by lia; f_equal; lia).
    split.
    - apply Z.div_le_lower_bound; lia.
    - apply Z.div_lt_upper_bound; lia. }
  unfold binary_round_aux, shr_fexp. cbn [Zdigits2]. fold g.
  rewrite fexp_normal by lia.
  replace (g + e - 53 - e) with (g - 53) by lia.
  destruct (g - 53) as [| n | n] eqn:En; try lia.
  - cbn [shr]. destruct (loc_of_record_of (Zpos M) l) as [-> ->].
    rewrite Z.div_1_r in *.
    pose proof (round_nearest_even_bounds (Zpos M) l) as Hr.
    exists (round_nearest_even (Zpos M) l). split; [exact Hr |]. split; [exact Hdiv |].
    rewrite Z.add_0_r. apply second_shift; lia.
  - cbn [shr].
    pose proof (shr_m_iter n (Zpos M)) as Hshr.
    destruct l as [| c]; cbn [shr_record_of_loc].
    + specialize (Hshr false false ltac:(lia)).
      destruct (iter_pos shr_1 n _) as [m' r' s'] eqn:Eit. cbn [shr_m] in Hshr |- *.
      subst m'.
      pose proof (round_nearest_even_bounds (Zpos M / 2 ^ Zpos n)
                    (loc_of_shr_record (Build_shr_record (Zpos M / 2 ^ Zpos n) r' s'))) as Hr.
      eexists. split; [exact Hr |]. split; [exact Hdiv |].
      apply second_shift; lia.
    + assert (Hshr' : forall r s, shr_m (iter_pos shr_1 n (Build_shr_record (Zpos M) r s))
                                  = Zpos M / 2 ^ Zpos n) by (intros; apply Hshr; lia).
      destruct c; cbn [shr_record_of_loc];
        match goal with
        | |- context [iter_pos shr_1 n (Build_shr_record (Zpos M) ?r ?s)] =>
            specialize (Hshr' r s);
            destruct (iter_pos shr_1 n (Build_shr_record (Zpos M) r s)) as [m' r' s'];
            cbn [shr_m] in Hshr' |- *; subst m'
        end;
        (eexists; split; [apply round_nearest_even_bounds |]; split; [exact Hdiv |];
         apply second_shift; [pose proof (round_nearest_even_bounds (Zpos M / 2 ^ Zpos n)
                    (loc_of_shr_record (Build_shr_record (Zpos M / 2 ^ Zpos n) r' s'))); lia | lia]).
Qed.

Lemma pow2_le (a b : Z) : 0 <= a <= b -> 2 ^ a <= 2 ^ b.
Proof. intros. apply Z.pow_le_mono_r; lia. Qed.

Lemma good_rank_bounds (x : spec_float) : good x -> 0 <= rank x <= 2 ^ 2300.
Proof.
  destruct x as [s | s | | s m e]; cbn [good rank]; try lia.
  - intros ->. lia.
  - intros [-> [Hm He]].
    pose proof (pow2_pos (e + 1100) ltac:(lia)).
    pose proof (pow2_le (e + 1100) 2071 ltac:(lia)).
    split; [nia |].
    change (2 ^ 2300) with (2 ^ 53 * 2 ^ 2247).
    assert (2 ^ 2071 <= 2 ^ 2247) by (apply pow2_le; lia). nia.
Qed.

Lemma packed_good (m1 e : Z) :
  2 ^ 52 <= m1 <= 2 ^ 53 -> -1000 <= e ->
  good (packed false m1 e).
Proof.
  intros Hm He. unfold packed, settled.
  destruct (m1 =? 2 ^ 53) eqn:Em; [apply Z.eqb_eq in Em | apply Z.eqb_neq in Em].
  - destruct (e + 1 <=? 971) eqn:Ee; [apply Z.leb_le in Ee | apply Z.leb_gt in Ee];
      cbn [good]; [| reflexivity].
    change (Zpos (Z.to_pos (2 ^ 52))) with (2 ^ 52). repeat split; lia.
  - destruct (e <=? 971) eqn:Ee; [apply Z.leb_le in Ee | apply Z.leb_gt in Ee];
      cbn [good]; [| reflexivity].
    rewrite Z2Pos.id by lia. repeat split; lia.
Qed.

Lemma packed_rank (m1 e : Z) :
  2 ^ 52 <= m1 <= 2 ^ 53 -> -1000 <= e <= 1100 ->
  m1 * 2 ^ (e + 1100) <= rank (packed false m1 e).
Proof.
  intros Hm He. unfold packed, settled.
  pose proof (pow2_pos (e + 1100) ltac:(lia)) as Hp.
  assert (Hbig : m1 * 2 ^ (e + 1100) <= 2 ^ 2300).
  { pose proof (pow2_le (e + 1100) 2200 ltac:(lia)).
    change (2 ^ 2300) with (2 ^ 53 * 2 ^ 2247).
    assert (2 ^ 2200 <= 2 ^ 2247) by (apply pow2_le; lia). nia. }
  destruct (m1 =? 2 ^ 53) eqn:Em; [apply Z.eqb_eq in Em | apply Z.eqb_neq in Em].
  - destruct (e + 1 <=? 971) eqn:Ee; cbn [rank]; [| exact Hbig].
    change (Zpos (Z.to_pos (2 ^ 52))) with (2 ^ 52).
    replace (e + 1 + 1100) with (Z.succ (e + 1100)) by lia.
    rewrite Z.pow_succ_r by lia. subst m1. change (2 ^ 53) with (2 * 2 ^ 52). lia.
  - destruct (e <=? 971) eqn:Ee; cbn [rank]; [| exact Hbig].
    rewrite Z2Pos.id by lia. lia.
Qed.

Lemma add_good_finite (mx mp : positive) (ex ep : Z) :
  2 ^ 52 <= Zpos mx < 2 ^ 53 -> -1000 <= ex <= 971 ->
  2 ^ 52 <= Zpos mp < 2 ^ 53 -> -1000 <= ep <= 971 ->
  good (add (S754_finite false mx ex) (S754_finite false mp ep))
  /\ rank (S754_finite false mx ex)
     <= rank (add (S754_finite false mx ex) (S754_finite false mp ep)).
Proof.
  intros Hmx Hex Hmp Hep.
  unfold add; cbn [SFadd cond_Zopp].
  set (ez := Z.min ex ep).
  destruct (shl_align_value mx ex ez ltac:(unfold ez; lia)) as [Ex _].
  destruct (shl_align_value mp ep ez ltac:(unfold ez; lia)) as [Ep _].
  pose proof (pow2_pos (ex - ez) ltac:(unfold ez; lia)) as Px.
  pose proof (pow2_pos (ep - ez) ltac:(unfold ez; lia)) as Pp.
  remember (Zpos (fst (shl_align mx ex ez)) + Zpos (fst (shl_align mp ep ez))) as M eqn:EM.
  destruct M as [| M | M]; try lia.
  assert (HM : 2 ^ 52 <= Zpos M) by nia.
  unfold binary_normalize, binary_round.
  pose proof (digits2_pos_bounds M) as [Blo Bhi].
  set (g := Zpos (digits2_pos M)) in *.
  assert (Hg : 53 <= g).
  { destruct (Z_le_gt_dec 53 g) as [H | H]; [exact H | exfalso].
    assert (2 ^ g <= 2 ^ 52) by (apply Z.pow_le_mono_r; lia). lia. }
  rewrite fexp_normal by (unfold ez; lia).
  assert (Esh : shl_align M ez (g + ez - 53) = (M, ez)).
  { unfold shl_align. destruct (g + ez - 53 - ez) eqn:E; try lia; reflexivity. }
  rewrite Esh.
  destruct (binary_round_aux_general false (Zpos M) ez loc_Exact HM ltac:(unfold ez; lia))
    as [Hn [m1 [Hm1 [Hdiv Eround]]]].
  cbn [Zdigits2] in *. fold g in Hn, Hm1, Hdiv, Eround.
  rewrite Eround.
  set (n := g - 53) in *.
  assert (Hgmax : ez + g <= Z.max ex ep + 54).
  { destruct (Z_le_gt_dec (ez + g) (Z.max ex ep + 54)) as [H | H]; [exact H | exfalso].
    assert (Hpow : 2 ^ (Z.max ex ep + 54 - ez) <= 2 ^ (g - 1)) by (apply pow2_le; lia).
    assert (Zpos M < 2 ^ (Z.max ex ep + 54 - ez)).
    { rewrite EM, Ex, Ep.
      assert (2 ^ (ex - ez) <= 2 ^ (Z.max ex ep - ez)) by (apply pow2_le; unfold ez; lia).
      assert (2 ^ (ep - ez) <= 2 ^ (Z.max ex ep - ez)) by (apply pow2_le; unfold ez; lia).
      replace (Z.max ex ep + 54 - ez) with (54 + (Z.max ex ep - ez)) by lia.
      rewrite Z.pow_add_r by (unfold ez; lia).
      pose proof (pow2_pos (Z.max ex ep - ez) ltac:(unfold ez; lia)).
      change (2 ^ 54) with (2 * 2 ^ 53). nia. }
    lia. }
  split.
  - apply packed_good; [lia | unfold ez, n; lia].
  - eapply Z.le_trans; [| apply packed_rank; [lia | unfold n; lia]].
    cbn [rank].
    pose proof (pow2_pos n Hn) as Pn.
    destruct (Z_le_gt_dec n (ex - ez)) as [Hcase | Hcase].
    + assert (Hlow : Zpos mx * 2 ^ (ex - ez - n) <= Zpos M / 2 ^ n).
      { apply Z.div_le_lower_bound; [lia |].
        rewrite EM, Ex.
        replace (ex - ez) with (n + (ex - ez - n)) at 2 by lia.
        rewrite Z.pow_add_r by lia.
        pose proof (pow2_pos (ex - ez - n) ltac:(lia)). nia. }
      replace (ex + 1100) with ((ex - ez - n) + (ez + n + 1100)) by lia.
      rewrite Z.pow_add_r by (unfold ez in *; lia).
      pose proof (pow2_pos (ez + n + 1100) ltac:(unfold ez in *; lia)).
      pose proof (pow2_pos (ex - ez - n) ltac:(lia)). nia.
    + replace (ez + n + 1100) with ((ez + n - ex - 1) + (ex + 1 + 1100)) by lia.
      rewrite (Z.pow_add_r 2 (ez + n - ex - 1) (ex + 1 + 1100))
        by (unfold ez, n in *; lia).
      replace (ex + 1 + 1100) with (Z.succ (ex + 1100)) by lia.
      rewrite Z.pow_succ_r by lia.
      pose proof (pow2_pos (ez + n - ex - 1) ltac:(unfold ez, n in *; lia)) as PQ.
      pose proof (pow2_pos (ex + 1100) ltac:(lia)) as PP.
      set (Q := 2 ^ (ez + n - ex - 1)) in *. set (P := 2 ^ (ex + 1100)) in *.
      assert (H1 : Zpos mx * P <= 2 ^ 53 * P) by nia.
      assert (H2 : 2 ^ 53 * P <= 2 * m1 * P) by nia.
      assert (H3 : 2 * m1 * P <= 2 * m1 * P * Q) by nia.
      replace (m1 * (Q * (2 * P))) with (2 * m1 * P * Q) by ring. lia.
Qed.

Lemma amount_good (x : spec_float) : amount x -> good x.
Proof.
  destruct x as [s | s | | s m e]; cbn [amount good]; try tauto.
  intros [-> [Hm He]]. repeat split; lia.
Qed.

Lemma packed_amount (m1 e : Z) :
  2 ^ 52 <= m1 <= 2 ^ 53 -> -200 <= e <= 199 ->
  amount (packed false m1 e).
Proof.
  intros Hm He. unfold packed, settled.
  destruct (m1 =? 2 ^ 53) eqn:Em; [apply Z.eqb_eq in Em | apply Z.eqb_neq in Em].
  - replace (e + 1 <=? 971) with true by (symmetry; apply Z.leb_le; lia).
    cbn [amount]. change (Zpos (Z.to_pos (2 ^ 52))) with (2 ^ 52). repeat split; lia.
  - replace (e <=? 971) with true by (symmetry; apply Z.leb_le; lia).
    cbn [amount]. rewrite Z2Pos.id by lia. repeat split; lia.
Qed.

Lemma add_good (x p : spec_float) :
  good x -> good p -> good (add x p) /\ rank x <= rank (add x p).
Proof.
  intros Hx Hp.
  destruct x as [sx | sx | | sx mx ex]; cbn [good] in Hx; try contradiction;
  destruct p as [sp | sp | | sp mp ep]; cbn [good] in Hp; try contradiction;
    subst; unfold add; cbn [SFadd].
  - destruct sx, sp; cbn [good rank]; split; (exact I || lia).
  - cbn [good rank]. split; [reflexivity | lia].
  - destruct Hp as [-> Hp]. split; [cbn [good]; tauto |].
    pose proof (good_rank_bounds (S754_finite false mp ep) (conj eq_refl Hp)). 
    cbn [rank] in *. lia.
  - cbn [good rank]. split; [reflexivity | lia].
  - cbn [good rank]. split; [reflexivity | lia].
  - cbn [good rank]. split; [reflexivity | lia].
  - destruct Hx as [-> Hx]. split; [cbn [good]; tauto | lia].
  - destruct Hx as [-> Hx]. split; [reflexivity |].
    pose proof (good_rank_bounds (S754_finite false mx ex) (conj eq_refl Hx)).
    cbn [rank] in *. lia.
  - destruct Hx as [-> [Hmx Hex]], Hp as [-> [Hmp Hep]].
    now apply add_good_finite.
Qed.

Lemma canonical_normal (s : bool) (v : positive) :
  Zpos v < 2 ^ 53 ->
  exists m e, canonical s v = S754_finite s m e
              /\ 2 ^ 52 <= Zpos m < 2 ^ 53 /\ -52 <= e <= 0
              /\ Zpos m = Zpos v * 2 ^ (- e).
Proof.
  intros Hv. pose proof (digits_le_53 v Hv) as Hg.
  pose proof (digits2_pos_bounds v) as [Blo Bhi].
  unfold canonical. eexists. eexists. split; [reflexivity |].
  rewrite canonical_mantissa_value by exact Hv.
  set (g := Zpos (digits2_pos v)) in *.
  pose proof (pow2_pos (53 - g) ltac:(lia)).
  assert (E1 : 2 ^ (g - 1) * 2 ^ (53 - g) = 2 ^ 52)
    by (rewrite <- Z.pow_add_r by lia; f_equal; lia).
  assert (E2 : 2 ^ g * 2 ^ (53 - g) = 2 ^ 53)
    by (rewrite <- Z.pow_add_r by lia; f_equal; lia).
  repeat split; try lia; try nia.
  f_equal. f_equal. lia.
Qed.

Lemma of_Z_amount (n : Z) : 0 <= n < 2 ^ 53 -> amount (of_Z n).
Proof.
  intros Hn. destruct n as [| v | v]; try lia.
  - exact I.
  - rewrite of_Z_pos by lia.
    destruct (canonical_normal false v ltac:(lia)) as [m [e [-> [Hm [He _]]]]].
    cbn [amount]. repeat split; lia.
Qed.

Lemma mul_amount (x y : spec_float) :
  amount x -> amount y -> good (mul x y).
Proof.
  intros Hx Hy.
  destruct x as [sx | sx | | sx mx ex]; cbn [amount] in Hx; try contradiction;
  destruct y as [sy | sy | | sy my ey]; cbn [amount] in Hy; try contradiction;
    unfold mul; cbn [SFmul]; try exact I.
  destruct Hx as [-> [Hmx Hex]], Hy as [-> [Hmy Hey]]. cbn [xorb].
  assert (HM : 2 ^ 52 <= Zpos (mx * my)) by (rewrite Pos2Z.inj_mul; nia).
  destruct (binary_round_aux_general false (Zpos (mx * my)) (ex + ey) loc_Exact HM ltac:(lia))
    as [Hn [m1 [Hm1 [Hdiv ->]]]].
  apply packed_good; lia.
Qed.

Lemma div_canonical_amount (a b : positive) :
  Zpos a < 2 ^ 53 -> Zpos b < 2 ^ 53 ->
  amount (div (canonical false a) (canonical false b)).
Proof.
  intros Ha Hb.
  destruct (canonical_normal false a Ha) as [ma [ea [Ea [Hma [Hea _]]]]].
  destruct (canonical_normal false b Hb) as [mb [eb [Eb [Hmb [Heb _]]]]].
  rewrite Ea, Eb. unfold div; cbn [SFdiv xorb].
  unfold SFdiv_core_binary.
  rewrite (Zdigits2_unique (Zpos ma) 53) by lia.
  rewrite (Zdigits2_unique (Zpos mb) 53) by lia.
  replace (53 + ea - (53 + eb)) with (ea - eb) by lia.
  rewrite fexp_normal by lia.
  replace (Z.min (ea - eb - 53) (ea - eb)) with (ea - eb - 53) by lia.
  replace (ea - eb - (ea - eb - 53)) with 53 by lia.
  cbv beta iota zeta.
  rewrite Z.shiftl_mul_pow2 by lia.
  pose proof (Z.div_eucl_eq (Zpos ma * 2 ^ 53) (Zpos mb) ltac:(lia)) as Hde.
  pose proof (Z.mod_pos_bound (Zpos ma * 2 ^ 53) (Zpos mb) ltac:(lia)) as Hmod.
  unfold Z.modulo in Hmod.
  destruct (Z.div_eucl (Zpos ma * 2 ^ 53) (Zpos mb)) as [q r].
  assert (Hq : 2 ^ 52 <= q < 2 ^ 54) by nia.
  destruct (binary_round_aux_general false q (ea - eb - 53) (new_location (Zpos mb) r)
              ltac:(lia) ltac:(lia)) as [Hn [m1 [Hm1 [Hdiv ->]]]].
  assert (Hg : Zdigits2 q - 53 <= 1).
  { destruct (Z_le_gt_dec (Zdigits2 q) 54) as [H | H]; [lia | exfalso].
    destruct q as [| q | q]; try lia. cbn [Zdigits2] in H.
    pose proof (digits2_pos_bounds q) as [Blo _].
    assert (2 ^ 54 <= 2 ^ (Zpos (digits2_pos q) - 1)) by (apply pow2_le; lia). lia. }
  apply packed_amount; lia.
Qed.

Lemma of_decimal_amount (q : Q) :
  0 <= Qnum q < 2 ^ 53 -> Zpos (Qden q) < 2 ^ 53 ->
  amount (of_decimal q).
Proof.
  intros Hn Hd. unfold of_decimal.
  rewrite (of_Z_pos (Qden q)) by exact Hd.
  destruct (Qnum q) as [| a | a]; try lia.
  - exact I.
  - rewrite of_Z_pos by lia. apply div_canonical_amount; lia.
Qed.

Lemma rank_leb (x y : spec_float) :
  good x -> good y -> rank x <= rank y -> leb x y = true.
Proof.
  intros Hx Hy Hr.
  assert (Hfin : forall m e, 2 ^ 52 <= Zpos m < 2 ^ 53 -> -1000 <= e <= 971 ->
                             0 < Zpos m * 2 ^ (e + 1100) < 2 ^ 2300).
  { intros m e Hm He.
    pose proof (pow2_le (e + 1100) 2071 ltac:(lia)).
    pose proof (pow2_pos (e + 1100) ltac:(lia)).
    assert (2 ^ 2071 <= 2 ^ 2247) by (apply pow2_le; lia).
    change (2 ^ 2300) with (2 ^ 53 * 2 ^ 2247). nia. }
  destruct x as [sx | sx | | sx mx ex]; cbn [good] in Hx; try contradiction;
  destruct y as [sy | sy | | sy my ey]; cbn [good] in Hy; try contradiction;
    repeat match goal with
           | H : _ = false /\ _ |- _ => destruct H as [? H]
           end; subst; cbn [rank] in Hr;
    unfold leb, SFleb; cbn [SFcompare]; try reflexivity;
    try (exfalso; lia).
  - exfalso. destruct Hy as [Hm He]. destruct (Hfin my ey Hm He) as [_ H].
    exact (Z.lt_irrefl _ (Z.lt_le_trans _ _ _ H Hr)).
  - destruct Hx as [Hmx Hex], Hy as [Hmy Hey].
    destruct (Z.compare_spec ex ey) as [E | Hlt | Hgt]; try reflexivity.
    + subst ey. pose proof (pow2_pos (ex + 1100) ltac:(lia)).
      assert (Hle : Zpos mx <= Zpos my) by nia.
      rewrite Pos.compare_cont_spec. cbn [Pos.switch_Eq].
      destruct (Pos.compare_spec mx my); try reflexivity. lia.
    + exfalso.
      replace (ex + 1100) with ((ex - ey - 1) + Z.succ (ey + 1100)) in Hr by lia.
      rewrite Z.pow_add_r, Z.pow_succ_r in Hr by lia.
      pose proof (pow2_pos (ex - ey - 1) ltac:(lia)).
      pose proof (pow2_pos (ey + 1100) ltac:(lia)).
      set (Q := 2 ^ (ex - ey - 1)) in *. set (P := 2 ^ (ey + 1100)) in *.
      assert (H1 : 2 ^ 52 * (2 * P) <= Zpos mx * (2 * P)) by nia.
      assert (H2 : Zpos mx * (2 * P) <= Zpos mx * (2 * P) * Q) by nia.
      assert (H3 : Zpos my * P < 2 ^ 53 * P) by nia.
      replace (Zpos mx * (Q * (2 * P))) with (Zpos mx * (2 * P) * Q) in Hr by ring.
      lia.
Qed.

End DoubleFacts.

(** ** Arithmetic of whole nights *)

Lemma Qceiling_days (d : Z) :
  let n := Qceiling (inject_Z d / (1000 * 60 * 60 * 24)) in
  ((n - 1) * 86400000 < d <= n * 86400000)%Z.
Proof.
  cbv zeta.
  set (x := inject_Z d / (1000 * 60 * 60 * 24)).
  assert (Hx : x * 86400000 == inject_Z d) by (unfold x; field).
  pose proof (Qle_ceiling x) as Hup.
  pose proof (Qceiling_lt x) as Hlow.
  generalize dependent (Qceiling x). intros n Hup Hlow.
  split.
  - rewrite Zlt_Qlt, inject_Z_mult.
    change (inject_Z 86400000) with 86400000%Q.
    lra.
  - rewrite Zle_Qle, inject_Z_mult.
    change (inject_Z 86400000) with 86400000%Q.
    lra.
Qed.

Lemma nights_of_times (a b : Z) :
  nights (mkDate (Some a)) (mkDate (Some b))
  = Num (inject_Z (Qceiling (inject_Z (b - a) / (1000 * 60 * 60 * 24)))).
Proof.
  unfold nights, getTime, sub, div, ms_per_day, Math_ceil; simpl time_value.
  change (Qeq_bool (1000 * 60 * 60 * 24) 0) with false. cbv iota.
  do 2 f_equal. apply Qceiling_comp.
  unfold Z.sub. rewrite inject_Z_plus, inject_Z_opp. reflexivity.
Qed.

Lemma nights_ceiling (a b : Z) :
  exists n, nights (mkDate (Some a)) (mkDate (Some b)) = Num (inject_Z n)
            /\ is_ceiling_of_days n a b.
Proof.
  eexists; split; [apply nights_of_times | apply Qceiling_days].
Qed.


Lemma truthy_true (s : string) : truthy s = true <-> s <> "".
Proof. destruct s; simpl; split; congruence. Qed.

Lemma truthy_false (s : string) : truthy s = false <-> s = "".
Proof. destruct s; simpl; split; congruence. Qed.

(** ** The loop over the selected services *)

Lemma sum_prices_app l1 l2 :
  sum_prices (l1 ++ l2) == sum_prices l1 + sum_prices l2.
Proof.
  induction l1 as [| s l1 IH]; simpl.
  - ring.
  - rewrite IH. ring.
Qed.

Lemma sum_prices_perm l1 l2 :
  Permutation l1 l2 -> sum_prices l1 == sum_prices l2.
Proof.
  induction 1; simpl.
  - reflexivity.
  - rewrite IHPermutation. reflexivity.
  - ring.
  - rewrite IHPermutation1. assumption.
Qed.

Lemma sum_prices_nonneg l :
  (forall s, In s l -> 0 <= price s) -> 0 <= sum_prices l.
Proof.
  induction l as [| s l IH]; simpl; intros H.
  - lra.
  - assert (0 <= price s) by (apply H; now left).
    assert (0 <= sum_prices l) by (apply IH; intros; apply H; now right).
    lra.
Qed.

Lemma find_service_some services serviceId s :
  find_service services serviceId = Some s -> In s services /\ id s = serviceId.
Proof.
  unfold find_service. intros H. apply find_some in H.
  destruct H as [Hin Heq]. apply String.eqb_eq in Heq. auto.
Qed.

Lemma find_service_none services serviceId :
  ~ In serviceId (map id services) -> find_service services serviceId = None.
Proof.
  unfold find_service. intros H.
  destruct (find _ services) as [s |] eqn:E; [| reflexivity].
  apply find_some in E. destruct E as [Hin Heq].
  apply String.eqb_eq in Heq. exfalso. apply H. rewrite <- Heq.
  now apply in_map.
Qed.

Lemma find_service_known services serviceId :
  In serviceId (map id services) ->
  exists s, find_service services serviceId = Some s.
Proof.
  unfold find_service. intros H.
  destruct (find _ services) as [s |] eqn:E; [eauto |].
  exfalso. apply in_map_iff in H. destruct H as [s [Hs Hin]].
  pose proof (find_none _ _ E s Hin) as Hn. simpl in Hn.
  rewrite Hs, String.eqb_refl in Hn. discriminate.
Qed.

Lemma add_service_unknown services total serviceId :
  ~ In serviceId (map id services) ->
  add_service services total serviceId = total.
Proof.
  intros H. unfold add_service. now rewrite (find_service_none _ _ H).
Qed.


Lemma fold_add_service_Num services selected : forall q,
  exists q', fold_left (add_service services) selected (Num q) = Num q'
             /\ q' == q + sum_prices (found_services services selected).
Proof.
  induction selected as [| i sel IH]; intros q; simpl.
  - exists q. split; [reflexivity | ring].
  - unfold add_service at 2.
    destruct (find_service services i) as [s |]; simpl.
    + destruct (IH (q + price s)) as [q' [E Hq]].
      exists q'. split; [exact E |]. rewrite Hq. ring.
    + destruct (IH q) as [q' [E Hq]]. exists q'. split; [exact E |].
      rewrite Hq. reflexivity.
Qed.

Lemma found_services_in services selected s :
  In s (found_services services selected) <->
  exists i, In i selected /\ find_service services i = Some s.
Proof.
  unfold found_services. rewrite in_flat_map. split.
  - intros [i [Hi Hs]]. exists i. split; [exact Hi |].
    destruct (find_service services i) as [s' |]; simpl in Hs.
    + destruct Hs as [-> | []]. reflexivity.
    + destruct Hs.
  - intros [i [Hi E]]. exists i. split; [exact Hi |]. rewrite E. now left.
Qed.

Lemma found_services_unknown services l1 l2 i :
  ~ In i (map id services) ->
  found_services services (l1 ++ i :: l2) = found_services services (l1 ++ l2).
Proof.
  intros H. unfold found_services. rewrite !flat_map_app. simpl.
  rewrite (find_service_none _ _ H). reflexivity.
Qed.

Lemma includes_In (l : list string) (x : string) :
  includes l x = true <-> In x l.
Proof.
  unfold includes. rewrite existsb_exists. split.
  - intros [y [Hy E]]. apply String.eqb_eq in E. now subst.
  - intros H. exists x. split; [exact H | apply String.eqb_refl].
Qed.

Lemma includes_not_In (l : list string) (x : string) :
  includes l x = false <-> ~ In x l.
Proof.
  rewrite <- includes_In. destruct (includes l x); split; congruence.
Qed.




Lemma found_services_length services selected :
  (forall i, In i selected -> In i (map id services)) ->
  List.length (found_services services selected) = List.length selected.
Proof.
  induction selected as [| i sel IH]; simpl; intros H; [reflexivity |].
  destruct (find_service_known services i) as [s E]; [apply H; now left |].
  rewrite E. simpl. f_equal. apply IH. intros j Hj. apply H. now right.
Qed.

(** ** The pricing calculator *)

Section PricingFacts.

Variable Date_parse : string -> option Z.

Lemma calculateTotal_no_room st :
  room st = None -> calculateTotal Date_parse st = Num 0.
Proof. unfold calculateTotal. now intros ->. Qed.

Lemma calculateTotal_absent st :
  checkIn (formData st) = "" \/ checkOut (formData st) = "" ->
  calculateTotal Date_parse st = Num 0.
Proof.
  unfold calculateTotal. intros H. destruct (room st); [| reflexivity].
  destruct H as [-> | ->]; simpl; [reflexivity |].
  now rewrite orb_true_r.
Qed.

Lemma calculateTotal_present st r :
  room st = Some r ->
  checkIn (formData st) <> "" -> checkOut (formData st) <> "" ->
  calculateTotal Date_parse st
  = fold_left (add_service (services st)) (selectedServices st)
      (mul (nights (new_Date Date_parse (checkIn (formData st)))
                   (new_Date Date_parse (checkOut (formData st))))
           (Num (price_per_night r))).
Proof.
  unfold calculateTotal. intros -> Hin Hout.
  apply truthy_true in Hin. apply truthy_true in Hout.
  now rewrite Hin, Hout.
Qed.

(** With two parseable dates the total is a number: the room charge for
    the ceiling of the stay in days, plus the prices of the services the
    loop finds. *)
Lemma calculateTotal_valid st r a b :
  room st = Some r ->
  checkIn (formData st) <> "" -> checkOut (formData st) <> "" ->
  Date_parse (checkIn (formData st)) = Some a ->
  Date_parse (checkOut (formData st)) = Some b ->
  exists n q,
    is_ceiling_of_days n a b
    /\ nights (new_Date Date_parse (checkIn (formData st)))
              (new_Date Date_parse (checkOut (formData st)))
       = Num (inject_Z n)
    /\ calculateTotal Date_parse st = Num q
    /\ q == inject_Z n * price_per_night r
            + sum_prices (found_services (services st) (selectedServices st)).
Proof.
  intros Hroom Hin Hout Ha Hb.
  rewrite (calculateTotal_present st r Hroom Hin Hout).
  unfold new_Date. rewrite Ha, Hb.
  destruct (nights_ceiling a b) as [n [En Hn]]. rewrite En. simpl mul.
  destruct (fold_add_service_Num (services st) (selectedServices st)
              (inject_Z n * price_per_night r)) as [q [Eq Hq]].
  exists n, q. auto.
Qed.


Lemma found_prices_nonneg st :
  (forall s, In s (services st) -> In (id s) (selectedServices st) ->
             0 <= price s) ->
  0 <= sum_prices (found_services (services st) (selectedServices st)).
Proof.
  intros H. apply sum_prices_nonneg. intros s Hs.
  apply found_services_in in Hs. destruct Hs as [i [Hi E]].
  apply find_service_some in E. destruct E as [Hin <-]. now apply H.
Qed.

Lemma ceiling_of_days_nonneg n a b :
  is_ceiling_of_days n a b -> (a <= b)%Z -> (0 <= n)%Z.
Proof. unfold is_ceiling_of_days. lia. Qed.


Lemma ceiling_of_days_neg n a b :
  is_ceiling_of_days n a b -> (b + 86400000 <= a)%Z -> (n < 0)%Z.
Proof. unfold is_ceiling_of_days. lia. Qed.


Lemma room_charge_nonneg (n : Z) (rate : Q) :
  (0 <= n)%Z -> 0 <= rate -> 0 <= inject_Z n * rate.
Proof.
  intros Hn Hr. apply Qmult_le_0_compat; [| exact Hr].
  change 0 with (inject_Z 0). now rewrite <- Zle_Qle.
Qed.

End PricingFacts.

(** ** The calculator in double precision *)

Lemma double_ms_per_day : Double.ms_per_day = Double.of_Z 86400000.
Proof. reflexivity. Qed.

Lemma valid_time_bound (t : Z) : valid_time t -> (Z.abs t < 2 ^ 53)%Z.
Proof. unfold valid_time. intros H. change (2 ^ 53)%Z with 9007199254740992%Z. lia. Qed.

(** Between two valid time values less than 2^53 milliseconds apart the
    double computation of the nights is the exact ceiling. *)
Lemma double_nights_of_times (a b : Z) :
  valid_time a -> valid_time b -> (Z.abs (b - a) < 2 ^ 53)%Z ->
  Double.nights (mkDate (Some a)) (mkDate (Some b)) = Double.whole_nights (b - a).
Proof.
  intros Ha Hb Hab. unfold Double.nights, Double.getTime. cbn [time_value].
  rewrite double_ms_per_day.
  rewrite DoubleFacts.sub_of_Z
    by first [assumption | apply valid_time_bound; assumption].
  now apply DoubleFacts.nights_of_difference.
Qed.

Lemma whole_nights_ceiling (n a b : Z) :
  is_ceiling_of_days n a b ->
  Double.whole_nights (b - a) = ceiling_as_double n (b - a).
Proof.
  unfold is_ceiling_of_days, Double.whole_nights, ceiling_as_double, Double.day.
  intros Hn.
  destruct (Z.ltb_spec (b - a) 0) as [Hneg | Hpos].
  - assert (E : (- (b - a) / 86400000 = - n)%Z).
    { symmetry. apply (Z.div_unique _ _ _ (- (b - a) + n * 86400000)%Z); lia. }
    rewrite E. rewrite Z.opp_involutive, andb_true_r.
    destruct (Z.eqb_spec n 0) as [-> | Hn0]; [reflexivity |].
    replace (- n =? 0)%Z with false by (symmetry; apply Z.eqb_neq; lia).
    reflexivity.
  - rewrite andb_false_r. f_equal.
    symmetry. apply (Z.div_unique _ _ _ ((b - a) + 86400000 - 1 - n * 86400000)%Z); lia.
Qed.

Lemma double_nights_ceiling (n a b : Z) :
  valid_time a -> valid_time b -> (Z.abs (b - a) < 2 ^ 53)%Z ->
  is_ceiling_of_days n a b ->
  Double.nights (mkDate (Some a)) (mkDate (Some b)) = ceiling_as_double n (b - a).
Proof.
  intros Ha Hb Hab Hn.
  rewrite double_nights_of_times by assumption. now apply whole_nights_ceiling.
Qed.




(** The loop adds the prices of the services it finds, in the order of
    the selection. *)
Lemma double_fold_add_service services selected : forall start,
  fold_left (Double.add_service services) selected start
  = add_prices (found_services services selected) start.
Proof.
  unfold add_prices.
  induction selected as [| i sel IH]; intros start; simpl; [reflexivity |].
  unfold Double.add_service at 2.
  destruct (find_service services i) as [s |]; simpl; apply IH.
Qed.


(** Adding the prices of services to a total that is not negative gives
    a total that is not negative, never [NaN], and not below the one it
    started from. *)
Lemma add_prices_good (chosen : list AdditionalService) : forall start,
  Double.good start ->
  (forall s, In s chosen -> decimal_amount (price s)) ->
  Double.good (add_prices chosen start)
  /\ (Double.rank start <= Double.rank (add_prices chosen start))%Z.
Proof.
  unfold add_prices.
  induction chosen as [| s chosen IH]; intros start Hstart Hprices; simpl.
  - split; [exact Hstart | lia].
  - assert (Hs : Double.good (Double.of_decimal (price s))).
    { apply DoubleFacts.amount_good, DoubleFacts.of_decimal_amount;
        apply (Hprices s); now left. }
    destruct (DoubleFacts.add_good start _ Hstart Hs) as [Hg Hr].
    destruct (IH _ Hg) as [Hg' Hr']; [intros s' Hs'; apply Hprices; now right |].
    split; [exact Hg' | lia].
Qed.

Section DoublePricingFacts.

Variable Date_parse : string -> option Z.

Lemma double_calculateTotal_no_room st :
  room st = None -> Double.calculateTotal Date_parse st = Double.zero.
Proof. unfold Double.calculateTotal. now intros ->. Qed.

Lemma double_calculateTotal_absent st :
  checkIn (formData st) = "" \/ checkOut (formData st) = "" ->
  Double.calculateTotal Date_parse st = Double.zero.
Proof.
  unfold Double.calculateTotal. intros H. destruct (room st); [| reflexivity].
  destruct H as [-> | ->]; simpl; [reflexivity |].
  now rewrite orb_true_r.
Qed.

Lemma double_calculateTotal_present st r :
  room st = Some r ->
  checkIn (formData st) <> "" -> checkOut (formData st) <> "" ->
  Double.calculateTotal Date_parse st
  = add_prices (found_services (services st) (selectedServices st))
      (Double.mul (Double.nights (new_Date Date_parse (checkIn (formData st)))
                                 (new_Date Date_parse (checkOut (formData st))))
                  (Double.of_decimal (price_per_night r))).
Proof.
  unfold Double.calculateTotal. intros -> Hin Hout.
  apply truthy_true in Hin. apply truthy_true in Hout.
  rewrite Hin, Hout. cbn [negb orb]. apply double_fold_add_service.
Qed.


(** With two parseable dates in range the total is the double product of
    the ceiling of the stay and the rate, followed by the additions of
    the loop. *)
Lemma double_calculateTotal_valid st r a b :
  room st = Some r ->
  checkIn (formData st) <> "" -> checkOut (formData st) <> "" ->
  Date_parse (checkIn (formData st)) = Some a ->
  Date_parse (checkOut (formData st)) = Some b ->
  valid_time a -> valid_time b -> (Z.abs (b - a) < 2 ^ 53)%Z ->
  exists n,
    is_ceiling_of_days n a b
    /\ Double.nights (new_Date Date_parse (checkIn (formData st)))
                     (new_Date Date_parse (checkOut (formData st)))
       = ceiling_as_double n (b - a)
    /\ Double.calculateTotal Date_parse st
       = add_prices (found_services (services st) (selectedServices st))
           (Double.mul (ceiling_as_double n (b - a))
                       (Double.of_decimal (price_per_night r))).
Proof.
  intros Hroom Hin Hout Ha Hb Va Vb Hab.
  destruct (nights_ceiling a b) as [n [_ Hn]].
  exists n. split; [exact Hn |].
  rewrite (double_calculateTotal_present st r Hroom Hin Hout).
  unfold new_Date. rewrite Ha, Hb.
  rewrite (double_nights_ceiling n a b Va Vb Hab Hn). split; reflexivity.
Qed.

End DoublePricingFacts.

Section PricingClaims.

Variable Date_parse : string -> option Z.

(** C1 (amended).  For a non-negative nightly rate, non-negative prices
    of the selected services, and dates that are absent or both parseable
    with the check-out not earlier than the check-in, [calculateTotal]
    returns a non-negative number.  (With the check-out earlier than the
    check-in the result may be negative.) *)
Theorem calculateTotal_nonneg (st : State) :
  (forall r, room st = Some r -> 0 <= price_per_night r) ->
  (forall s, In s (services st) -> In (id s) (selectedServices st) ->
             0 <= price s) ->
  (checkIn (formData st) = "" \/ checkOut (formData st) = "" \/
   exists a b, Date_parse (checkIn (formData st)) = Some a
               /\ Date_parse (checkOut (formData st)) = Some b
               /\ (a <= b)%Z) ->
  nonneg (calculateTotal Date_parse st).
Proof.
  intros Hrate Hprices Hdates.
  destruct (room st) as [r |] eqn:Hroom;
    [| rewrite calculateTotal_no_room by exact Hroom; simpl; lra].
  destruct (string_dec (checkIn (formData st)) "") as [Hin | Hin];
    [rewrite calculateTotal_absent by auto; simpl; lra |].
  destruct (string_dec (checkOut (formData st)) "") as [Hout | Hout];
    [rewrite calculateTotal_absent by auto; simpl; lra |].
  destruct Hdates as [H | [H | [a [b [Ha [Hb Hab]]]]]]; try contradiction.
  destruct (calculateTotal_valid Date_parse st r a b Hroom Hin Hout Ha Hb)
    as [n [q [Hn [_ [Eq Hq]]]]].
  rewrite Eq. simpl. rewrite Hq.
  pose proof (room_charge_nonneg n (price_per_night r)
                (ceiling_of_days_nonneg n a b Hn Hab) (Hrate r eq_refl)).
  pose proof (found_prices_nonneg st Hprices).
  lra.
Qed.




(** An identifier that is not in the active list leaves the total as it
    is. *)
Lemma calculateTotal_unknown_service (st : State) (l1 l2 : list string) (i : string) :
  ~ In i (map id (services st)) ->
  calculateTotal Date_parse (with_selectedServices st (l1 ++ i :: l2))
  = calculateTotal Date_parse (with_selectedServices st (l1 ++ l2)).
Proof.
  intros H. unfold calculateTotal. cbn [with_selectedServices room formData
    services selectedServices].
  destruct (room st); [| reflexivity].
  destruct (_ || _); [reflexivity |].
  rewrite !fold_left_app. cbn [fold_left].
  now rewrite (add_service_unknown _ _ _ H).
Qed.

End PricingClaims.

(** ** The selection toggle *)

Lemma toggle_present (x : string) (prev : list string) :
  In x prev ->
  handleServiceToggle x prev = filter (fun y => negb (String.eqb y x)) prev.
Proof.
  intros H. unfold handleServiceToggle.
  now rewrite (proj2 (includes_In prev x) H).
Qed.

Lemma toggle_absent (x : string) (prev : list string) :
  ~ In x prev -> handleServiceToggle x prev = (prev ++ [x])%list.
Proof.
  intros H. unfold handleServiceToggle.
  now rewrite (proj2 (includes_not_In prev x) H).
Qed.

Lemma In_without (x y : string) (prev : list string) :
  In y (filter (fun z => negb (String.eqb z x)) prev) <-> In y prev /\ y <> x.
Proof.
  rewrite filter_In, negb_true_iff, String.eqb_neq. reflexivity.
Qed.

Lemma toggle_NoDup (x : string) (prev : list string) :
  NoDup prev -> NoDup (handleServiceToggle x prev).
Proof.
  intros Hnd. destruct (in_dec string_dec x prev) as [Hin | Hout].
  - rewrite toggle_present by exact Hin. now apply NoDup_filter.
  - rewrite toggle_absent by exact Hout.
    apply NoDup_app; [exact Hnd | repeat constructor; intros [] |].
    intros y Hy [<- | []]. contradiction.
Qed.

Lemma toggles_snoc (clicks : list string) (x : string) :
  toggles (clicks ++ [x]) = handleServiceToggle x (toggles clicks).
Proof. unfold toggles. now rewrite fold_left_app. Qed.

Lemma toggles_NoDup (clicks : list string) : NoDup (toggles clicks).
Proof.
  induction clicks as [| x clicks IH] using rev_ind.
  - constructor.
  - rewrite toggles_snoc. now apply toggle_NoDup.
Qed.

Lemma toggle_twice_absent (x : string) (prev : list string) :
  ~ In x prev -> handleServiceToggle x (handleServiceToggle x prev) = prev.
Proof.
  intros Hout. rewrite (toggle_absent x prev Hout).
  rewrite toggle_present by (apply in_or_app; right; now left).
  rewrite filter_app. simpl. rewrite String.eqb_refl. simpl.
  rewrite app_nil_r. apply forallb_filter_id. apply forallb_forall.
  intros y Hy. apply negb_true_iff, String.eqb_neq. congruence.
Qed.

Lemma toggle_twice_perm (x : string) (prev : list string) :
  NoDup prev ->
  Permutation (handleServiceToggle x (handleServiceToggle x prev)) prev.
Proof.
  intros Hnd. destruct (in_dec string_dec x prev) as [Hin | Hout].
  - apply NoDup_Permutation.
    + now do 2 apply toggle_NoDup.
    + exact Hnd.
    + intros y. rewrite (toggle_present x prev Hin).
      rewrite toggle_absent by (rewrite In_without; tauto).
      rewrite in_app_iff, In_without. simpl.
      destruct (string_dec y x) as [-> | Hne]; [tauto |].
      split; [intros [[H _] | [H | []]]; congruence || assumption | tauto].
  - now rewrite toggle_twice_absent.
Qed.

(** C10 (amended).  Starting from the empty selection, every sequence of
    toggles leaves a list without duplicates, and one more toggle keeps it
    so: toggling an identifier that is present removes it and nothing else,
    toggling an absent one appends it once at the end.  Toggling the same
    identifier twice restores the previous selection as a set (the list is
    a permutation of the previous one), and restores the very same list
    when the identifier was absent. *)
Theorem handleServiceToggle_selection :
  (forall clicks, NoDup (toggles clicks))
  /\ (forall x prev, NoDup prev -> NoDup (handleServiceToggle x prev))
  /\ (forall x prev, In x prev ->
        ~ In x (handleServiceToggle x prev)
        /\ forall y, In y (handleServiceToggle x prev) <-> In y prev /\ y <> x)
  /\ (forall x prev, ~ In x prev -> handleServiceToggle x prev = (prev ++ [x])%list)
  /\ (forall x prev, NoDup prev ->
        Permutation (handleServiceToggle x (handleServiceToggle x prev)) prev)
  /\ (forall x prev, ~ In x prev ->
        handleServiceToggle x (handleServiceToggle x prev) = prev).
Proof.
  split; [exact toggles_NoDup |].
  split; [exact toggle_NoDup |].
  split.
  { intros x prev Hin. rewrite (toggle_present x prev Hin). split.
    - rewrite In_without. tauto.
    - intros y. apply In_without. }
  split; [exact toggle_absent |].
  split; [exact toggle_twice_perm | exact toggle_twice_absent].
Qed.

(** ** The schema *)

Lemma string_min1_present key msg (data : string) :
  data <> "" -> Zod.string_min1 key msg data = [].
Proof. destruct data; [congruence | reflexivity]. Qed.

Lemma bookingSchema_parse_valid (st : State) (g : Q) :
  checkIn (formData st) <> "" -> checkOut (formData st) <> "" ->
  guests (formData st) = Num g -> 1 <= g ->
  Zod.bookingSchema_parse (draft st) = inr (draft st).
Proof.
  intros Hin Hout Hg Hge. unfold Zod.bookingSchema_parse, Zod.bookingSchema_issues.
  unfold draft; cbn [Zod.in_checkIn Zod.in_checkOut Zod.in_guests].
  rewrite !string_min1_present by assumption. rewrite Hg. simpl.
  now rewrite (proj2 (Qle_bool_iff 1 g) Hge).
Qed.

Lemma bookingSchema_parse_same (d d' : Zod.BookingInput) :
  Zod.bookingSchema_parse d = inr d' -> d' = d.
Proof.
  unfold Zod.bookingSchema_parse. destruct (Zod.bookingSchema_issues d); congruence.
Qed.


Lemma Date_leb_times (a b : Z) :
  Date_leb (mkDate (Some b)) (mkDate (Some a)) = (b <=? a)%Z.
Proof.
  unfold Date_leb, getTime, leb, Qle_bool. simpl. now rewrite !Z.mul_1_r.
Qed.

(** ** The submission flow *)

Section SubmissionFacts.

Variable Date_parse : string -> option Z.
Variable server : Supabase.Server.

Lemma handleSubmit_no_session st w :
  user st = None \/ room st = None ->
  handleSubmit Date_parse server st w
  = (inr tt, mkWorld (db w) (log w ++ [Toast_error "Error en la sesión"])).
Proof.
  unfold handleSubmit. intros [-> | ->]; [reflexivity |].
  destruct (user st); reflexivity.
Qed.

Lemma handleSubmit_zod_error st u r e w :
  user st = Some u -> room st = Some r ->
  Zod.bookingSchema_parse (draft st) = inl e ->
  handleSubmit Date_parse server st w
  = (inr tt, mkWorld (db w)
               (log w ++ [Toast_error (Zod.message (Zod.first_issue e))])).
Proof.
  unfold handleSubmit, draft. intros -> -> E.
  unfold try_catch, bind, parse_or_throw. rewrite E. reflexivity.
Qed.

Lemma handleSubmit_dates_rejected st u r w :
  user st = Some u -> room st = Some r ->
  Zod.bookingSchema_parse (draft st) = inr (draft st) ->
  Date_leb (new_Date Date_parse (checkOut (formData st)))
           (new_Date Date_parse (checkIn (formData st))) = true ->
  handleSubmit Date_parse server st w
  = (inr tt, mkWorld (db w)
               (log w ++ [Toast_error
                  "La fecha de salida debe ser posterior a la fecha de entrada"])).
Proof.
  unfold handleSubmit, draft. intros -> -> E Hle.
  unfold try_catch, bind, parse_or_throw. rewrite E.
  cbn [ret Zod.in_checkIn Zod.in_checkOut]. rewrite Hle. reflexivity.
Qed.

Lemma handleSubmit_validated st u r w :
  user st = Some u -> room st = Some r ->
  Zod.bookingSchema_parse (draft st) = inr (draft st) ->
  Date_leb (new_Date Date_parse (checkOut (formData st)))
           (new_Date Date_parse (checkIn (formData st))) = false ->
  handleSubmit Date_parse server st w
  = try_catch (after_validation Date_parse server st u r) on_error w.
Proof.
  unfold handleSubmit, draft. intros -> -> E Hle.
  unfold try_catch at 1. unfold bind at 1. unfold parse_or_throw. rewrite E.
  cbn [ret Zod.in_checkIn Zod.in_checkOut Zod.in_guests]. rewrite Hle.
  reflexivity.
Qed.

(** Unfold the flow down to the replies of the store. *)
Ltac run_flow :=
  unfold try_catch, after_validation, call_calculateTotal, insert_booking,
    on_error, toast_error, toast_success, navigate, bind, emit, ret;
  cbn [db log].

Lemma after_validation_booking_refused st u r w m :
  Supabase.on_insert_bookings server (db w)
    (booking_payload st u r (calculateTotal Date_parse st)) = inl m ->
  try_catch (after_validation Date_parse server st u r) on_error w
  = (inr tt,
     mkWorld (db w)
       (log w ++ [Called_calculateTotal (calculateTotal Date_parse st);
                  Insert_bookings
                    (booking_payload st u r (calculateTotal Date_parse st));
                  Toast_error (or_else m "Error al crear la reserva")])).
Proof.
  intros E. run_flow. rewrite E. cbn [db log].
  now rewrite <- !app_assoc.
Qed.

Lemma after_validation_links_refused st u r w bid m :
  let payload := booking_payload st u r (calculateTotal Date_parse st) in
  let booking := Supabase.mkBookingRow bid payload in
  let links := serviceRecords bid (selectedServices st) in
  Supabase.on_insert_bookings server (db w) payload = inr bid ->
  selectedServices st <> [] ->
  Supabase.on_insert_booking_services server
    (Supabase.add_booking (db w) booking) links = Some m ->
  try_catch (after_validation Date_parse server st u r) on_error w
  = (inr tt,
     mkWorld (Supabase.add_booking (db w) booking)
       (log w ++ [Called_calculateTotal (calculateTotal Date_parse st);
                  Insert_bookings payload;
                  Insert_booking_services links;
                  Toast_error (or_else m "Error al crear la reserva")])).
Proof.
  intros payload booking links E Hsel El. subst payload booking links.
  assert (Hlen : (0 <? List.length (selectedServices st))%nat = true)
    by (destruct (selectedServices st); [congruence | reflexivity]).
  run_flow. rewrite E. cbn [db log Supabase.id]. rewrite Hlen.
  unfold insert_booking_services. cbn [db log]. rewrite El.
  cbn [db log]. now rewrite <- !app_assoc.
Qed.

Lemma after_validation_success st u r w bid :
  let payload := booking_payload st u r (calculateTotal Date_parse st) in
  let booking := Supabase.mkBookingRow bid payload in
  let links := serviceRecords bid (selectedServices st) in
  Supabase.on_insert_bookings server (db w) payload = inr bid ->
  (selectedServices st <> [] ->
   Supabase.on_insert_booking_services server
     (Supabase.add_booking (db w) booking) links = None) ->
  exists w',
    try_catch (after_validation Date_parse server st u r) on_error w = (inr tt, w')
    /\ Supabase.bookings (db w') = (Supabase.bookings (db w) ++ [booking])%list
    /\ Supabase.booking_services (db w')
       = (Supabase.booking_services (db w) ++ links)%list
    /\ Supabase.additional_services (db w') = Supabase.additional_services (db w)
    /\ log w'
       = (log w
          ++ [Called_calculateTotal (calculateTotal Date_parse st);
              Insert_bookings payload]
          ++ (if (0 <? List.length (selectedServices st))%nat
              then [Insert_booking_services links]
              else [])
          ++ [Toast_success "Reserva creada exitosamente";
              Navigate ("/payment/" ++ bid)])%list.
Proof.
  intros payload booking links E El. subst payload booking links.
  run_flow. rewrite E. cbn [db log Supabase.id].
  destruct (0 <? List.length (selectedServices st))%nat eqn:Hlen.
  - unfold insert_booking_services. cbn [db log].
    rewrite El by (intros Es; rewrite Es in Hlen; discriminate).
    eexists. split; [reflexivity |].
    cbn [db log Supabase.add_booking Supabase.add_links Supabase.bookings
           Supabase.booking_services Supabase.additional_services].
    repeat split; try reflexivity.
    now rewrite <- !app_assoc.
  - assert (Es : selectedServices st = [])
      by (destruct (selectedServices st); [reflexivity | discriminate]).
    eexists. split; [reflexivity |].
    cbn [db log Supabase.add_booking Supabase.bookings
           Supabase.booking_services Supabase.additional_services].
    rewrite Es. cbn [serviceRecords map].
    repeat split; try reflexivity.
    + now rewrite app_nil_r.
    + now rewrite <- !app_assoc.
Qed.

End SubmissionFacts.

Section SubmissionClaims.

Variable Date_parse : string -> option Z.
Variable server : Supabase.Server.

Lemma valid_dates_pass st a b :
  Date_parse (checkIn (formData st)) = Some a ->
  Date_parse (checkOut (formData st)) = Some b ->
  (a < b)%Z ->
  Date_leb (new_Date Date_parse (checkOut (formData st)))
           (new_Date Date_parse (checkIn (formData st))) = false.
Proof.
  intros Ha Hb Hab. unfold new_Date. rewrite Ha, Hb, Date_leb_times.
  apply Z.leb_gt. exact Hab.
Qed.

(** C4.  When the check-out date is not after the check-in date, the
    submission ends with one error message and the store is left as it
    was: no booking and no service link is inserted, nor even sent. *)
Theorem handleSubmit_rejects_checkout_not_after_checkin
    (st : State) (a b : Z) (w : World) :
  Date_parse (checkIn (formData st)) = Some a ->
  Date_parse (checkOut (formData st)) = Some b ->
  (b <= a)%Z ->
  exists message,
    handleSubmit Date_parse server st w
    = (inr tt, mkWorld (db w) (log w ++ [Toast_error message]))
    /\ (forall u r,
           user st = Some u -> room st = Some r ->
           Zod.bookingSchema_parse (draft st) = inr (draft st) ->
           message
           = "La fecha de salida debe ser posterior a la fecha de entrada").
Proof.
  intros Ha Hb Hba.
  destruct (user st) as [u |] eqn:Hu;
    [| eexists; split; [apply handleSubmit_no_session; auto | discriminate]].
  destruct (room st) as [r |] eqn:Hr;
    [| eexists; split; [apply handleSubmit_no_session; auto | discriminate]].
  destruct (Zod.bookingSchema_parse (draft st)) as [e | d] eqn:E.
  - eexists. split; [apply (handleSubmit_zod_error _ _ st u r e); assumption |].
    discriminate.
  - pose proof (bookingSchema_parse_same _ _ E) as ->.
    eexists. split; [| reflexivity].
    apply (handleSubmit_dates_rejected _ _ st u r); try assumption.
    unfold new_Date. rewrite Ha, Hb, Date_leb_times.
    apply Z.leb_le. exact Hba.
Qed.


(** C6.  A valid draft with k selected services whose two inserts are
    accepted adds exactly one booking, in status [pendiente], and exactly
    k service links, each with the key of the new booking and quantity 1;
    the flow then moves on to the payment of that booking. *)
Theorem handleSubmit_success
    (st : State) (u : User) (r : Room) (a b : Z) (g : Q)
    (bid : string) (w : World) :
  let payload := booking_payload st u r (calculateTotal Date_parse st) in
  let booking := Supabase.mkBookingRow bid payload in
  let links := serviceRecords bid (selectedServices st) in
  user st = Some u -> room st = Some r ->
  checkIn (formData st) <> "" -> checkOut (formData st) <> "" ->
  Date_parse (checkIn (formData st)) = Some a ->
  Date_parse (checkOut (formData st)) = Some b ->
  (a < b)%Z ->
  guests (formData st) = Num g -> 1 <= g ->
  Supabase.on_insert_bookings server (db w) payload = inr bid ->
  (selectedServices st <> [] ->
   Supabase.on_insert_booking_services server
     (Supabase.add_booking (db w) booking) links = None) ->
  exists w',
    handleSubmit Date_parse server st w = (inr tt, w')
    /\ Supabase.bookings (db w') = (Supabase.bookings (db w) ++ [booking])%list
    /\ Supabase.status (Supabase.columns booking) = Supabase.pendiente
    /\ Supabase.booking_services (db w')
       = (Supabase.booking_services (db w) ++ links)%list
    /\ List.length links = List.length (selectedServices st)
    /\ Forall (fun l => Supabase.booking_id l = bid /\ Supabase.quantity l = 1%Z)
              links
    /\ log w'
       = (log w
          ++ [Called_calculateTotal (calculateTotal Date_parse st);
              Insert_bookings payload]
          ++ (if (0 <? List.length (selectedServices st))%nat
              then [Insert_booking_services links]
              else [])
          ++ [Toast_success "Reserva creada exitosamente";
              Navigate ("/payment/" ++ bid)])%list.
Proof.
  intros payload booking links Hu Hr Hci Hco Ha Hb Hab Hg Hge E El.
  rewrite (handleSubmit_validated _ _ st u r w Hu Hr
             (bookingSchema_parse_valid st g Hci Hco Hg Hge)
             (valid_dates_pass st a b Ha Hb Hab)).
  destruct (after_validation_success Date_parse server st u r w bid E El)
    as [w' [Erun [Hb' [Hl [_ Hlog]]]]].
  exists w'. repeat split; try assumption.
  - unfold links, serviceRecords. apply length_map.
  - unfold links, serviceRecords. apply Forall_map, Forall_forall.
    intros i _. split; reflexivity.
Qed.

(** C7.  Once the draft has passed validation: if the insert of the
    booking is refused, the flow shows one error message, the insert of
    the service links is never sent and the store is unchanged; if the
    booking is stored and the insert of the links is refused, the flow
    shows one error message and the booking stays in the store without
    any link: nothing is deleted or undone. *)
Theorem handleSubmit_failure_semantics
    (st : State) (u : User) (r : Room) (w : World) :
  let total := calculateTotal Date_parse st in
  let payload := booking_payload st u r total in
  user st = Some u -> room st = Some r ->
  Zod.bookingSchema_parse (draft st) = inr (draft st) ->
  Date_leb (new_Date Date_parse (checkOut (formData st)))
           (new_Date Date_parse (checkIn (formData st))) = false ->
  (forall m,
      Supabase.on_insert_bookings server (db w) payload = inl m ->
      handleSubmit Date_parse server st w
      = (inr tt,
         mkWorld (db w)
           (log w ++ [Called_calculateTotal total;
                      Insert_bookings payload;
                      Toast_error (or_else m "Error al crear la reserva")])))
  /\ (forall bid m,
         let booking := Supabase.mkBookingRow bid payload in
         let links := serviceRecords bid (selectedServices st) in
         Supabase.on_insert_bookings server (db w) payload = inr bid ->
         selectedServices st <> [] ->
         Supabase.on_insert_booking_services server
           (Supabase.add_booking (db w) booking) links = Some m ->
         exists w',
           handleSubmit Date_parse server st w = (inr tt, w')
           /\ log w'
              = (log w ++ [Called_calculateTotal total;
                           Insert_bookings payload;
                           Insert_booking_services links;
                           Toast_error (or_else m "Error al crear la reserva")])%list
           /\ Supabase.bookings (db w')
              = (Supabase.bookings (db w) ++ [booking])%list
           /\ Supabase.booking_services (db w') = Supabase.booking_services (db w)
           /\ ((forall l, In l (Supabase.booking_services (db w)) ->
                          Supabase.booking_id l <> bid) ->
               forall l, In l (Supabase.booking_services (db w')) ->
                         Supabase.booking_id l <> bid)).
Proof.
  intros total payload Hu Hr Hzod Hdates.
  rewrite (handleSubmit_validated _ _ st u r w Hu Hr Hzod Hdates).
  split.
  - intros m E. now apply after_validation_booking_refused.
  - intros bid m booking links E Hsel El.
    rewrite (after_validation_links_refused _ _ st u r w bid m E Hsel El).
    eexists. split; [reflexivity |].
    cbn [db log Supabase.add_booking Supabase.bookings Supabase.booking_services].
    repeat split. auto.
Qed.

End SubmissionClaims.

(** C9.  A selected identifier that is not in the fetched list of active
    services adds nothing to the total, yet a successful submission links
    it to the new booking with quantity 1; the stored total can therefore
    be strictly less than the prices of the services linked to the
    booking (here: one night at 100, linked to a dinner at 200 that is no
    longer active). *)
Theorem unknown_service_linked_but_not_charged :
  (forall Date_parse st l1 l2 i,
      ~ In i (map id (services st)) ->
      calculateTotal Date_parse (with_selectedServices st (l1 ++ i :: l2))
      = calculateTotal Date_parse (with_selectedServices st (l1 ++ l2)))
  /\ (forall Date_parse server st u r w bid i,
         let payload := booking_payload st u r (calculateTotal Date_parse st) in
         let booking := Supabase.mkBookingRow bid payload in
         user st = Some u -> room st = Some r ->
         Zod.bookingSchema_parse (draft st) = inr (draft st) ->
         Date_leb (new_Date Date_parse (checkOut (formData st)))
                  (new_Date Date_parse (checkIn (formData st))) = false ->
         Supabase.on_insert_bookings server (db w) payload = inr bid ->
         Supabase.on_insert_booking_services server
           (Supabase.add_booking (db w) booking)
           (serviceRecords bid (selectedServices st)) = None ->
         In i (selectedServices st) ->
         exists w',
           handleSubmit Date_parse server st w = (inr tt, w')
           /\ In booking (Supabase.bookings (db w'))
           /\ In (Supabase.mkLink bid i 1) (Supabase.booking_services (db w')))
  /\ (exists w' booking total,
         services Examples.stale_selection
         = Supabase.select_active_services Examples.db_with_dinner
         /\ handleSubmit ISO.parse Examples.accepting Examples.stale_selection
              (Examples.start Examples.db_with_dinner) = (inr tt, w')
         /\ Supabase.bookings (db w') = [booking]
         /\ Supabase.booking_services (db w')
            = [Supabase.mkLink (Supabase.id booking) "s9" 1]
         /\ Supabase.total_amount (Supabase.columns booking) = Num total
         /\ total < linked_prices (db w') (Supabase.id booking)).
Proof.
  split; [| split].
  - intros. now apply calculateTotal_unknown_service.
  - intros Date_parse server st u r w bid i payload booking Hu Hr Hzod Hdates E El Hi.
    rewrite (handleSubmit_validated _ _ st u r w Hu Hr Hzod Hdates).
    destruct (after_validation_success Date_parse server st u r w bid E (fun _ => El))
      as [w' [Erun [Hb [Hl _]]]].
    exists w'. split; [exact Erun |]. rewrite Hb, Hl. split.
    + apply in_or_app. right. now left.
    + apply in_or_app. right. unfold serviceRecords.
      apply in_map_iff. now exists i.
  - eexists. eexists. eexists.
    split; [reflexivity |].
    split; [vm_compute; reflexivity |].
    split; [reflexivity |]. split; [reflexivity |]. split; [reflexivity |].
    vm_compute. reflexivity.
Qed.

(** ** Concrete runs of the statements *)

(** The two examples of the specification: a stay of zero nights costs
    nothing before services, and two nights at 100 with one service at 50
    cost 250. *)
Example pricing_same_day :
  calculateTotal ISO.parse (Examples.page "2025-01-01" "2025-01-01" (Num 1) [])
  = Num 0.
Proof. reflexivity. Qed.

Example pricing_two_nights_one_service :
  calculateTotal ISO.parse Examples.two_nights = Num 250.
Proof. reflexivity. Qed.

(** No guests and a check-out before the check-in: the schema speaks
    first, the order of the dates is not reported. *)
Example few_guests_before_date_order :
  handleSubmit ISO.parse Examples.accepting
    (Examples.page "2025-01-03" "2025-01-01" (Num 0) [])
    (Examples.start Examples.empty_db)
  = (inr tt,
     mkWorld Examples.empty_db [Toast_error "Debe haber al menos 1 huésped"]).
Proof. reflexivity. Qed.

(** A field emptied by the user: [parseInt] gives [NaN], which the schema
    refuses as well. *)
Example NaN_guests_rejected :
  handleSubmit ISO.parse Examples.accepting
    (Examples.page "2025-01-01" "2025-01-03" NaN [])
    (Examples.start Examples.empty_db)
  = (inr tt,
     mkWorld Examples.empty_db [Toast_error "Expected number, received nan"]).
Proof. reflexivity. Qed.

Lemma example_prices_nonneg (s : AdditionalService) :
  In s [Examples.spa; Examples.tour] -> 0 <= price s.
Proof. intros [<- | [<- | []]]; vm_compute; discriminate. Defined.


Lemma calculateTotal_nonneg_witness :
  nonneg (calculateTotal ISO.parse Examples.two_nights).
Proof.
  apply calculateTotal_nonneg.
  - intros r H. injection H as <-. vm_compute. discriminate.
  - intros s Hs _. exact (example_prices_nonneg s Hs).
  - right; right. exists 1735689600000%Z, 1735862400000%Z.
    repeat split; try reflexivity. vm_compute. discriminate.
Defined.

Lemma calculateTotal_negative_counterexample :
  calculateTotal ISO.parse Examples.early_checkout = Num (-200)
  /\ ~ nonneg (calculateTotal ISO.parse Examples.early_checkout).
Proof.
  split; [reflexivity |]. vm_compute. intros H. apply H. reflexivity.
Qed.

Lemma example_prices_decimal (s : AdditionalService) :
  In s [Examples.spa; Examples.tour] -> decimal_amount (price s).
Proof.
  intros [<- | [<- | []]]; unfold decimal_amount; simpl; split; lia.
Defined.

Lemma example_times_valid :
  valid_time 1735689600000 /\ valid_time 1735862400000
  /\ valid_time 1735948800000.
Proof. unfold valid_time. simpl. lia. Defined.




(** Three nights at 35.10 without services: the exact value of
    nights x rate is 105.30; the calculator returns the double next above
    the one nearest to 105.30, which prints as 105.30000000000001. *)
Lemma calculateTotal_rounding_counterexample :
  is_ceiling_of_days 3 1735689600000 1735948800000
  /\ Double.calculateTotal ISO.parse Examples.cabin_three_nights
     = S754_finite false 7409828761908020 (-46)
  /\ Double.value (S754_finite false 7409828761908020 (-46))
     = Some (7409828761908020 # 70368744177664)
  /\ ~ (7409828761908020 # 70368744177664)
       == 3 * price_per_night Examples.cabin
  /\ Double.value (Double.of_decimal (price_per_night Examples.cabin))
     = Some (4939885841272013 # 140737488355328)
  /\ ~ (7409828761908020 # 70368744177664)
       == 3 * (4939885841272013 # 140737488355328)
  /\ Double.of_decimal (1053 # 10) = S754_finite false 7409828761908019 (-46).
Proof.
  split; [unfold is_ceiling_of_days; lia |].
  split; [vm_compute; reflexivity |].
  split; [reflexivity |].
  split; [vm_compute; discriminate |].
  split; [vm_compute; reflexivity |].
  split; [vm_compute; discriminate |].
  vm_compute. reflexivity.
Qed.


(** Three nights at 99.99 without services: the calculator returns
    299.96999999999997, below the exact product 299.97 of the nights and
    the rate, and below three times the double the rate is. *)
Lemma calculateTotal_below_exact_product_counterexample :
  is_ceiling_of_days 3 1735689600000 1735948800000
  /\ Double.calculateTotal ISO.parse Examples.loft_three_nights
     = S754_finite false 5277128047743467 (-44)
  /\ Double.value (S754_finite false 5277128047743467 (-44))
     = Some (5277128047743467 # 17592186044416)
  /\ (5277128047743467 # 17592186044416) < 3 * price_per_night Examples.loft
  /\ Double.value (Double.of_decimal (price_per_night Examples.loft))
     = Some (7036170730324623 # 70368744177664)
  /\ (5277128047743467 # 17592186044416)
     < 3 * (7036170730324623 # 70368744177664).
Proof.
  split; [unfold is_ceiling_of_days; lia |].
  split; [vm_compute; reflexivity |].
  split; [reflexivity |].
  split; [vm_compute; reflexivity |].
  split; [vm_compute; reflexivity |].
  vm_compute. reflexivity.
Qed.

Lemma handleServiceToggle_selection_witness :
  NoDup (toggles ["a"; "b"; "a"])
  /\ handleServiceToggle "c" ["a"; "b"] = ["a"; "b"; "c"]
  /\ handleServiceToggle "c" (handleServiceToggle "c" ["a"; "b"]) = ["a"; "b"]
  /\ Permutation (handleServiceToggle "a" (handleServiceToggle "a" ["a"; "b"]))
                 ["a"; "b"].
Proof.
  assert (Hnd : NoDup ["a"; "b"]).
  { constructor; [intros [H | []]; discriminate |].
    constructor; [intros [] | constructor]. }
  assert (Hc : ~ In "c" ["a"; "b"]) by (intros [H | [H | []]]; discriminate).
  destruct handleServiceToggle_selection as [H1 [_ [_ [H4 [H5 H6]]]]].
  split; [apply H1 |]. split; [apply (H4 "c" ["a"; "b"] Hc) |].
  split; [apply (H6 "c" ["a"; "b"] Hc) | apply (H5 "a" ["a"; "b"] Hnd)].
Defined.

Lemma toggle_twice_reorders_counterexample :
  toggles ["a"; "b"] = ["a"; "b"]
  /\ handleServiceToggle "a" (handleServiceToggle "a" ["a"; "b"]) = ["b"; "a"]
  /\ handleServiceToggle "a" (handleServiceToggle "a" ["a"; "b"]) <> ["a"; "b"].
Proof. repeat split. discriminate. Qed.

Lemma handleSubmit_rejects_checkout_not_after_checkin_witness :
  exists message,
    handleSubmit ISO.parse Examples.accepting Examples.early_checkout
      (Examples.start Examples.empty_db)
    = (inr tt, mkWorld Examples.empty_db [Toast_error message])
    /\ (forall u r,
           Some Examples.client = Some u -> Some Examples.suite = Some r ->
           Zod.bookingSchema_parse (draft Examples.early_checkout)
           = inr (draft Examples.early_checkout) ->
           message
           = "La fecha de salida debe ser posterior a la fecha de entrada").
Proof.
  apply (handleSubmit_rejects_checkout_not_after_checkin ISO.parse
           Examples.accepting Examples.early_checkout
           1735862400000 1735689600000 (Examples.start Examples.empty_db));
    try reflexivity.
  vm_compute. discriminate.
Defined.


(** No guests and a check-out before the check-in: in the order in which
    the checks are listed the first one offended is the order of the
    dates; the flow reports the guests field. *)
Lemma first_offending_order_counterexample :
  first_listed_offence ISO.parse Examples.no_guests_early_checkout
  = Some Checkout_after_checkin
  /\ Zod.bookingSchema_parse (draft Examples.no_guests_early_checkout)
     = inl (Zod.mkZodError issue_guests [])
  /\ Zod.path issue_guests = ["guests"]
  /\ handleSubmit ISO.parse Examples.accepting Examples.no_guests_early_checkout
       (Examples.start Examples.empty_db)
     = (inr tt,
        mkWorld Examples.empty_db [Toast_error "Debe haber al menos 1 huésped"]).
Proof. repeat split. Qed.

Lemma handleSubmit_success_witness :
  exists w',
    handleSubmit ISO.parse Examples.accepting Examples.two_nights
      (Examples.start Examples.empty_db) = (inr tt, w')
    /\ Supabase.bookings (db w')
       = [Supabase.mkBookingRow "b1"
            (booking_payload Examples.two_nights Examples.client Examples.suite
               (Num 250))]
    /\ Supabase.booking_services (db w') = [Supabase.mkLink "b1" "s1" 1].
Proof.
  destruct (handleSubmit_success ISO.parse Examples.accepting Examples.two_nights
              Examples.client Examples.suite 1735689600000 1735862400000 2 "b1"
              (Examples.start Examples.empty_db))
    as [w' [E [Hb [_ [Hl _]]]]];
    try reflexivity; try discriminate.
  exists w'. split; [exact E |]. split; [exact Hb | exact Hl].
Defined.

Lemma handleSubmit_failure_semantics_witness :
  handleSubmit ISO.parse Examples.refusing_bookings Examples.two_nights
    (Examples.start Examples.empty_db)
  = (inr tt,
     mkWorld Examples.empty_db
       [Called_calculateTotal (Num 250);
        Insert_bookings
          (booking_payload Examples.two_nights Examples.client Examples.suite
             (Num 250));
        Toast_error "new row violates row-level security policy"])
  /\ exists w',
       handleSubmit ISO.parse Examples.refusing_links Examples.two_nights
         (Examples.start Examples.empty_db) = (inr tt, w')
       /\ List.length (Supabase.bookings (db w')) = 1%nat
       /\ Supabase.booking_services (db w') = [].
Proof.
  split.
  - apply (proj1 (handleSubmit_failure_semantics ISO.parse
                    Examples.refusing_bookings Examples.two_nights
                    Examples.client Examples.suite
                    (Examples.start Examples.empty_db)
                    eq_refl eq_refl eq_refl eq_refl)
             "new row violates row-level security policy").
    reflexivity.
  - destruct (proj2 (handleSubmit_failure_semantics ISO.parse
                       Examples.refusing_links Examples.two_nights
                       Examples.client Examples.suite
                       (Examples.start Examples.empty_db)
                       eq_refl eq_refl eq_refl eq_refl)
                "b1" "insert or update violates foreign key constraint")
      as [w' [E [_ [Hb [Hl _]]]]];
      try reflexivity; try discriminate.
    exists w'. split; [exact E |]. rewrite Hb, Hl. split; reflexivity.
Defined.

Lemma unknown_service_linked_but_not_charged_witness :
  calculateTotal ISO.parse Examples.stale_selection
  = calculateTotal ISO.parse (with_selectedServices Examples.stale_selection []).
Proof.
  apply (proj1 unknown_service_linked_but_not_charged ISO.parse
           Examples.stale_selection [] [] "s9").
  intros [H | [H | []]]; discriminate.
Defined.

(** * Further properties of the booking page *)

(** ** What the schema lets through *)

(** X1.  [bookingSchema.parse] accepts a form exactly when both dates are
    non-empty and the number of guests is a number (not [NaN]) that is at
    least 1; fractional numbers of guests pass. *)
Theorem bookingSchema_accepts_iff (d : Zod.BookingInput) :
  Zod.bookingSchema_parse d = inr d
  <-> Zod.in_checkIn d <> "" /\ Zod.in_checkOut d <> ""
      /\ exists g, Zod.in_guests d = Num g /\ 1 <= g.
Proof.
  unfold Zod.bookingSchema_parse, Zod.bookingSchema_issues.
  destruct d as [ci co g]; cbn [Zod.in_checkIn Zod.in_checkOut Zod.in_guests].
  split.
  - destruct ci as [| c1 ci]; [discriminate |].
    destruct co as [| c2 co]; [discriminate |].
    destruct g as [q |]; [| discriminate]. simpl.
    destruct (Qle_bool 1 q) eqn:E; [| discriminate].
    intros _. repeat split; try discriminate.
    exists q. split; [reflexivity | now apply Qle_bool_iff].
  - intros [Hci [Hco [q [-> Hq]]]].
    rewrite !string_min1_present by assumption. simpl.
    now rewrite (proj2 (Qle_bool_iff 1 q) Hq).
Qed.

(** ** Nights *)



(** Where the bound on the distance matters: from the first instant a
    [Date] can hold to one millisecond past 134217728 days later, the
    difference of the time values is not a double; the page counts
    134217728 nights, one less than the ceiling. *)
Example nights_at_the_edge_of_the_range :
  valid_time (-8640000000000000) /\ valid_time 2956411699200001
  /\ is_ceiling_of_days 134217729 (-8640000000000000) 2956411699200001
  /\ Double.nights (mkDate (Some (-8640000000000000)%Z))
                   (mkDate (Some 2956411699200001%Z))
     = Double.of_Z 134217728.
Proof.
  split; [unfold valid_time; simpl; lia |].
  split; [unfold valid_time; simpl; lia |].
  split; [unfold is_ceiling_of_days; lia |].
  vm_compute. reflexivity.
Qed.

(** ** Totals and the selection *)

Lemma calculateTotal_reads_selection Date_parse st :
  calculateTotal Date_parse (with_selectedServices st (selectedServices st))
  = calculateTotal Date_parse st.
Proof. reflexivity. Qed.

(** X3.  Once a room is loaded and both dates are filled in, ticking a
    listed service that was not selected adds exactly its price to the
    total.  As long as a date is missing the total stays 0 whatever is
    ticked. *)
Theorem toggle_adds_price
    (Date_parse : string -> option Z) (st : State) (s : AdditionalService) :
  find_service (services st) (id s) = Some s ->
  ~ In (id s) (selectedServices st) ->
  (room st <> None -> checkIn (formData st) <> "" -> checkOut (formData st) <> "" ->
   calculateTotal Date_parse
     (with_selectedServices st (handleServiceToggle (id s) (selectedServices st)))
   = add (calculateTotal Date_parse st) (Num (price s)))
  /\ (checkIn (formData st) = "" \/ checkOut (formData st) = "" ->
      calculateTotal Date_parse
        (with_selectedServices st (handleServiceToggle (id s) (selectedServices st)))
      = Num 0).
Proof.
  intros Hfind Hout. split.
  - intros Hroom Hci Hco.
    destruct (room st) as [r |] eqn:Hr; [clear Hroom | congruence].
    rewrite (toggle_absent _ _ Hout).
    rewrite <- (calculateTotal_reads_selection Date_parse st) at 1.
    rewrite !(calculateTotal_present Date_parse _ r) by assumption.
    cbn [with_selectedServices room formData services selectedServices].
    rewrite fold_left_app. cbn [fold_left]. unfold add_service at 1.
    now rewrite Hfind.
  - intros H. now apply calculateTotal_absent.
Qed.

Lemma toggle_adds_price_witness :
  calculateTotal ISO.parse
    (with_selectedServices Examples.two_nights
       (handleServiceToggle "s2" ["s1"]))
  = add (calculateTotal ISO.parse Examples.two_nights) (Num 120).
Proof.
  apply (proj1 (toggle_adds_price ISO.parse Examples.two_nights
                  Examples.tour eq_refl
                  ltac:(intros [H | []]; discriminate))
           ltac:(discriminate) ltac:(discriminate) ltac:(discriminate)).
Defined.

(** X4.  With a non-negative nightly rate, moving the check-out to a later
    instant never lowers the total. *)
Theorem calculateTotal_monotone_checkOut
    (Date_parse : string -> option Z) (st : State) (r : Room)
    (later : string) (a b b' : Z) :
  room st = Some r -> 0 <= price_per_night r ->
  checkIn (formData st) <> "" -> checkOut (formData st) <> "" -> later <> "" ->
  Date_parse (checkIn (formData st)) = Some a ->
  Date_parse (checkOut (formData st)) = Some b ->
  Date_parse later = Some b' ->
  (b <= b')%Z ->
  exists q q',
    calculateTotal Date_parse st = Num q
    /\ calculateTotal Date_parse
         (with_formData st
            (mkFormData (checkIn (formData st)) later (guests (formData st))
                        (specialRequests (formData st)))) = Num q'
    /\ q <= q'.
Proof.
  intros Hroom Hrate Hci Hco Hlater Ha Hb Hb' Hle.
  destruct (calculateTotal_valid Date_parse st r a b Hroom Hci Hco Ha Hb)
    as [n [q [Hn [_ [Eq Hq]]]]].
  destruct (calculateTotal_valid Date_parse
              (with_formData st
                 (mkFormData (checkIn (formData st)) later (guests (formData st))
                             (specialRequests (formData st)))) r a b')
    as [n' [q' [Hn' [_ [Eq' Hq']]]]]; try assumption.
  exists q, q'. split; [exact Eq |]. split; [exact Eq' |].
  cbn [with_formData services selectedServices] in Hq'.
  rewrite Hq, Hq'.
  assert (Hnn : (n <= n')%Z) by (unfold is_ceiling_of_days in *; lia).
  assert (inject_Z n * price_per_night r <= inject_Z n' * price_per_night r).
  { apply Qmult_le_compat_r; [| exact Hrate]. now rewrite <- Zle_Qle. }
  lra.
Qed.

Lemma calculateTotal_monotone_checkOut_witness :
  exists q q',
    calculateTotal ISO.parse Examples.two_nights = Num q
    /\ calculateTotal ISO.parse
         (Examples.page "2025-01-01" "2025-01-05" (Num 2) ["s1"]) = Num q'
    /\ q <= q'.
Proof.
  apply (calculateTotal_monotone_checkOut ISO.parse Examples.two_nights
           Examples.suite "2025-01-05" 1735689600000 1735862400000 1736035200000);
    try reflexivity; try discriminate.
Defined.

(** ** More on the submission flow *)






(** X7.  Nothing in the flow recognises a submission it has already made:
    submitting the same valid draft twice, against a store that accepts
    the inserts, leaves two bookings with the same columns, each with its
    own service links. *)
Theorem handleSubmit_twice_stores_two_bookings
    (Date_parse : string -> option Z) (server : Supabase.Server)
    (st : State) (u : User) (r : Room) (a b : Z) (g : Q) (w : World) :
  user st = Some u -> room st = Some r ->
  checkIn (formData st) <> "" -> checkOut (formData st) <> "" ->
  Date_parse (checkIn (formData st)) = Some a ->
  Date_parse (checkOut (formData st)) = Some b ->
  (a < b)%Z ->
  guests (formData st) = Num g -> 1 <= g ->
  (forall d p, exists bid, Supabase.on_insert_bookings server d p = inr bid) ->
  (forall d l, Supabase.on_insert_booking_services server d l = None) ->
  exists w1 w2 b1 b2,
    handleSubmit Date_parse server st w = (inr tt, w1)
    /\ handleSubmit Date_parse server st w1 = (inr tt, w2)
    /\ Supabase.bookings (db w2) = (Supabase.bookings (db w) ++ [b1; b2])%list
    /\ Supabase.columns b1 = Supabase.columns b2
    /\ Supabase.booking_services (db w2)
       = (Supabase.booking_services (db w)
          ++ serviceRecords (Supabase.id b1) (selectedServices st)
          ++ serviceRecords (Supabase.id b2) (selectedServices st))%list.
Proof.
  intros Hu Hr Hci Hco Ha Hb Hab Hg Hge Hbook Hlinks.
  pose proof (bookingSchema_parse_valid st g Hci Hco Hg Hge) as Hzod.
  pose proof (valid_dates_pass Date_parse st a b Ha Hb Hab) as Hdates.
  set (payload := booking_payload st u r (calculateTotal Date_parse st)).
  destruct (Hbook (db w) payload) as [bid1 E1].
  destruct (after_validation_success Date_parse server st u r w bid1 E1
              (fun _ => Hlinks _ _)) as [w1 [Erun1 [Hb1 [Hl1 _]]]].
  destruct (Hbook (db w1) payload) as [bid2 E2].
  destruct (after_validation_success Date_parse server st u r w1 bid2 E2
              (fun _ => Hlinks _ _)) as [w2 [Erun2 [Hb2 [Hl2 _]]]].
  exists w1, w2, (Supabase.mkBookingRow bid1 payload),
         (Supabase.mkBookingRow bid2 payload).
  rewrite !(handleSubmit_validated _ _ st u r _ Hu Hr Hzod Hdates).
  repeat split; try assumption.
  - rewrite Hb2, Hb1. now rewrite <- app_assoc.
  - rewrite Hl2, Hl1. now rewrite <- app_assoc.
Qed.

Lemma handleSubmit_twice_stores_two_bookings_witness :
  exists w1 w2 b1 b2,
    handleSubmit ISO.parse Examples.accepting Examples.two_nights
      (Examples.start Examples.empty_db) = (inr tt, w1)
    /\ handleSubmit ISO.parse Examples.accepting Examples.two_nights w1 = (inr tt, w2)
    /\ Supabase.bookings (db w2) = [b1; b2]
    /\ Supabase.columns b1 = Supabase.columns b2.
Proof.
  destruct (handleSubmit_twice_stores_two_bookings ISO.parse Examples.accepting
              Examples.two_nights Examples.client Examples.suite
              1735689600000 1735862400000 2 (Examples.start Examples.empty_db))
    as [w1 [w2 [b1 [b2 [E1 [E2 [Hb [Hc _]]]]]]]];
    try reflexivity; try discriminate.
  - intros d p. exists "b1". reflexivity.
  - exists w1, w2, b1, b2. repeat split; assumption.
Defined.

(** ** The form as the user drives it *)





(** ** The total in double precision *)

Lemma ceiling_of_days_bound (n a b : Z) :
  is_ceiling_of_days n a b -> (Z.abs (b - a) < 2 ^ 53)%Z ->
  (Z.abs n < 2 ^ 53)%Z.
Proof.
  unfold is_ceiling_of_days. change (2 ^ 53)%Z with 9007199254740992%Z. lia.
Qed.

Lemma whole_amount_nonneg (q : Q) (k : Z) :
  decimal_amount q -> whole_amount q k -> (0 <= k < 2 ^ 53)%Z.
Proof.
  unfold decimal_amount, whole_amount. intros [Hn Hd] E.
  rewrite E in Hn. nia.
Qed.

(** A whole number of soles reaches the page as that very number. *)
Lemma of_decimal_whole (q : Q) (k : Z) :
  decimal_amount q -> whole_amount q k ->
  Double.of_decimal q = Double.of_Z k.
Proof.
  intros Hq Hk. pose proof (whole_amount_nonneg q k Hq Hk) as Hk0.
  unfold decimal_amount, whole_amount in *. destruct Hq as [Hn Hd].
  unfold Double.of_decimal. rewrite Hk.
  apply DoubleFacts.div_of_Z; [lia |].
  rewrite <- Hk. lia.
Qed.

Lemma add_prices_whole (k : AdditionalService -> Z)
    (chosen : list AdditionalService) : forall t : Z,
  (0 <= t)%Z ->
  (forall s, In s chosen -> decimal_amount (price s) /\ whole_amount (price s) (k s)) ->
  (t + sum_whole k chosen < 2 ^ 53)%Z ->
  add_prices chosen (Double.of_Z t)
  = Double.of_Z (t + sum_whole k chosen)%Z.
Proof.
  unfold add_prices.
  induction chosen as [| s chosen IH]; intros t Ht Hwhole Hsum; simpl.
  - now rewrite Z.add_0_r.
  - destruct (Hwhole s (or_introl eq_refl)) as [Hd Hw].
    pose proof (whole_amount_nonneg _ _ Hd Hw) as Hk.
    assert (Hrest : (0 <= sum_whole k chosen)%Z).
    { clear - Hwhole. induction chosen as [| s' chosen IH]; simpl; [lia |].
      destruct (Hwhole s' (or_intror (or_introl eq_refl))) as [Hd Hw].
      pose proof (whole_amount_nonneg _ _ Hd Hw).
      assert (0 <= sum_whole k chosen)%Z; [| lia].
      apply IH. intros s0 [<- | Hs0]; apply Hwhole; [now left | right; now right]. }
    simpl in Hsum.
    rewrite (of_decimal_whole _ _ Hd Hw).
    rewrite DoubleFacts.add_of_Z by lia.
    rewrite IH; [f_equal; lia | lia | intros s' Hs'; apply Hwhole; now right | lia].
Qed.

Section DoubleTotals.

Variable Date_parse : string -> option Z.

(** X24.  In double precision, as in exact arithmetic: for a nightly rate
    and prices of the selected services that are non-negative decimals,
    and dates that are absent or both parseable, in range, with the
    check-out not earlier than the check-in, the total is never [NaN]
    and never negative. *)
Theorem double_calculateTotal_nonneg (st : State) :
  (forall r, room st = Some r -> decimal_amount (price_per_night r)) ->
  (forall s, In s (services st) -> In (id s) (selectedServices st) ->
             decimal_amount (price s)) ->
  (checkIn (formData st) = "" \/ checkOut (formData st) = "" \/
   exists a b, Date_parse (checkIn (formData st)) = Some a
               /\ Date_parse (checkOut (formData st)) = Some b
               /\ valid_time a /\ valid_time b
               /\ (Z.abs (b - a) < 2 ^ 53)%Z /\ (a <= b)%Z) ->
  Double.calculateTotal Date_parse st <> Double.NaN
  /\ Double.leb Double.zero (Double.calculateTotal Date_parse st) = true.
Proof.
  intros Hrate Hprices Hdates.
  assert (Hgood : Double.good (Double.calculateTotal Date_parse st)).
  { destruct (room st) as [r |] eqn:Hroom;
      [| rewrite double_calculateTotal_no_room by exact Hroom; exact I].
    destruct (string_dec (checkIn (formData st)) "") as [Hin | Hin];
      [rewrite double_calculateTotal_absent by auto; exact I |].
    destruct (string_dec (checkOut (formData st)) "") as [Hout | Hout];
      [rewrite double_calculateTotal_absent by auto; exact I |].
    destruct Hdates as [H | [H | [a [b [Ha [Hb [Va [Vb [Hab Hle]]]]]]]]];
      try contradiction.
    destruct (double_calculateTotal_valid Date_parse st r a b
                Hroom Hin Hout Ha Hb Va Vb Hab) as [n [Hn [_ Et]]].
    rewrite Et. apply add_prices_good.
    - apply DoubleFacts.mul_amount.
      + unfold ceiling_as_double.
        replace (b - a <? 0)%Z with false by (symmetry; apply Z.ltb_ge; lia).
        rewrite andb_false_r.
        apply DoubleFacts.of_Z_amount.
        pose proof (ceiling_of_days_nonneg n a b Hn Hle).
        pose proof (ceiling_of_days_bound n a b Hn Hab). lia.
      + apply DoubleFacts.of_decimal_amount; apply (Hrate r eq_refl).
    - intros s Hs. apply found_services_in in Hs. destruct Hs as [i [Hi E]].
      apply find_service_some in E. destruct E as [Hs <-]. now apply Hprices. }
  split.
  - intros E. rewrite E in Hgood. exact Hgood.
  - apply DoubleFacts.rank_leb; [exact I | exact Hgood |].
    apply (DoubleFacts.good_rank_bounds _ Hgood).
Qed.

(** X25.  When the nightly rate and the prices of the selected services
    are whole numbers, as in the data the schema is seeded with, nothing
    is rounded: the total in double precision is exactly
    nights x rate + the sum of the prices, as long as that sum is below
    2^53. *)
Theorem calculateTotal_exact_for_whole_prices
    (st : State) (r : Room) (a b R : Z) (k : AdditionalService -> Z) :
  room st = Some r ->
  checkIn (formData st) <> "" -> checkOut (formData st) <> "" ->
  Date_parse (checkIn (formData st)) = Some a ->
  Date_parse (checkOut (formData st)) = Some b ->
  valid_time a -> valid_time b -> (Z.abs (b - a) < 2 ^ 53)%Z ->
  (a <= b)%Z ->
  decimal_amount (price_per_night r) -> whole_amount (price_per_night r) R ->
  (forall s, In s (services st) -> In (id s) (selectedServices st) ->
             decimal_amount (price s) /\ whole_amount (price s) (k s)) ->
  exists n,
    is_ceiling_of_days n a b
    /\ ((n * R
         + sum_whole k (found_services (services st) (selectedServices st)) < 2 ^ 53)%Z ->
        Double.calculateTotal Date_parse st
        = Double.of_Z
            (n * R
             + sum_whole k (found_services (services st) (selectedServices st)))%Z).
Proof.
  intros Hroom Hin Hout Ha Hb Va Vb Hab Hle Hrate HR Hprices.
  destruct (double_calculateTotal_valid Date_parse st r a b
              Hroom Hin Hout Ha Hb Va Vb Hab) as [n [Hn [_ Et]]].
  exists n. split; [exact Hn |]. intros Hsum.
  pose proof (ceiling_of_days_nonneg n a b Hn Hle) as Hn0.
  pose proof (ceiling_of_days_bound n a b Hn Hab) as Hn1.
  pose proof (whole_amount_nonneg _ _ Hrate HR) as HR0.
  assert (Hwhole : forall s,
             In s (found_services (services st) (selectedServices st)) ->
             decimal_amount (price s) /\ whole_amount (price s) (k s)).
  { intros s Hs. apply found_services_in in Hs. destruct Hs as [i [Hi E]].
    apply find_service_some in E. destruct E as [Hs <-]. now apply Hprices. }
  assert (Hrest : (0 <= sum_whole k (found_services (services st) (selectedServices st)))%Z).
  { generalize Hwhole.
    generalize (found_services (services st) (selectedServices st)) as l.
    induction l as [| s l IH]; simpl; intros Hw; [lia |].
    destruct (Hw s (or_introl eq_refl)) as [Hd Hk].
    pose proof (whole_amount_nonneg _ _ Hd Hk).
    assert (0 <= sum_whole k l)%Z; [| lia].
    apply IH. intros s' Hs'. apply Hw. now right. }
  rewrite Et. unfold ceiling_as_double.
  replace (b - a <? 0)%Z with false by (symmetry; apply Z.ltb_ge; lia).
  rewrite andb_false_r.
  rewrite (of_decimal_whole _ _ Hrate HR).
  rewrite DoubleFacts.mul_of_Z_nonneg by nia.
  apply add_prices_whole; [nia | exact Hwhole | exact Hsum].
Qed.

End DoubleTotals.

Lemma double_calculateTotal_nonneg_witness :
  Double.calculateTotal ISO.parse Examples.two_nights <> Double.NaN
  /\ Double.leb Double.zero (Double.calculateTotal ISO.parse Examples.two_nights)
     = true.
Proof.
  apply double_calculateTotal_nonneg.
  - intros r H. injection H as <-. unfold decimal_amount. simpl. split; lia.
  - intros s Hs _. exact (example_prices_decimal s Hs).
  - right; right. exists 1735689600000%Z, 1735862400000%Z.
    repeat split; try reflexivity; try apply example_times_valid;
      try (vm_compute; discriminate).
Defined.

Lemma example_prices_whole (s : AdditionalService) :
  In s [Examples.spa; Examples.tour] ->
  decimal_amount (price s)
  /\ whole_amount (price s) (if String.eqb (id s) "s1" then 50 else 120).
Proof.
  intros [<- | [<- | []]]; unfold decimal_amount, whole_amount; simpl;
    repeat split; lia.
Defined.

Lemma calculateTotal_exact_for_whole_prices_witness :
  Double.calculateTotal ISO.parse Examples.two_nights = Double.of_Z 250.
Proof.
  assert (Hrate : decimal_amount (price_per_night Examples.suite))
    by (unfold decimal_amount; simpl; split; lia).
  destruct example_times_valid as [Va [Vb _]].
  destruct (calculateTotal_exact_for_whole_prices ISO.parse Examples.two_nights
              Examples.suite 1735689600000 1735862400000 100
              (fun s => if String.eqb (id s) "s1" then 50 else 120)%Z
              eq_refl ltac:(discriminate) ltac:(discriminate) eq_refl eq_refl
              Va Vb eq_refl ltac:(discriminate) Hrate eq_refl
              (fun s Hs _ => example_prices_whole s Hs))
    as [n [Hn Ht]].
  assert (En : n = 2%Z) by (unfold is_ceiling_of_days in Hn; lia).
  subst n. apply Ht. simpl. lia.
Defined.

(** * The list of rooms *)

Lemma StronglySorted_filter_keep {A} (R : A -> A -> Prop) (f : A -> bool) l :
  StronglySorted R l -> StronglySorted R (filter f l).
Proof.
  induction 1 as [| a l Hs IH Hall]; simpl; [constructor |].
  destruct (f a); [| exact IH].
  constructor; [exact IH |].
  rewrite Forall_forall in *. intros x Hx. apply filter_In in Hx.
  apply Hall. tauto.
Qed.

(** X9.  The filtered list holds exactly the fetched rooms of the chosen
    type (all of them for ["all"]), in the order in which they were
    fetched, so that a list sorted by price stays sorted; filtering twice
    by the same type changes nothing more. *)
Theorem filteredRooms_keeps_order
    (filterType : string) (rooms : list RoomsPage.Room) :
  (forall r, In r (RoomsPage.filteredRooms filterType rooms)
             <-> In r rooms
                 /\ (filterType = "all" \/ RoomsPage.type r = filterType))
  /\ (StronglySorted RoomsPage.cheaper rooms ->
      StronglySorted RoomsPage.cheaper (RoomsPage.filteredRooms filterType rooms))
  /\ RoomsPage.filteredRooms filterType (RoomsPage.filteredRooms filterType rooms)
     = RoomsPage.filteredRooms filterType rooms.
Proof.
  unfold RoomsPage.filteredRooms.
  destruct (String.eqb_spec filterType "all") as [-> | Hne].
  - split; [| split].
    + intros r. split; [intros H; split; [exact H | now left] | tauto].
    + tauto.
    + reflexivity.
  - split; [| split].
    + intros r. rewrite filter_In, String.eqb_eq. split.
      * intros [Hin E]. split; [exact Hin | now right].
      * intros [Hin [H | H]]; [contradiction | now split].
    + apply StronglySorted_filter_keep.
    + apply forallb_filter_id. apply forallb_forall.
      intros r Hr. apply filter_In in Hr. tauto.
Qed.

(** X10.  When every fetched room has one of the four types offered by
    the filter, the four filtered lists split the fetched list: no room
    shows under two types and their sizes add up to the size of the whole
    list. *)
Theorem filteredRooms_partition (rooms : list RoomsPage.Room) :
  (forall r, In r rooms -> In (RoomsPage.type r) RoomsPage.room_types) ->
  (forall t1 t2 r,
      In t1 RoomsPage.room_types -> In t2 RoomsPage.room_types ->
      In r (RoomsPage.filteredRooms t1 rooms) ->
      In r (RoomsPage.filteredRooms t2 rooms) -> t1 = t2)
  /\ List.length (RoomsPage.filteredRooms "all" rooms)
     = (List.length (RoomsPage.filteredRooms "simple" rooms)
        + List.length (RoomsPage.filteredRooms "doble" rooms)
        + List.length (RoomsPage.filteredRooms "suite" rooms)
        + List.length (RoomsPage.filteredRooms "presidencial" rooms))%nat.
Proof.
  intros Htypes. split.
  - intros t1 t2 r H1 H2 Hr1 Hr2.
    apply (proj1 (filteredRooms_keeps_order t1 rooms)) in Hr1.
    apply (proj1 (filteredRooms_keeps_order t2 rooms)) in Hr2.
    destruct Hr1 as [_ [-> | E1]];
      [simpl in H1; intuition discriminate |].
    destruct Hr2 as [_ [-> | E2]];
      [simpl in H2; intuition discriminate |].
    congruence.
  - unfold RoomsPage.filteredRooms. cbn [String.eqb Ascii.eqb Bool.eqb].
    induction rooms as [| r rooms IH]; [reflexivity |].
    assert (Hr : In (RoomsPage.type r) RoomsPage.room_types)
      by (apply Htypes; now left).
    assert (IH' := IH (fun r' Hr' => Htypes r' (or_intror Hr'))).
    cbn [filter List.length].
    destruct Hr as [E | [E | [E | [E | []]]]]; rewrite <- E;
      cbn [String.eqb Ascii.eqb Bool.eqb List.length]; lia.
Qed.

Lemma filteredRooms_partition_witness :
  List.length
    (RoomsPage.filteredRooms "all"
       [RoomsPage.mkRoom "r1" "Suite Ejecutiva" "suite" 450 "" 3 "disponible" [] None;
        RoomsPage.mkRoom "r2" "Doble Standard" "doble" 220 "" 2 "disponible" [] None])
  = 2%nat.
Proof.
  rewrite (proj2 (filteredRooms_partition
             [RoomsPage.mkRoom "r1" "Suite Ejecutiva" "suite" 450 "" 3 "disponible" [] None;
              RoomsPage.mkRoom "r2" "Doble Standard" "doble" 220 "" 2 "disponible" [] None]
             ltac:(intros r [<- | [<- | []]]; simpl; tauto))).
  reflexivity.
Defined.

(** * The payment page *)

Lemma is_staff_add_payment t p uid :
  Site.is_staff (Site.add_payment t p) uid = Site.is_staff t uid.
Proof. reflexivity. Qed.

Lemma update_booking_status_not_staff uid bid s t :
  Site.is_staff t uid = false ->
  Site.update_booking_status uid bid s t
  = Site.with_bookings t (Supabase.bookings (Site.booking_tables t)).
Proof.
  intros H. unfold Site.update_booking_status, Site.may_update_booking.
  rewrite H. f_equal. rewrite <- (map_id (Supabase.bookings _)) at 2.
  apply map_ext. intros b. now rewrite andb_false_r.
Qed.

Lemma update_booking_status_staff uid bid s t :
  Site.is_staff t uid = true ->
  Supabase.bookings (Site.booking_tables (Site.update_booking_status uid bid s t))
  = map (fun b => if String.eqb (Supabase.id b) bid then Site.with_status s b else b)
        (Supabase.bookings (Site.booking_tables t)).
Proof.
  intros H. unfold Site.update_booking_status, Site.may_update_booking.
  rewrite H. cbn [Site.with_bookings Site.booking_tables Supabase.bookings].
  apply map_ext. intros b. now rewrite andb_true_r.
Qed.

Section PaymentFacts.

Variable backend : PaymentPage.Backend.

Ltac run_payment :=
  unfold PaymentPage.handlePayment, and_then, get_ui, finally, catching,
    PaymentPage.setProcessing, PaymentPage.insert_payment,
    PaymentPage.confirm_booking, PaymentPage.generate_receipt,
    toast_error', toast_success', navigate', perform, pure;
  cbn [tables effects ui].

Lemma handlePayment_idle session w :
  PaymentPage.user (ui w) = None \/ PaymentPage.booking (ui w) = None ->
  PaymentPage.handlePayment backend session w = (inr tt, w).
Proof.
  intros H. run_payment.
  destruct H as [-> | ->]; [reflexivity |].
  destruct (PaymentPage.user (ui w)); reflexivity.
Qed.

Lemma handlePayment_insert_refused session w u b m :
  PaymentPage.user (ui w) = Some u -> PaymentPage.booking (ui w) = Some b ->
  PaymentPage.on_insert_payments backend (tables w) (payment_payload backend (ui w) u b)
  = inl m ->
  PaymentPage.handlePayment backend session w
  = (inr tt,
     mkPageWorld (tables w)
       (effects w ++ [Insert_payments (payment_payload backend (ui w) u b);
                      Shown (Toast_error (or_else m "Error al procesar el pago"))])
       (idle (ui w))).
Proof.
  intros Hu Hb E. run_payment. rewrite Hu, Hb.
  cbn [tables effects ui PaymentPage.booking PaymentPage.loading
       PaymentPage.processing PaymentPage.selectedMethod PaymentPage.user].
  unfold payment_payload in E. rewrite E.
  cbn [tables effects ui error_message PaymentPage.booking PaymentPage.loading
       PaymentPage.processing PaymentPage.selectedMethod PaymentPage.user].
  unfold idle, payment_payload. now rewrite <- !app_assoc.
Qed.

Lemma handlePayment_update_failed session w u b pid m :
  let payload := payment_payload backend (ui w) u b in
  let payment := Payments.mkRow pid payload in
  PaymentPage.user (ui w) = Some u -> PaymentPage.booking (ui w) = Some b ->
  PaymentPage.on_insert_payments backend (tables w) payload = inr pid ->
  PaymentPage.on_update_bookings backend (Site.add_payment (tables w) payment)
    (Supabase.id b) = Some m ->
  PaymentPage.handlePayment backend session w
  = (inr tt,
     mkPageWorld (Site.add_payment (tables w) payment)
       (effects w ++ [Insert_payments payload;
                      Update_bookings (Supabase.id b) Supabase.confirmada;
                      Shown (Toast_error (or_else m "Error al procesar el pago"))])
       (idle (ui w))).
Proof.
  intros payload payment Hu Hb E Eu. subst payload payment.
  run_payment. rewrite Hu, Hb.
  cbn [tables effects ui PaymentPage.booking PaymentPage.loading
       PaymentPage.processing PaymentPage.selectedMethod PaymentPage.user].
  unfold payment_payload in E, Eu. rewrite E.
  cbn [tables effects ui]. rewrite Eu.
  cbn [tables effects ui error_message PaymentPage.booking PaymentPage.loading
       PaymentPage.processing PaymentPage.selectedMethod PaymentPage.user].
  unfold idle, payment_payload. now rewrite <- !app_assoc.
Qed.

Lemma handlePayment_completed su w u b pid :
  let payload := payment_payload backend (ui w) u b in
  let payment := Payments.mkRow pid payload in
  let paid := Site.add_payment (tables w) payment in
  let confirmed :=
    Site.update_booking_status (user_id_of su) (Supabase.id b)
      Supabase.confirmada paid in
  PaymentPage.user (ui w) = Some u -> PaymentPage.booking (ui w) = Some b ->
  PaymentPage.on_insert_payments backend (tables w) payload = inr pid ->
  PaymentPage.on_update_bookings backend paid (Supabase.id b) = None ->
  PaymentPage.handlePayment backend (Some su) w
  = (inr tt,
     mkPageWorld confirmed
       (effects w
        ++ [Insert_payments payload;
            Update_bookings (Supabase.id b) Supabase.confirmada;
            Invoke_function "generate-receipt" pid]
        ++ match PaymentPage.on_invoke_generate_receipt backend confirmed pid with
           | Some message => [Console_error message]
           | None => []
           end
        ++ [Shown (Toast_success "¡Pago procesado exitosamente!");
            Shown (Navigate "/bookings")])
       (idle (ui w))).
Proof.
  intros payload payment paid confirmed Hu Hb E Eu.
  subst confirmed paid payload payment.
  run_payment. rewrite Hu, Hb.
  cbn [tables effects ui PaymentPage.booking PaymentPage.loading
       PaymentPage.processing PaymentPage.selectedMethod PaymentPage.user].
  unfold payment_payload in E, Eu |- *. rewrite E.
  cbn [tables effects ui]. rewrite Eu.
  cbn [tables effects ui Payments.id].
  destruct (PaymentPage.on_invoke_generate_receipt backend _ pid);
    cbn [tables effects ui PaymentPage.booking PaymentPage.loading
         PaymentPage.processing PaymentPage.selectedMethod PaymentPage.user];
    unfold idle; now rewrite <- !app_assoc.
Qed.

End PaymentFacts.

Section PaymentClaims.

Variable backend : PaymentPage.Backend.

(** X11.  The bookings table has a single policy for updates, the one for
    receptionists and administrators.  For a signed-in user without such a
    role the update of [handlePayment] matches no row and reports no
    error: the payment is stored as [completado], the page announces
    success and moves on, and every booking keeps the status it had. *)
Theorem handlePayment_client_cannot_confirm
    (su : User) (w : PaymentPage.World) (u : User)
    (b : Supabase.bookings_Row) (pid : string) :
  let payload := payment_payload backend (ui w) u b in
  let payment := Payments.mkRow pid payload in
  PaymentPage.user (ui w) = Some u -> PaymentPage.booking (ui w) = Some b ->
  Site.is_staff (tables w) (user_id_of su) = false ->
  PaymentPage.on_insert_payments backend (tables w) payload = inr pid ->
  PaymentPage.on_update_bookings backend (Site.add_payment (tables w) payment)
    (Supabase.id b) = None ->
  exists w',
    PaymentPage.handlePayment backend (Some su) w = (inr tt, w')
    /\ Site.payments (tables w') = (Site.payments (tables w) ++ [payment])%list
    /\ Payments.status (Payments.columns payment) = Payments.completado
    /\ Supabase.bookings (Site.booking_tables (tables w'))
       = Supabase.bookings (Site.booking_tables (tables w))
    /\ In (Shown (Toast_success "¡Pago procesado exitosamente!")) (effects w')
    /\ In (Shown (Navigate "/bookings")) (effects w')
    /\ PaymentPage.processing (ui w') = false.
Proof.
  intros payload payment Hu Hb Hstaff E Eu.
  rewrite (handlePayment_completed backend su w u b pid Hu Hb E Eu).
  eexists. split; [reflexivity |]. cbn [tables effects ui].
  rewrite update_booking_status_not_staff by exact Hstaff.
  repeat split.
  - rewrite !in_app_iff. right. right. right. now left.
  - rewrite !in_app_iff. right. right. right. right. now left.
Qed.

(** X12.  For a receptionist or an administrator, a payment that the
    store accepts is stored with the total of the booking as its amount,
    and the update sets exactly the booking that was paid to
    [confirmada]: its other columns and the other bookings stay as they
    were. *)
Theorem handlePayment_staff_confirms
    (su : User) (w : PaymentPage.World) (u : User)
    (b : Supabase.bookings_Row) (pid : string) :
  let payload := payment_payload backend (ui w) u b in
  let payment := Payments.mkRow pid payload in
  PaymentPage.user (ui w) = Some u -> PaymentPage.booking (ui w) = Some b ->
  Site.is_staff (tables w) (user_id_of su) = true ->
  PaymentPage.on_insert_payments backend (tables w) payload = inr pid ->
  PaymentPage.on_update_bookings backend (Site.add_payment (tables w) payment)
    (Supabase.id b) = None ->
  exists w',
    PaymentPage.handlePayment backend (Some su) w = (inr tt, w')
    /\ Site.payments (tables w') = (Site.payments (tables w) ++ [payment])%list
    /\ Payments.amount (Payments.columns payment)
       = Supabase.total_amount (Supabase.columns b)
    /\ Supabase.bookings (Site.booking_tables (tables w'))
       = map (fun x => if String.eqb (Supabase.id x) (Supabase.id b)
                       then Site.with_status Supabase.confirmada x else x)
             (Supabase.bookings (Site.booking_tables (tables w)))
    /\ (forall x, In x (Supabase.bookings (Site.booking_tables (tables w))) ->
                  Supabase.id x = Supabase.id b ->
                  In (Site.with_status Supabase.confirmada x)
                     (Supabase.bookings (Site.booking_tables (tables w'))))
    /\ (forall x, In x (Supabase.bookings (Site.booking_tables (tables w))) ->
                  Supabase.id x <> Supabase.id b ->
                  In x (Supabase.bookings (Site.booking_tables (tables w'))))
    /\ PaymentPage.processing (ui w') = false.
Proof.
  intros payload payment Hu Hb Hstaff E Eu.
  rewrite (handlePayment_completed backend su w u b pid Hu Hb E Eu).
  eexists. split; [reflexivity |]. cbn [tables effects ui].
  rewrite update_booking_status_staff by exact Hstaff.
  cbn [Site.add_payment Site.booking_tables Site.payments].
  repeat split.
  - intros x Hx Hid. apply in_map_iff. exists x. split; [| exact Hx].
    now rewrite (proj2 (String.eqb_eq _ _) Hid).
  - intros x Hx Hid. apply in_map_iff. exists x. split; [| exact Hx].
    now rewrite (proj2 (String.eqb_neq _ _) Hid).
Qed.

(** X13.  [handlePayment] does nothing at all without a user or a booking
    in the state.  If the store refuses the payment, nothing is written
    and one error message is shown.  If the payment is stored and the
    update of the booking then fails, one error message is shown and the
    payment stays in the store as [completado] beside a booking whose
    status was not changed: nothing is undone.  In both cases
    [processing] is back to false. *)
Theorem handlePayment_failure_semantics
    (session : option User) (w : PaymentPage.World) :
  (PaymentPage.user (ui w) = None \/ PaymentPage.booking (ui w) = None ->
   PaymentPage.handlePayment backend session w = (inr tt, w))
  /\ (forall u b m,
         PaymentPage.user (ui w) = Some u -> PaymentPage.booking (ui w) = Some b ->
         PaymentPage.on_insert_payments backend (tables w)
           (payment_payload backend (ui w) u b) = inl m ->
         PaymentPage.handlePayment backend session w
         = (inr tt,
            mkPageWorld (tables w)
              (effects w
               ++ [Insert_payments (payment_payload backend (ui w) u b);
                   Shown (Toast_error (or_else m "Error al procesar el pago"))])
              (idle (ui w))))
  /\ (forall u b pid m,
         let payload := payment_payload backend (ui w) u b in
         let payment := Payments.mkRow pid payload in
         PaymentPage.user (ui w) = Some u -> PaymentPage.booking (ui w) = Some b ->
         PaymentPage.on_insert_payments backend (tables w) payload = inr pid ->
         PaymentPage.on_update_bookings backend
           (Site.add_payment (tables w) payment) (Supabase.id b) = Some m ->
         exists w',
           PaymentPage.handlePayment backend session w = (inr tt, w')
           /\ effects w'
              = (effects w
                 ++ [Insert_payments payload;
                     Update_bookings (Supabase.id b) Supabase.confirmada;
                     Shown (Toast_error (or_else m "Error al procesar el pago"))])%list
           /\ Site.payments (tables w') = (Site.payments (tables w) ++ [payment])%list
           /\ Payments.status (Payments.columns payment) = Payments.completado
           /\ Site.booking_tables (tables w') = Site.booking_tables (tables w)
           /\ PaymentPage.processing (ui w') = false).
Proof.
  split; [apply handlePayment_idle |]. split.
  - intros u b m. apply handlePayment_insert_refused.
  - intros u b pid m payload payment Hu Hb E Eu.
    rewrite (handlePayment_update_failed backend session w u b pid m Hu Hb E Eu).
    eexists. split; [reflexivity |]. repeat split.
Qed.

(** X14.  A failure of the receipt function is written to the console and
    nothing else: the payment and the update stand, and the page announces
    success and moves to the list of bookings as if the receipt had been
    made. *)
Theorem handlePayment_receipt_failure_is_only_logged
    (su : User) (w : PaymentPage.World) (u : User)
    (b : Supabase.bookings_Row) (pid m : string) :
  let payload := payment_payload backend (ui w) u b in
  let payment := Payments.mkRow pid payload in
  let paid := Site.add_payment (tables w) payment in
  let confirmed :=
    Site.update_booking_status (user_id_of su) (Supabase.id b)
      Supabase.confirmada paid in
  PaymentPage.user (ui w) = Some u -> PaymentPage.booking (ui w) = Some b ->
  PaymentPage.on_insert_payments backend (tables w) payload = inr pid ->
  PaymentPage.on_update_bookings backend paid (Supabase.id b) = None ->
  PaymentPage.on_invoke_generate_receipt backend confirmed pid = Some m ->
  PaymentPage.handlePayment backend (Some su) w
  = (inr tt,
     mkPageWorld confirmed
       (effects w
        ++ [Insert_payments payload;
            Update_bookings (Supabase.id b) Supabase.confirmada;
            Invoke_function "generate-receipt" pid;
            Console_error m;
            Shown (Toast_success "¡Pago procesado exitosamente!");
            Shown (Navigate "/bookings")])
       (idle (ui w))).
Proof.
  intros payload payment paid confirmed Hu Hb E Eu Er.
  rewrite (handlePayment_completed backend su w u b pid Hu Hb E Eu).
  fold payload payment paid confirmed. rewrite Er. reflexivity.
Qed.

End PaymentClaims.

(** ** Opening the payment page *)

Lemma filter_nothing {A} (f : A -> bool) (l : list A) :
  (forall x, In x l -> f x = false) -> filter f l = [].
Proof.
  induction l as [| a l IH]; intros H; simpl; [reflexivity |].
  rewrite (H a) by now left. apply IH. intros x Hx. apply H. now right.
Qed.


Lemma select_single_booking_hidden t uid bid :
  Site.is_staff t uid = false ->
  (forall x, In x (Supabase.bookings (Site.booking_tables t)) ->
             Supabase.id x = bid ->
             Supabase.user_id (Supabase.columns x) <> uid) ->
  Site.select_single_booking t (Some uid) bid = None.
Proof.
  intros Hstaff Hforeign. unfold Site.select_single_booking.
  rewrite filter_nothing; [reflexivity |].
  intros x Hx. unfold Site.may_select_booking. rewrite Hstaff, orb_false_r.
  destruct (String.eqb_spec (Supabase.id x) bid) as [E | _]; [| reflexivity].
  simpl. apply String.eqb_neq. now apply Hforeign.
Qed.

Ltac run_mount :=
  unfold PaymentPage.mount, PaymentPage.checkAuth, PaymentPage.fetchBooking,
    PaymentPage.select_booking, PaymentPage.setUser, PaymentPage.setBooking,
    PaymentPage.setLoading, and_then, finally, catching,
    toast_error', navigate', perform, pure;
  cbn [tables effects ui option_map].


Lemma mount_fails backend su bookingId w :
  bookingId <> "" ->
  PaymentPage.on_select_bookings backend (tables w) bookingId <> None
  \/ Site.select_single_booking (tables w) (Some (user_id_of su)) bookingId = None ->
  PaymentPage.mount backend (Some su) bookingId w
  = (inr tt,
     mkPageWorld (tables w)
       (effects w ++ [Shown (Toast_error "Error al cargar la reserva");
                      Shown (Navigate "/bookings")])
       (loaded (ui w) su (PaymentPage.booking (ui w)))).
Proof.
  intros Hid H. run_mount.
  rewrite (proj2 (truthy_true bookingId) Hid).
  cbn [tables effects ui].
  destruct (PaymentPage.on_select_bookings backend (tables w) bookingId) as [m |].
  - cbn [tables effects ui]. unfold loaded. now rewrite <- !app_assoc.
  - destruct H as [H | H]; [congruence |]. rewrite H.
    cbn [tables effects ui]. unfold loaded. now rewrite <- !app_assoc.
Qed.

(** X15.  A signed-in user who is neither receptionist nor administrator
    cannot open the payment page of a booking that is not theirs: the row
    is hidden by the policies of the table, the page shows an error and
    leaves for the list of bookings with no booking in its state, and a
    call of [handlePayment] in that state does nothing. *)
Theorem payment_page_hides_foreign_booking
    (backend : PaymentPage.Backend) (su : User) (bookingId : string)
    (w : PaymentPage.World) :
  bookingId <> "" ->
  PaymentPage.booking (ui w) = None ->
  Site.is_staff (tables w) (user_id_of su) = false ->
  (forall x, In x (Supabase.bookings (Site.booking_tables (tables w))) ->
             Supabase.id x = bookingId ->
             Supabase.user_id (Supabase.columns x) <> user_id_of su) ->
  exists w',
    PaymentPage.mount backend (Some su) bookingId w = (inr tt, w')
    /\ PaymentPage.booking (ui w') = None
    /\ PaymentPage.loading (ui w') = false
    /\ effects w'
       = (effects w ++ [Shown (Toast_error "Error al cargar la reserva");
                        Shown (Navigate "/bookings")])%list
    /\ tables w' = tables w
    /\ PaymentPage.handlePayment backend (Some su) w' = (inr tt, w').
Proof.
  intros Hid Hnone Hstaff Hforeign.
  rewrite (mount_fails backend su bookingId w Hid)
    by (right; now apply select_single_booking_hidden).
  eexists. split; [reflexivity |]. cbn [tables effects ui loaded PaymentPage.booking
    PaymentPage.loading].
  repeat split; try assumption.
  apply handlePayment_idle. right. exact Hnone.
Qed.


(** ** Concrete runs of the payment page *)

Example transaction_id_of_clock :
  PaymentPage.transaction_id PaymentExamples.accepting = "TXN-1735689600000".
Proof. reflexivity. Qed.

Lemma handlePayment_client_cannot_confirm_witness :
  exists w',
    PaymentPage.handlePayment PaymentExamples.accepting (Some Examples.client)
      (PaymentExamples.ready PaymentExamples.for_client) = (inr tt, w')
    /\ List.length (Site.payments (tables w')) = 1%nat
    /\ Supabase.bookings (Site.booking_tables (tables w'))
       = [PaymentExamples.stored; PaymentExamples.foreign]
    /\ Supabase.status (Supabase.columns PaymentExamples.stored) = Supabase.pendiente.
Proof.
  destruct (handlePayment_client_cannot_confirm PaymentExamples.accepting
              Examples.client (PaymentExamples.ready PaymentExamples.for_client)
              Examples.client PaymentExamples.stored "p1"
              eq_refl eq_refl eq_refl eq_refl eq_refl)
    as [w' [E [Hp [_ [Hb _]]]]].
  exists w'. split; [exact E |]. rewrite Hp, Hb. repeat split.
Defined.

Lemma handlePayment_staff_confirms_witness :
  exists w',
    PaymentPage.handlePayment PaymentExamples.accepting (Some Examples.client)
      (PaymentExamples.ready PaymentExamples.for_receptionist) = (inr tt, w')
    /\ Supabase.bookings (Site.booking_tables (tables w'))
       = [Site.with_status Supabase.confirmada PaymentExamples.stored;
          PaymentExamples.foreign].
Proof.
  destruct (handlePayment_staff_confirms PaymentExamples.accepting
              Examples.client (PaymentExamples.ready PaymentExamples.for_receptionist)
              Examples.client PaymentExamples.stored "p1"
              eq_refl eq_refl eq_refl eq_refl eq_refl)
    as [w' [E [_ [_ [Hb _]]]]].
  exists w'. split; [exact E |]. rewrite Hb. reflexivity.
Defined.

Lemma handlePayment_failure_semantics_witness :
  PaymentPage.handlePayment PaymentExamples.accepting (Some Examples.client)
    (PaymentExamples.fresh PaymentExamples.for_client)
  = (inr tt, PaymentExamples.fresh PaymentExamples.for_client)
  /\ (exists w',
         PaymentPage.handlePayment PaymentExamples.refusing_payments
           (Some Examples.client) (PaymentExamples.ready PaymentExamples.for_client)
         = (inr tt, w')
         /\ tables w' = PaymentExamples.for_client)
  /\ (exists w',
         PaymentPage.handlePayment PaymentExamples.failing_update
           (Some Examples.client) (PaymentExamples.ready PaymentExamples.for_client)
         = (inr tt, w')
         /\ List.length (Site.payments (tables w')) = 1%nat
         /\ Site.booking_tables (tables w')
            = Site.booking_tables PaymentExamples.for_client).
Proof.
  split; [| split].
  - apply (proj1 (handlePayment_failure_semantics PaymentExamples.accepting
                    (Some Examples.client)
                    (PaymentExamples.fresh PaymentExamples.for_client))).
    left. reflexivity.
  - eexists. split.
    + apply (proj1 (proj2 (handlePayment_failure_semantics
                             PaymentExamples.refusing_payments
                             (Some Examples.client)
                             (PaymentExamples.ready PaymentExamples.for_client)))
               Examples.client PaymentExamples.stored
               "invalid input value for enum payment_method");
        reflexivity.
    + reflexivity.
  - destruct (proj2 (proj2 (handlePayment_failure_semantics
                              PaymentExamples.failing_update
                              (Some Examples.client)
                              (PaymentExamples.ready PaymentExamples.for_client)))
                Examples.client PaymentExamples.stored "p1" "Failed to fetch"
                eq_refl eq_refl eq_refl eq_refl)
      as [w' [E [_ [Hp [_ [Hb _]]]]]].
    exists w'. split; [exact E |]. rewrite Hp, Hb. split; reflexivity.
Defined.

Lemma handlePayment_receipt_failure_is_only_logged_witness :
  exists w',
    PaymentPage.handlePayment PaymentExamples.failing_receipt (Some Examples.client)
      (PaymentExamples.ready PaymentExamples.for_receptionist) = (inr tt, w')
    /\ In (Console_error "Function not found") (effects w')
    /\ In (Shown (Toast_success "¡Pago procesado exitosamente!")) (effects w').
Proof.
  eexists. split.
  - apply (handlePayment_receipt_failure_is_only_logged
             PaymentExamples.failing_receipt Examples.client
             (PaymentExamples.ready PaymentExamples.for_receptionist)
             Examples.client PaymentExamples.stored "p1" "Function not found");
      reflexivity.
  - cbn [effects]. split; simpl; tauto.
Defined.

Lemma payment_page_hides_foreign_booking_witness :
  exists w',
    PaymentPage.mount PaymentExamples.accepting (Some Examples.client) "b2"
      (PaymentExamples.fresh PaymentExamples.for_client) = (inr tt, w')
    /\ PaymentPage.booking (ui w') = None
    /\ effects w' = [Shown (Toast_error "Error al cargar la reserva");
                     Shown (Navigate "/bookings")].
Proof.
  destruct (payment_page_hides_foreign_booking PaymentExamples.accepting
              Examples.client "b2"
              (PaymentExamples.fresh PaymentExamples.for_client))
    as [w' [E [Hb [_ [He _]]]]];
    try reflexivity; try discriminate.
  - intros x [<- | [<- | []]]; simpl; discriminate.
  - exists w'. split; [exact E |]. split; [exact Hb | exact He].
Defined.


(** * Signing up and signing in *)

(** The length of a text counts UTF-16 code units, not bytes: a name of
    three letters passes [min(3)] whatever its accents. *)
Example three_letters_with_accents :
  Text.length "Añá" = 3%nat /\ String.length "Añá" = 5%nat.
Proof. split; reflexivity. Qed.

Section AuthFacts.

Variable is_email : string -> bool.
Variable backend : AuthPage.Backend.

Ltac run_auth :=
  unfold AuthPage.handleSignUp, AuthPage.handleSignIn, AuthPage.parse,
    AuthPage.setLoading, AuthPage.signUp, AuthPage.signInWithPassword,
    and_then, finally, catching, raise, set_ui,
    toast_error', toast_success', navigate', perform, pure;
  cbn [tables effects ui].

(** X17.  A sign-up form that the schema rejects is never sent: the page
    shows the message of the first rejected field, in the order full
    name, email, DNI, phone, address, password, leaves the tables alone
    and ends with [loading] false. *)
Theorem handleSignUp_invalid_form
    (data : SignUp.Data) (first : ZodForms.ZodIssue)
    (rest : list ZodForms.ZodIssue) (w : AuthPage.World) :
  AuthPage.signUpSchema_issues is_email data = first :: rest ->
  AuthPage.handleSignUp is_email backend data w
  = (inr tt,
     mkPageWorld (tables w)
       (effects w ++ [Shown (Toast_error (ZodForms.message first))]) false)
  /\ ((Text.length (SignUp.fullName data) < 3)%nat ->
      ZodForms.message first = "El nombre debe tener al menos 3 caracteres")
  /\ ((3 <= Text.length (SignUp.fullName data))%nat ->
      is_email (SignUp.email data) = true ->
      Text.digits_exactly 8 (SignUp.dni data) = false ->
      ZodForms.message first = "El DNI debe tener 8 dígitos").
Proof.
  intros E. split; [| split].
  - run_auth. rewrite E. reflexivity.
  - intros Hlen. unfold AuthPage.signUpSchema_issues in E.
    unfold ZodForms.string_min at 1 in E.
    rewrite (proj2 (Nat.ltb_lt _ _) Hlen) in E.
    simpl in E. now injection E as <- _.
  - intros Hlen Hmail Hdni. unfold AuthPage.signUpSchema_issues in E.
    unfold ZodForms.string_min at 1 in E.
    rewrite (proj2 (Nat.ltb_ge _ _) Hlen) in E.
    unfold ZodForms.string_email in E. rewrite Hmail in E.
    unfold ZodForms.string_digits at 1 in E. rewrite Hdni in E.
    simpl in E. now injection E as <- _.
Qed.

(** X18.  For a form that passes the schema: an error of the service
    whose message contains "already registered" is shown as the fixed
    sentence about the registered email, any other error as its own
    message (or a default when there is none); a reply with neither error
    nor user shows nothing at all.  None of these writes to the tables or
    leaves the page, and [loading] ends false. *)
Theorem handleSignUp_service_outcomes (data : SignUp.Data) (w : AuthPage.World) :
  let request := AuthPage.signUp_request backend data in
  AuthPage.signUpSchema_issues is_email data = [] ->
  (forall m,
      AuthPage.on_signUp backend (tables w) request = AuthPage.SignUp_error m ->
      AuthPage.handleSignUp is_email backend data w
      = (inr tt,
         mkPageWorld (tables w)
           (effects w
            ++ [Auth_signUp request;
                Shown (Toast_error
                         (if Text.includes "already registered" m
                          then "Este email ya está registrado. Intenta iniciar sesión."
                          else or_else m "Error al registrarse"))])
           false))
  /\ (forall created,
         AuthPage.on_signUp backend (tables w) request
         = AuthPage.SignUp_data None created ->
         AuthPage.handleSignUp is_email backend data w
         = (inr tt, mkPageWorld (tables w) (effects w ++ [Auth_signUp request]) false)).
Proof.
  intros request E. split.
  - intros m Er. run_auth. rewrite E. cbn [tables effects ui].
    fold request. rewrite Er. cbn [tables effects ui error_message].
    destruct (Text.includes "already registered" m);
      cbn [tables effects ui]; now rewrite <- !app_assoc.
  - intros created Er. run_auth. rewrite E. cbn [tables effects ui].
    fold request. rewrite Er. reflexivity.
Qed.


(** X20.  [handleSignIn] never writes to the tables and always ends with
    [loading] false.  A rejected form shows the message of its first
    rejected field and sends nothing; an error whose message contains
    "Invalid login" is shown as the fixed sentence about wrong
    credentials, any other error as its own message or a default; a user
    in the reply gives the welcome and the home page; a reply with
    neither shows nothing. *)
Theorem handleSignIn_outcomes (data : SignIn.Data) (w : AuthPage.World) :
  exists w',
    AuthPage.handleSignIn is_email backend data w = (inr tt, w')
    /\ tables w' = tables w
    /\ AuthPage.loading w' = false
    /\ (forall first rest,
           AuthPage.signInSchema_issues is_email data = first :: rest ->
           effects w'
           = (effects w ++ [Shown (Toast_error (ZodForms.message first))])%list)
    /\ (AuthPage.signInSchema_issues is_email data = [] ->
        let request := Auth_signInWithPassword (SignIn.email data)
                                               (SignIn.password data) in
        match AuthPage.on_signInWithPassword backend (tables w)
                (SignIn.email data) (SignIn.password data) with
        | inl m =>
            effects w'
            = (effects w
               ++ [request;
                   Shown (Toast_error
                            (if Text.includes "Invalid login" m
                             then "Email o contraseña incorrectos"
                             else or_else m "Error al iniciar sesión"))])%list
        | inr (Some _) =>
            effects w'
            = (effects w
               ++ [request; Shown (Toast_success "¡Bienvenido de vuelta!");
                   Shown (Navigate "/")])%list
        | inr None => effects w' = (effects w ++ [request])%list
        end).
Proof.
  run_auth.
  destruct (AuthPage.signInSchema_issues is_email data) as [| first rest] eqn:E.
  - cbn [tables effects ui].
    destruct (AuthPage.on_signInWithPassword backend (tables w)
                (SignIn.email data) (SignIn.password data)) as [m | [u |]] eqn:Er;
      cbn [tables effects ui error_message].
    + destruct (Text.includes "Invalid login" m) eqn:Ei;
        cbn [tables effects ui]; eexists; (split; [reflexivity |]);
        cbn [tables effects ui AuthPage.loading];
        repeat split; try discriminate; intros _; now rewrite <- !app_assoc.
    + eexists. split; [reflexivity |]. cbn [tables effects ui AuthPage.loading].
      repeat split; try discriminate. intros _. now rewrite <- !app_assoc.
    + eexists. split; [reflexivity |]. cbn [tables effects ui AuthPage.loading].
      repeat split; discriminate.
  - cbn [tables effects ui]. eexists. split; [reflexivity |].
    cbn [tables effects ui AuthPage.loading].
    repeat split; try discriminate.
    intros f r Efr. now injection Efr as <- _.
Qed.

End AuthFacts.

(** * The navigation bar *)

Lemma staff_roles_is_staff (t : Site.Tables) (uid : string) :
  (0 <? List.length (Site.staff_roles t uid))%nat = Site.is_staff t uid.
Proof.
  unfold Site.staff_roles, Site.is_staff, Site.has_role.
  induction (Site.user_roles t) as [| r l IH]; [reflexivity |].
  cbn [filter existsb].
  destruct (String.eqb (Roles.user_id r) uid); cbn [andb orb].
  - destruct (Roles.role r); cbn [Roles.app_role_eqb orb List.length Nat.ltb Nat.leb];
      try exact IH; try reflexivity.
    now rewrite orb_true_r.
  - exact IH.
Qed.

Lemma callback_flag (e : Navbar.AuthEvent) (s : Navbar.State) :
  Navbar.isReceptionist (Navbar.callback e s)
  = Navbar.finds_staff e
    || (negb (Navbar.signs_out e) && Navbar.isReceptionist s).
Proof.
  unfold Navbar.callback, Navbar.finds_staff, Navbar.signs_out, Navbar.checkUserRole.
  destruct (Navbar.session e) as [u |].
  - rewrite staff_roles_is_staff.
    destruct (negb (Navbar.query_fails e) && Site.is_staff _ _);
      destruct (Navbar.notice e); reflexivity.
  - destruct (Navbar.notice e); reflexivity.
Qed.

Lemma callback_user (e : Navbar.AuthEvent) (s : Navbar.State) :
  Navbar.user (Navbar.callback e s) = Navbar.session e.
Proof.
  unfold Navbar.callback, Navbar.checkUserRole.
  destruct (Navbar.session e) as [u |].
  - destruct (_ && _); reflexivity.
  - destruct (Navbar.notice e); reflexivity.
Qed.

Lemma after_snoc (events : list Navbar.AuthEvent) (e : Navbar.AuthEvent) :
  Navbar.after (events ++ [e]) = Navbar.callback e (Navbar.after events).
Proof. unfold Navbar.after. now rewrite fold_left_app. Qed.

Lemma split_snoc {A} (pre post l : list A) (x e : A) :
  (pre ++ x :: post = l ++ [e])%list ->
  (post = [] /\ pre = l /\ x = e)
  \/ exists post', post = (post' ++ [e])%list /\ l = (pre ++ x :: post')%list.
Proof.
  intros H. destruct post as [| p post0].
  - left. apply app_inj_tail in H. tauto.
  - right. destruct (@exists_last _ (p :: post0)) as [post' [z Ez]];
      [discriminate |].
    rewrite Ez in H |- *. rewrite app_comm_cons, app_assoc in H.
    apply app_inj_tail in H. destruct H as [H ->].
    exists post'. split; [reflexivity | now symmetry].
Qed.

(** X21.  The flag of the navigation bar is set exactly when some
    callback found a role of receptionist or administrator and the
    listener has not been told since that nobody is signed in:
    [checkUserRole] never takes the flag back, so it outlives a revoked
    role or a change of user until a sign-out.  In particular the link to
    the dashboard is never shown when no callback found such a role. *)
Theorem navbar_flag_characterised (events : list Navbar.AuthEvent) :
  (Navbar.isReceptionist (Navbar.after events) = true
   <-> exists pre e post,
         events = (pre ++ e :: post)%list
         /\ Navbar.finds_staff e = true
         /\ forall e', In e' post -> Navbar.signs_out e' = false)
  /\ ((forall e, In e events -> Navbar.finds_staff e = false) ->
      Navbar.shows_dashboard (Navbar.after events) = false).
Proof.
  assert (Hchar : Navbar.isReceptionist (Navbar.after events) = true
                  <-> exists pre e post,
                        events = (pre ++ e :: post)%list
                        /\ Navbar.finds_staff e = true
                        /\ forall e', In e' post -> Navbar.signs_out e' = false).
  { induction events as [| e events IH] using rev_ind.
    - split; [discriminate |].
      intros [pre [e [post [H _]]]]. destruct pre; discriminate.
    - rewrite after_snoc, callback_flag, orb_true_iff, andb_true_iff,
        negb_true_iff, IH.
      split.
      + intros [Hf | [Hs [pre [x [post [-> [Hx Hpost]]]]]]].
        * exists events, e, []. repeat split; auto. intros e' [].
        * exists pre, x, (post ++ [e])%list. repeat split.
          -- now rewrite <- app_assoc.
          -- exact Hx.
          -- intros e' He'. apply in_app_or in He'.
             destruct He' as [He' | [<- | []]]; auto.
      + intros [pre [x [post [Hsplit [Hx Hpost]]]]].
        symmetry in Hsplit. apply split_snoc in Hsplit.
        destruct Hsplit as [[-> [-> ->]] | [post' [-> ->]]].
        * now left.
        * right. split.
          -- apply Hpost. apply in_or_app. right. now left.
          -- exists pre, x, post'. repeat split; auto.
             intros e' He'. apply Hpost. apply in_or_app. now left. }
  split; [exact Hchar |].
  intros Hnone. unfold Navbar.shows_dashboard.
  destruct (Navbar.user (Navbar.after events)); [| reflexivity].
  apply not_true_is_false. intros H. apply Hchar in H.
  destruct H as [pre [e [post [-> [He _]]]]].
  rewrite Hnone in He; [discriminate |]. apply in_or_app. right. now left.
Qed.

(** * The profile page *)

Section ProfileFacts.

Variable backend : ProfilePage.Backend.

Ltac run_save :=
  unfold ProfilePage.handleSave, ProfilePage.update_profile, ProfilePage.setSaving,
    and_then, get_ui, finally, catching,
    toast_error', toast_success', perform, pure;
  cbn [tables effects ui].

(** X22.  [handleSave] writes the name, phone, address and DNI of the form
    into the profile of the signed-in user and into no other row, and it
    never changes the key or the email of any profile nor any other
    table; when the store reports an error no profile changes at all.  It
    ends with [saving] false, and it does nothing without a profile or a
    user in the state. *)
Theorem handleSave_touches_only_own_fields
    (su : User) (w : ProfilePage.World) :
  (ProfilePage.profile (ui w) = None \/ ProfilePage.user (ui w) = None ->
   ProfilePage.handleSave backend (Some su) w = (inr tt, w))
  /\ (forall p u,
         ProfilePage.profile (ui w) = Some p ->
         ProfilePage.user (ui w) = Some u ->
         exists w',
           ProfilePage.handleSave backend (Some su) w = (inr tt, w')
           /\ ProfilePage.saving (ui w') = false
           /\ Site.booking_tables (tables w') = Site.booking_tables (tables w)
           /\ Site.payments (tables w') = Site.payments (tables w)
           /\ Site.user_roles (tables w') = Site.user_roles (tables w)
           /\ Forall2
                (fun old new =>
                   Profiles.id new = Profiles.id old
                   /\ Profiles.email new = Profiles.email old
                   /\ (new = old
                       \/ (Profiles.id old = user_id_of u
                           /\ user_id_of su = user_id_of u
                           /\ ProfilePage.on_update_profiles backend (tables w)
                                (user_id_of u) = None
                           /\ new = Profiles.mkRow (Profiles.id old)
                                      (Profiles.full_name p) (Profiles.email old)
                                      (Profiles.phone p) (Profiles.address p)
                                      (Profiles.dni p))))
                (Site.profiles (tables w)) (Site.profiles (tables w'))
           /\ (ProfilePage.on_update_profiles backend (tables w) (user_id_of u) = None ->
               user_id_of su = user_id_of u ->
               forall old, In old (Site.profiles (tables w)) ->
                           Profiles.id old = user_id_of u ->
                           In (Profiles.mkRow (Profiles.id old)
                                 (Profiles.full_name p) (Profiles.email old)
                                 (Profiles.phone p) (Profiles.address p)
                                 (Profiles.dni p))
                              (Site.profiles (tables w')))).
Proof.
  split.
  - intros H. run_save. destruct H as [-> | ->]; [reflexivity |].
    destruct (ProfilePage.profile (ui w)); reflexivity.
  - intros p u Hp Hu. run_save. rewrite Hp, Hu. cbn [tables effects ui].
    destruct (ProfilePage.on_update_profiles backend (tables w) (user_id_of u))
      as [m |] eqn:Er; cbn [tables effects ui error_message].
    + eexists. split; [reflexivity |].
      cbn [tables effects ui ProfilePage.saving]. repeat split; try discriminate.
      induction (Site.profiles (tables w)); constructor; auto.
    + eexists. split; [reflexivity |].
      cbn [tables effects ui ProfilePage.saving Site.update_profile
           Site.booking_tables Site.payments Site.user_roles Site.profiles].
      repeat split.
      * induction (Site.profiles (tables w)) as [| old l IH];
          cbn [map]; constructor; [| exact IH].
        unfold Site.may_update_profile.
        destruct (String.eqb_spec (Profiles.id old) (user_id_of u)) as [E1 | E1];
          destruct (String.eqb_spec (user_id_of su) (Profiles.id old)) as [E2 | E2];
          cbn [andb Profiles.id Profiles.email]; repeat split; auto.
        right. repeat split; congruence.
      * intros _ Hsame old Hold Hid. apply in_map_iff. exists old.
        split; [| exact Hold]. unfold Site.may_update_profile.
        rewrite (proj2 (String.eqb_eq _ _) Hid).
        assert (E : user_id_of su = Profiles.id old) by congruence.
        now rewrite (proj2 (String.eqb_eq _ _) E).
Qed.

End ProfileFacts.

(** * Concrete runs of the other pages *)

Lemma handleSignUp_invalid_form_witness :
  AuthPage.handleSignUp AuthExamples.has_at AuthExamples.creating
    AuthExamples.short_dni AuthExamples.idle
  = (inr tt,
     mkPageWorld AuthExamples.empty_site
       [Shown (Toast_error "El DNI debe tener 8 dígitos")] false).
Proof.
  apply (proj1 (handleSignUp_invalid_form AuthExamples.has_at AuthExamples.creating
                  AuthExamples.short_dni
                  (ZodForms.mkIssue ZodForms.invalid_string ["dni"]
                     "El DNI debe tener 8 dígitos")
                  [] AuthExamples.idle eq_refl)).
Defined.

Lemma handleSignUp_service_outcomes_witness :
  AuthPage.handleSignUp AuthExamples.has_at AuthExamples.taken
    AuthExamples.form AuthExamples.idle
  = (inr tt,
     mkPageWorld AuthExamples.empty_site
       [Auth_signUp (AuthPage.signUp_request AuthExamples.taken AuthExamples.form);
        Shown (Toast_error "Este email ya está registrado. Intenta iniciar sesión.")]
       false).
Proof.
  apply (proj1 (handleSignUp_service_outcomes AuthExamples.has_at AuthExamples.taken
                  AuthExamples.form AuthExamples.idle eq_refl)
           "User already registered" eq_refl).
Defined.


Lemma handleSignIn_outcomes_witness :
  exists w',
    AuthPage.handleSignIn AuthExamples.has_at AuthExamples.taken
      (SignIn.mkData "ana@example.com" "secreto") AuthExamples.idle = (inr tt, w')
    /\ effects w'
       = [Auth_signInWithPassword "ana@example.com" "secreto";
          Shown (Toast_error "Email o contraseña incorrectos")].
Proof.
  destruct (handleSignIn_outcomes AuthExamples.has_at AuthExamples.taken
              (SignIn.mkData "ana@example.com" "secreto") AuthExamples.idle)
    as [w' [E [_ [_ [_ H]]]]].
  exists w'. split; [exact E |]. exact (H eq_refl).
Defined.

Lemma navbar_flag_characterised_witness :
  Navbar.shows_dashboard
    (Navbar.after
       [Navbar.mkAuthEvent Navbar.Initial_session (Some Examples.client)
          PaymentExamples.for_client false])
  = false.
Proof.
  apply (proj2 (navbar_flag_characterised
                  [Navbar.mkAuthEvent Navbar.Initial_session (Some Examples.client)
                     PaymentExamples.for_client false])).
  intros e [<- | []]. reflexivity.
Defined.

(** A receptionist whose role is taken away keeps the link until the
    listener hears of a sign-out. *)
Example navbar_flag_outlives_role :
  Navbar.shows_dashboard
    (Navbar.after
       [Navbar.mkAuthEvent Navbar.Initial_session (Some Examples.client)
          PaymentExamples.for_receptionist false;
        Navbar.mkAuthEvent Navbar.Auth_state_change (Some Examples.client)
          PaymentExamples.for_client false])
  = true.
Proof. reflexivity. Qed.

Lemma handleSave_touches_only_own_fields_witness :
  exists w',
    ProfilePage.handleSave ProfileExamples.accepting (Some Examples.client)
      ProfileExamples.page = (inr tt, w')
    /\ Site.profiles (tables w')
       = [Profiles.mkRow "u1" "Ana R." "ana@example.com" (Some "911111111")
            (Some "Jr. Puno 5") (Some "12345678");
          ProfileExamples.luis].
Proof.
  destruct (proj2 (handleSave_touches_only_own_fields ProfileExamples.accepting
                     Examples.client ProfileExamples.page)
              ProfileExamples.edited Examples.client eq_refl eq_refl)
    as [w' [E _]].
  exists w'. split; [exact E |].
  vm_compute in E. injection E as <-. reflexivity.
Defined.

(** * From the loaded services to the stored total *)






